(** * LeopardWeb course catalog fetcher: a shallow embedding

    This development models [leopardweb_courses.py]: the session and
    pagination client ([LeopardWebClient]) and the record flattener
    ([flatten_course_data]).

    Conventions.
    - A decoded JSON document is a value of [json].  A Python [dict] is an
      association list in insertion order, [None] is [JNull].  A number
      written without fraction or exponent decodes to an [int] ([JInt]),
      any other number to a [float] ([JFloat]): a zero, an infinity, a NaN
      or [+-m * 2^e], as in the standard library's [spec_float].
    - A Python [str] is a [string] whose characters are code points below 256.
    - Code that can raise returns a [result]; the exception classes the
      source distinguishes are the constructors of [exn].
    - Console output ([print], [tqdm]) has no effect on any value computed
      and is left out; so is the time-stamped [uniqueSessionId] parameter,
      which no reply is required to depend on.
    - A response body is either empty or already decoded.  A cookie jar is
      the list of its cookies, name and value; cookies of different domain
      or path may share a name. *)

From Stdlib Require Import ZArith List String Ascii Bool Lia DecimalString.
From Stdlib Require Import SpecFloat.
Import ListNotations.

Local Open Scope string_scope.
Local Open Scope list_scope.

(** ** JSON values and Python exceptions *)

#[local] Unset Elimination Schemes.
Inductive json : Type :=
| JNull
| JBool (b : bool)
| JInt (n : Z)
| JStr (s : string)
| JList (l : list json)
| JDict (d : list (string * json))
| JFloat (x : spec_float).
#[local] Set Elimination Schemes.

Inductive exn : Type :=
| RequestException       (* requests.RequestException and its subclasses *)
| SessionCookieMissing   (* Exception("Failed to obtain session cookie") *)
| SessionInitFailed      (* Exception("Failed to initialize search session: ...") *)
| SessionNotInitialized  (* Exception("Session not initialized - ...") *)
| CatalogPageFailed      (* Exception("Failed to fetch catalog page: ...") *)
| AttributeError
| TypeError
| KeyError
| CookieConflictError    (* requests.cookies.CookieConflictError, a RuntimeError *)
| OSError                (* open() or a write on a file that cannot be written *)
| UnicodeEncodeError.    (* a cell the file's encoding cannot take *)

(** [Diverge] is the outcome of a [while True] loop that has used up the
    fuel it was given; no other code produces it. *)
Inductive result (A : Type) : Type :=
| Ok (a : A)
| Raise (e : exn)
| Diverge.

Arguments Ok {A} a.
Arguments Raise {A} e.
Arguments Diverge {A}.

Definition rbind {A B : Type} (r : result A) (k : A -> result B) : result B :=
  match r with
  | Ok a => k a
  | Raise e => Raise e
  | Diverge => Diverge
  end.

Declare Scope result_scope.
Delimit Scope result_scope with result.
Notation "x <- e ;; k" := (rbind e (fun x => k))
  (at level 100, e at next level, right associativity) : result_scope.
Notation "' p <- e ;; k" := (rbind e (fun p => k))
  (at level 100, p pattern, e at next level, right associativity) : result_scope.

(** ** Python built-ins on JSON values *)

Module Py.

(** Truth value testing: [None], [False], zero (of either sign, for a
    float) and empty containers are false; a NaN is true. *)
Definition truthy (v : json) : bool :=
  match v with
  | JNull => false
  | JBool b => b
  | JInt n => negb (n =? 0)%Z
  | JStr s => negb (s =? "")
  | JList l => match l with [] => false | _ :: _ => true end
  | JDict d => match d with [] => false | _ :: _ => true end
  | JFloat x => match x with S754_zero _ => false | _ => true end
  end.

Fixpoint dict_get (k : string) (d : list (string * json)) : option json :=
  match d with
  | [] => None
  | (k', v) :: d' => if k' =? k then Some v else dict_get k d'
  end.

(** [d[k] = v]: an existing key keeps its place, a new key goes last. *)
Fixpoint dict_set (k : string) (v : json) (d : list (string * json))
  : list (string * json) :=
  match d with
  | [] => [(k, v)]
  | (k', v') :: d' =>
      if k' =? k then (k', v) :: d' else (k', v') :: dict_set k v d'
  end.

Definition or_default (v : option json) (default : json) : json :=
  match v with Some x => x | None => default end.

(** [o.get(k, default)]; only a dict has the method. *)
Definition get (o : json) (k : string) (default : json) : result json :=
  match o with
  | JDict d => Ok (or_default (dict_get k d) default)
  | _ => Raise AttributeError
  end.

(** [o[k]] for a string key. *)
Definition getitem (o : json) (k : string) : result json :=
  match o with
  | JDict d => match dict_get k d with Some v => Ok v | None => Raise KeyError end
  | _ => Raise TypeError
  end.

(** [o[k] = v] for a string key. *)
Definition setitem (o : json) (k : string) (v : json) : result json :=
  match o with
  | JDict d => Ok (JDict (dict_set k v d))
  | _ => Raise TypeError
  end.

Definition chars (s : string) : list json :=
  map (fun c => JStr (String c EmptyString)) (list_ascii_of_string s).

(** The items a [for] loop or [list.extend] draws from a value: the
    elements of a list, the characters of a str, the keys of a dict. *)
Definition iter (v : json) : result (list json) :=
  match v with
  | JList l => Ok l
  | JStr s => Ok (chars s)
  | JDict d => Ok (map (fun kv => JStr (fst kv)) d)
  | _ => Raise TypeError
  end.

(** [x <= n] for a float [x] and an int [n].  Python compares the two
    exactly: a NaN is below nothing, [+-m * 2^e] is compared as a
    rational. *)
Definition float_le_int (x : spec_float) (n : Z) : bool :=
  match x with
  | S754_nan => false
  | S754_infinity negative => negative
  | S754_zero _ => (0 <=? n)%Z
  | S754_finite negative m e =>
      let m' := if negative then Z.neg m else Z.pos m in
      if (0 <=? e)%Z then (m' * 2 ^ e <=? n)%Z
      else (m' <=? n * 2 ^ (- e))%Z
  end.

(** [n >= v] for an int [n]: defined against an int, a bool or a float. *)
Definition int_ge (n : Z) (v : json) : result bool :=
  match v with
  | JInt m => Ok (m <=? n)%Z
  | JBool b => Ok ((if b then 1 else 0) <=? n)%Z
  | JFloat x => Ok (float_le_int x n)
  | _ => Raise TypeError
  end.

(** [c.upper()] for an ASCII character. *)
Definition upper_char (c : ascii) : ascii :=
  let n := nat_of_ascii c in
  if ((97 <=? n) && (n <=? 122))%nat then ascii_of_nat (n - 32) else c.

(** [s[0].upper()] for a non-empty ASCII word. *)
Definition initial (s : string) : string :=
  match s with
  | EmptyString => EmptyString
  | String c _ => String (upper_char c) EmptyString
  end.

Definition is_space (c : ascii) : bool :=
  let n := nat_of_ascii c in
  ((9 <=? n) && (n <=? 13) || (28 <=? n) && (n <=? 32)
   || (n =? 133) || (n =? 160))%nat.

Fixpoint lstrip_chars (l : list ascii) : list ascii :=
  match l with
  | [] => []
  | c :: l' => if is_space c then lstrip_chars l' else l
  end.

(** [s.strip()] *)
Definition strip (s : string) : string :=
  string_of_list_ascii
    (rev (lstrip_chars (rev (lstrip_chars (list_ascii_of_string s))))).

Fixpoint join_strs (sep : string) (l : list string) : string :=
  match l with
  | [] => ""
  | [s] => s
  | s :: l' => s ++ sep ++ join_strs sep l'
  end.

Fixpoint strs_of (l : list json) : result (list string) :=
  match l with
  | [] => Ok []
  | JStr s :: l' => (ss <- strs_of l' ;; Ok (s :: ss))%result
  | _ :: _ => Raise TypeError
  end.

(** [sep.join(l)]: every item must be a str. *)
Definition join (sep : string) (l : list json) : result string :=
  (ss <- strs_of l ;; Ok (join_strs sep ss))%result.

Section Format.

(** [repr] of a list, dict or float, as an f-string prints it.  The text
    depends on the interpreter's escaping and rounding rules and is kept
    abstract. *)
Variable repr : json -> string.

(** [str(v)], the text an f-string substitutes for [{v}]. *)
Definition str (v : json) : string :=
  match v with
  | JNull => "None"
  | JBool true => "True"
  | JBool false => "False"
  | JInt n => NilZero.string_of_int (Z.to_int n)
  | JStr s => s
  | JList _ | JDict _ | JFloat _ => repr v
  end.

End Format.

End Py.

(** ** The record flattener *)

Section Flattener.

Variable repr : json -> string.

Local Open Scope result_scope.

Definition WEEK : list string :=
  ["monday"; "tuesday"; "wednesday"; "thursday"; "friday"; "saturday";
   "sunday"].

(** The inner loop over the seven day names: [days] collects
    [day[0].upper()] for every day whose flag is truthy. *)
Fixpoint collect_days (mt : json) (week : list string) (days : list string)
  : result (list string) :=
  match week with
  | [] => Ok days
  | day :: week' =>
      flag <- Py.get mt day JNull ;;
      collect_days mt week'
        (if Py.truthy flag then days ++ [Py.initial day] else days)
  end.

(** The f-string [f"{a}{sep}{b}"]. *)
Definition fmt2 (a : json) (sep : string) (b : json) : string :=
  Py.str repr a ++ sep ++ Py.str repr b.

(** The three accumulators of the meeting loops. *)
Record meetings : Type := {
  meeting_days : list json;
  meeting_times : list json;
  meeting_locations : list json
}.

Definition no_meetings : meetings :=
  {| meeting_days := []; meeting_times := []; meeting_locations := [] |}.

Definition add_days (mt : json) (acc : list json) : result (list json) :=
  days <- collect_days mt WEEK [] ;;
  Ok (match days with
      | [] => acc
      | _ :: _ => acc ++ [JStr (Py.join_strs "" days)]
      end).

Definition add_times (mt : json) (acc : list json) : result (list json) :=
  begin_time <- Py.get mt "beginTime" (JStr "") ;;
  end_time <- Py.get mt "endTime" (JStr "") ;;
  Ok (if Py.truthy begin_time && Py.truthy end_time
      then acc ++ [JStr (fmt2 begin_time "-" end_time)]
      else acc).

(** Body of the loop over [course["_faculty_meeting_times"]]. *)
Definition fmt_entry (fmt_data : json) (acc : meetings) : result meetings :=
  mt <- Py.get fmt_data "meetingTime" (JDict []) ;;
  ds <- add_days mt (meeting_days acc) ;;
  ts <- add_times mt (meeting_times acc) ;;
  building <- Py.get mt "building" (JStr "") ;;
  building_desc <- Py.get mt "buildingDescription" (JStr "") ;;
  room <- Py.get mt "room" (JStr "") ;;
  let location := if Py.truthy building_desc then building_desc else building in
  let location :=
    if Py.truthy room then JStr (Py.strip (fmt2 location " " room))
    else location in
  Ok {| meeting_days := ds;
        meeting_times := ts;
        meeting_locations :=
          if Py.truthy location then meeting_locations acc ++ [location]
          else meeting_locations acc |}.

(** Body of the loop over [course["meetingsFaculty"]]. *)
Definition embedded_entry (meeting : json) (acc : meetings) : result meetings :=
  mt <- Py.get meeting "meetingTime" (JDict []) ;;
  ds <- add_days mt (meeting_days acc) ;;
  ts <- add_times mt (meeting_times acc) ;;
  building <- Py.get mt "building" (JStr "") ;;
  room <- Py.get mt "room" (JStr "") ;;
  Ok {| meeting_days := ds;
        meeting_times := ts;
        meeting_locations :=
          if Py.truthy building || Py.truthy room
          then meeting_locations acc ++ [JStr (Py.strip (fmt2 building " " room))]
          else meeting_locations acc |}.

Fixpoint for_each {A S : Type} (body : A -> S -> result S) (items : list A)
         (acc : S) : result S :=
  match items with
  | [] => Ok acc
  | x :: items' => acc' <- body x acc ;; for_each body items' acc'
  end.

Definition faculty_entry (faculty : json) (names : list json)
  : result (list json) :=
  display_name <- Py.get faculty "displayName" (JStr "") ;;
  Ok (if Py.truthy display_name then names ++ [display_name] else names).

Definition faculty_names_of (course : json) : result (list json) :=
  fac <- Py.get course "faculty" JNull ;;
  if Py.truthy fac then
    fl <- Py.getitem course "faculty" ;;
    items <- Py.iter fl ;;
    for_each faculty_entry items []
  else Ok [].

(** The loop of the [if] branch, over the attached faculty meeting
    times. *)
Definition fmt_meetings (course : json) : result meetings :=
  fl <- Py.getitem course "_faculty_meeting_times" ;;
  items <- Py.iter fl ;;
  for_each fmt_entry items no_meetings.

(** The [elif] branch, over the meetings embedded in the summary. *)
Definition embedded_meetings (course : json) : result meetings :=
  embedded <- Py.get course "meetingsFaculty" JNull ;;
  if Py.truthy embedded then
    ml <- Py.getitem course "meetingsFaculty" ;;
    items <- Py.iter ml ;;
    for_each embedded_entry items no_meetings
  else Ok no_meetings.

(** The [if] / [elif] that picks the source of the meeting columns. *)
Definition course_meetings (course : json) : result meetings :=
  attached <- Py.get course "_faculty_meeting_times" JNull ;;
  if Py.truthy attached then fmt_meetings course
  else embedded_meetings course.

(** [", ".join(l) if l else ""] *)
Definition joined (l : list json) : result json :=
  match l with
  | [] => Ok (JStr "")
  | _ :: _ => s <- Py.join ", " l ;; Ok (JStr s)
  end.

Definition flatten_course_data (course : json) : result (list (string * json)) :=
  faculty_names <- faculty_names_of course ;;
  m <- course_meetings course ;;
  crn <- Py.get course "courseReferenceNumber" (JStr "") ;;
  subject <- Py.get course "subject" (JStr "") ;;
  course_number <- Py.get course "courseNumber" (JStr "") ;;
  section <- Py.get course "sequenceNumber" (JStr "") ;;
  title <- Py.get course "courseTitle" (JStr "") ;;
  credit_hours <- Py.get course "creditHours" (JStr "") ;;
  schedule_type <- Py.get course "scheduleTypeDescription" (JStr "") ;;
  method <- Py.get course "instructionalMethod" (JStr "") ;;
  faculty <- joined faculty_names ;;
  days <- joined (meeting_days m) ;;
  times <- joined (meeting_times m) ;;
  location <- joined (meeting_locations m) ;;
  campus <- Py.get course "campusDescription" (JStr "") ;;
  enrollment <- Py.get course "enrollment" (JStr "") ;;
  maximum <- Py.get course "maximumEnrollment" (JStr "") ;;
  seats <- Py.get course "seatsAvailable" (JStr "") ;;
  wait_count <- Py.get course "waitCount" (JStr "") ;;
  wait_capacity <- Py.get course "waitCapacity" (JStr "") ;;
  Ok [("CRN", crn);
      ("Subject", subject);
      ("Course Number", course_number);
      ("Section", section);
      ("Title", title);
      ("Credit Hours", credit_hours);
      ("Schedule Type", schedule_type);
      ("Instructional Method", method);
      ("Faculty", faculty);
      ("Meeting Days", days);
      ("Meeting Times", times);
      ("Location", location);
      ("Campus", campus);
      ("Enrollment Current", enrollment);
      ("Enrollment Max", maximum);
      ("Seats Available", seats);
      ("Waitlist Current", wait_count);
      ("Waitlist Max", wait_capacity)].

End Flattener.


(** ** The catalog service as the client sees it *)

Record response : Type := {
  status_code : Z;
  (** [response.cookies]: name and value of each cookie in iteration
      order; the value is [None] for a cookie sent without [=value]. *)
  cookies : list (string * option string);
  (** [None] when [response.text] is empty, otherwise the decoded body. *)
  body : option json
}.

(** What [session.get] or [session.post] produces: a transport failure
    (raised as a [RequestException]) or a response. *)
Inductive reply : Type :=
| TransportError
| Response (r : response).

Inductive request : Type :=
| PostTermSearch (term : string)
| GetSearchResults (term cookie : string) (pageOffset pageMaxSize : Z)
| GetClassDetails (term : string) (crn : json)
| GetFacultyMeetingTimes (term : string) (crn : json).

(** The service answers the [n]-th request of a run; the answer may depend
    on [n], so any sequence of answers is a [service]. *)
Definition service : Type := nat -> request -> reply.

(** [response.raise_for_status()] raises for a 4xx or 5xx status. *)
Definition is_http_error (r : response) : bool :=
  ((400 <=? status_code r) && (status_code r <? 600))%Z.

(** The loop of [RequestsCookieJar._find_no_duplicates(name)]: a cookie of
    that name met after [toReturn] has been set raises a
    [CookieConflictError]. *)
Fixpoint find_no_duplicates (name : string) (jar : list (string * option string))
         (toReturn : option string) : result (option string) :=
  match jar with
  | [] => Ok toReturn
  | (n, value) :: jar' =>
      if n =? name then
        match toReturn with
        | Some _ => Raise CookieConflictError
        | None => find_no_duplicates name jar' value
        end
      else find_no_duplicates name jar' toReturn
  end.

(** [jar.get(name)]: the value found if it is truthy, else the [KeyError]
    of [_find_no_duplicates] is caught and the default [None] returned. *)
Definition cookies_get (name : string) (jar : list (string * option string))
  : result (option string) :=
  (toReturn <- find_no_duplicates name jar None ;;
   match toReturn with
   | Some v => if v =? "" then Ok None else Ok (Some v)
   | None => Ok None
   end)%result.

(** ** The client *)

Module LeopardWebClient.

Record client : Type := {
  session_cookie : option string;
  (** number of requests sent so far *)
  requests_sent : nat
}.

(** [LeopardWebClient()] *)
Definition init : client := {| session_cookie := None; requests_sent := 0 |}.

Definition M (A : Type) : Type := client -> result A * client.

Definition ret {A : Type} (a : A) : M A := fun c => (Ok a, c).

Definition raise {A : Type} (e : exn) : M A := fun c => (Raise e, c).

Definition bind {A B : Type} (m : M A) (k : A -> M B) : M B :=
  fun c =>
    match m c with
    | (Ok a, c') => k a c'
    | (Raise e, c') => (Raise e, c')
    | (Diverge, c') => (Diverge, c')
    end.

Definition lift {A : Type} (r : result A) : M A := fun c => (r, c).

(** [try: body  except requests.RequestException: handler] *)
Definition try_except {A : Type} (body handler : M A) : M A :=
  fun c =>
    match body c with
    | (Raise RequestException, c') => handler c'
    | rc => rc
    end.

(** The client after one more request. *)
Definition sent (c : client) : client :=
  {| session_cookie := session_cookie c; requests_sent := S (requests_sent c) |}.

Definition get_cookie : M (option string) := fun c => (Ok (session_cookie c), c).

Definition set_cookie (v : string) : M unit :=
  fun c => (Ok tt, {| session_cookie := Some v; requests_sent := requests_sent c |}).

Declare Scope client_scope.
Delimit Scope client_scope with client.
Notation "x <- e ;; k" := (bind e (fun x => k))
  (at level 100, e at next level, right associativity) : client_scope.
Notation "e ;;; k" := (bind e (fun _ => k))
  (at level 100, right associativity) : client_scope.

Section Client.

Variable server : service.

Local Open Scope client_scope.

(** [self.session.get(...)] / [self.session.post(...)] *)
Definition send (req : request) : M response :=
  fun c =>
    match server (requests_sent c) req with
    | TransportError => (Raise RequestException, sent c)
    | Response r => (Ok r, sent c)
    end.

Definition raise_for_status (r : response) : M unit :=
  if is_http_error r then raise RequestException else ret tt.

Definition initialize_search_session (term : string) : M string :=
  try_except
    (response <- send (PostTermSearch term) ;;
     raise_for_status response ;;;
     jsessionid <- lift (cookies_get "JSESSIONID" (cookies response)) ;;
     match jsessionid with
     | None => raise SessionCookieMissing
     | Some jsessionid =>
         if jsessionid =? "" then raise SessionCookieMissing
         else set_cookie jsessionid ;;; ret jsessionid
     end)
    (raise SessionInitFailed).

(** [response.json()]: decoding an empty body fails with a
    [JSONDecodeError], a [RequestException]. *)
Definition response_json (r : response) : M json :=
  match body r with
  | Some j => ret j
  | None => raise RequestException
  end.

Definition fetch_catalog_page (term : string) (offset page_size : Z) : M json :=
  cookie <- get_cookie ;;
  match cookie with
  | None => raise SessionNotInitialized
  | Some session =>
      if session =? "" then raise SessionNotInitialized
      else
        try_except
          (response <- send (GetSearchResults term session offset page_size) ;;
           raise_for_status response ;;;
           response_json response)
          (raise CatalogPageFailed)
  end.

(** [response.json() if response.text else None] *)
Definition json_or_none (r : response) : M json :=
  match body r with
  | Some j => ret j
  | None => ret JNull
  end.

Definition get_class_details (term : string) (crn : json) : M json :=
  try_except
    (response <- send (GetClassDetails term crn) ;;
     raise_for_status response ;;;
     json_or_none response)
    (ret JNull).

Definition get_faculty_meeting_times (term : string) (crn : json) : M json :=
  try_except
    (response <- send (GetFacultyMeetingTimes term crn) ;;
     raise_for_status response ;;;
     json_or_none response)
    (ret JNull).

Definition page_size : Z := 500.

(** [all_courses.extend(courses)] *)
Definition extend (all_courses : list json) (courses : json)
  : result (list json) :=
  (items <- Py.iter courses ;; Ok (all_courses ++ items))%result.

(** One pass through the body of the [while True] loop, up to the test
    that decides the [break]: the flag, the grown [all_courses] and the
    [total_count] in force.  [total_count] is [JNull] until the first page
    has been read. *)
Definition catalog_page (term : string) (all_courses : list json)
           (offset : Z) (total_count : json) : M (bool * list json * json) :=
  data <- fetch_catalog_page term offset page_size ;;
  courses <- lift (Py.get data "data" (JList [])) ;;
  total_count <-
    match total_count with
    | JNull => lift (Py.get data "totalCount" (JInt 0))
    | _ => ret total_count
    end ;;
  all_courses <- lift (extend all_courses courses) ;;
  reached <- lift (Py.int_ge (Z.of_nat (List.length all_courses)) total_count) ;;
  ret (reached || negb (Py.truthy courses), all_courses, total_count).

(** The [while True] loop of [get_course_catalog]. *)
Fixpoint catalog_loop (fuel : nat) (term : string) (all_courses : list json)
         (offset : Z) (total_count : json) : M (list json) :=
  match fuel with
  | O => lift Diverge
  | S fuel' =>
      step <- catalog_page term all_courses offset total_count ;;
      let '(stop, all_courses, total_count) := step in
      if stop : bool then ret all_courses
      else catalog_loop fuel' term all_courses (offset + page_size) total_count
  end.

(** [if details: course["_detailed"] = details] *)
Definition attach_detailed (course details : json) : result json :=
  if Py.truthy details then Py.setitem course "_detailed" details
  else Ok course.

(** [if meeting_times and meeting_times.get("fmt"):
       course["_faculty_meeting_times"] = meeting_times["fmt"]] *)
Definition attach_meeting_times (course meeting_times : json) : result json :=
  (has_fmt <-
     (if Py.truthy meeting_times then
        fmt <- Py.get meeting_times "fmt" JNull ;; Ok (Py.truthy fmt)
      else Ok false) ;;
   if has_fmt : bool then
     fmt <- Py.getitem meeting_times "fmt" ;;
     Py.setitem course "_faculty_meeting_times" fmt
   else Ok course)%result.

(** Body of the enrichment loop. *)
Definition enrich_course (term : string) (course : json) : M json :=
  crn <- lift (Py.get course "courseReferenceNumber" JNull) ;;
  if Py.truthy crn then
    details <- get_class_details term crn ;;
    course <- lift (attach_detailed course details) ;;
    meeting_times <- get_faculty_meeting_times term crn ;;
    lift (attach_meeting_times course meeting_times)
  else ret course.

(** [for course in all_courses: ...]; the dicts are updated in place, so
    the list keeps its length and order. *)
Fixpoint enrich_all (term : string) (courses : list json) : M (list json) :=
  match courses with
  | [] => ret []
  | course :: rest =>
      course' <- enrich_course term course ;;
      rest' <- enrich_all term rest ;;
      ret (course' :: rest')
  end.

Definition get_course_catalog (fuel : nat) (term : string) (detailed : bool)
  : M (list json) :=
  initialize_search_session term ;;;
  all_courses <- catalog_loop fuel term [] 0%Z JNull ;;
  if detailed && Py.truthy (JList all_courses) then enrich_all term all_courses
  else ret all_courses.

End Client.

End LeopardWebClient.

(** ** The shape of the data *)

(** The column names of a flat record, in order. *)
Definition FLAT_FIELDS : list string :=
  ["CRN"; "Subject"; "Course Number"; "Section"; "Title"; "Credit Hours";
   "Schedule Type"; "Instructional Method"; "Faculty"; "Meeting Days";
   "Meeting Times"; "Location"; "Campus"; "Enrollment Current";
   "Enrollment Max"; "Seats Available"; "Waitlist Current"; "Waitlist Max"].

(** The columns copied from one key of the summary: column, key. *)
Definition PASSTHROUGH : list (string * string) :=
  [("CRN", "courseReferenceNumber"); ("Subject", "subject");
   ("Course Number", "courseNumber"); ("Section", "sequenceNumber");
   ("Title", "courseTitle"); ("Credit Hours", "creditHours");
   ("Schedule Type", "scheduleTypeDescription");
   ("Instructional Method", "instructionalMethod");
   ("Campus", "campusDescription"); ("Enrollment Current", "enrollment");
   ("Enrollment Max", "maximumEnrollment");
   ("Seats Available", "seatsAvailable"); ("Waitlist Current", "waitCount");
   ("Waitlist Max", "waitCapacity")].

Definition MEETING_FIELDS : list string :=
  ["Meeting Days"; "Meeting Times"; "Location"].

(** The keys enrichment writes. *)
Definition ATTACHMENTS : list string := ["_detailed"; "_faculty_meeting_times"].

Definition is_attachment (k : string) : bool :=
  existsb (String.eqb k) ATTACHMENTS.

(** A dict without its attachment keys, order kept. *)
Definition summary_part (d : list (string * json)) : list (string * json) :=
  filter (fun kv => negb (is_attachment (fst kv))) d.

(** A text field of the service: missing, [null] or a string. *)
Definition is_text (v : option json) : bool :=
  match v with
  | None | Some JNull | Some (JStr _) => true
  | Some _ => false
  end.

Definition TEXT_KEYS : list string :=
  ["beginTime"; "endTime"; "building"; "buildingDescription"; "room"].

(** A meeting entry: an object whose [meetingTime], when there, is an
    object with text fields; the day flags may be anything. *)
Definition is_meeting_entry (e : json) : bool :=
  match e with
  | JDict d =>
      match Py.dict_get "meetingTime" d with
      | None => true
      | Some (JDict mt) => forallb (fun k => is_text (Py.dict_get k mt)) TEXT_KEYS
      | Some _ => false
      end
  | _ => false
  end.

Definition is_meeting_list (v : option json) : bool :=
  match v with
  | None | Some JNull => true
  | Some (JList l) => forallb is_meeting_entry l
  | Some _ => false
  end.

Definition is_faculty_entry (e : json) : bool :=
  match e with
  | JDict d => is_text (Py.dict_get "displayName" d)
  | _ => false
  end.

Definition is_faculty_list (v : option json) : bool :=
  match v with
  | None | Some JNull => true
  | Some (JList l) => forallb is_faculty_entry l
  | Some _ => false
  end.

(** A CourseSummary, with or without attachments: an object whose faculty
    list and meeting lists, when there, have the shape above.  Every other
    key may hold any value. *)
Definition is_course_summary (c : json) : bool :=
  match c with
  | JDict d =>
      is_faculty_list (Py.dict_get "faculty" d)
      && is_meeting_list (Py.dict_get "meetingsFaculty" d)
      && is_meeting_list (Py.dict_get "_faculty_meeting_times" d)
  | _ => false
  end.

Definition is_str (v : json) : bool :=
  match v with JStr _ => true | _ => false end.

Definition all_str (m : meetings) : bool :=
  forallb is_str (meeting_days m) && forallb is_str (meeting_times m)
  && forallb is_str (meeting_locations m).

(** The row [flatten_course_data] returns for the summary [d] once the
    four joined columns are known. *)
Definition row (d : list (string * json)) (faculty days times location : json)
  : list (string * json) :=
  let field k := Py.or_default (Py.dict_get k d) (JStr "") in
  [("CRN", field "courseReferenceNumber");
   ("Subject", field "subject");
   ("Course Number", field "courseNumber");
   ("Section", field "sequenceNumber");
   ("Title", field "courseTitle");
   ("Credit Hours", field "creditHours");
   ("Schedule Type", field "scheduleTypeDescription");
   ("Instructional Method", field "instructionalMethod");
   ("Faculty", faculty);
   ("Meeting Days", days);
   ("Meeting Times", times);
   ("Location", location);
   ("Campus", field "campusDescription");
   ("Enrollment Current", field "enrollment");
   ("Enrollment Max", field "maximumEnrollment");
   ("Seats Available", field "seatsAvailable");
   ("Waitlist Current", field "waitCount");
   ("Waitlist Max", field "waitCapacity")].

(** The summary of the worked example: one instructor, one embedded
    meeting, nothing attached. *)
Definition smith_course : json :=
  JDict [("faculty", JList [JDict [("displayName", JStr "A. Smith")]]);
         ("meetingsFaculty",
          JList [JDict [("meetingTime",
             JDict [("monday", JBool true); ("wednesday", JBool true);
                    ("beginTime", JStr "1000"); ("endTime", JStr "1050");
                    ("building", JStr "WENT"); ("room", JStr "100")])]])].

(** A summary whose two embedded meetings fill different columns: the
    first has times only, the second has days, times and a place. *)
Definition staggered_course : json :=
  JDict [("courseReferenceNumber", JStr "12345");
         ("meetingsFaculty",
          JList [JDict [("meetingTime",
                   JDict [("beginTime", JStr "0800"); ("endTime", JStr "0850")])];
                 JDict [("meetingTime",
                   JDict [("tuesday", JBool true); ("thursday", JBool true);
                          ("beginTime", JStr "1000"); ("endTime", JStr "1050");
                          ("building", JStr "WENT"); ("room", JStr "100")])]])].

(** The three meeting columns of a row. *)
Definition meeting_columns (r : list (string * json)) : list (option json) :=
  map (fun col => Py.dict_get col r) MEETING_FIELDS.

(** A summary with both sources: an embedded Monday meeting and an
    attached Friday meeting in the Annex. *)
Definition both_sources : list (string * json) :=
  [("meetingsFaculty",
    JList [JDict [("meetingTime",
             JDict [("monday", JBool true); ("beginTime", JStr "1000");
                    ("endTime", JStr "1050"); ("building", JStr "WENT")])]]);
   ("_faculty_meeting_times",
    JList [JDict [("meetingTime",
             JDict [("friday", JBool true); ("beginTime", JStr "1400");
                    ("endTime", JStr "1515"); ("building", JStr "ANX");
                    ("buildingDescription", JStr "Annex Central");
                    ("room", JStr "201")])]])].

(** ** Vocabulary for the client's properties *)

(** A per-course lookup fails: transport error, error status or empty
    body. *)
Definition lookup_fails (rep : reply) : bool :=
  match rep with
  | TransportError => true
  | Response r =>
      is_http_error r || match body r with None => true | Some _ => false end
  end.

(** What a per-course lookup hands back for a reply. *)
Definition lookup_value (rep : reply) : json :=
  match rep with
  | TransportError => JNull
  | Response r =>
      if is_http_error r then JNull
      else match body r with Some j => j | None => JNull end
  end.

(** What [fetch_catalog_page] makes of a reply. *)
Definition page_value (rep : reply) : result json :=
  match rep with
  | TransportError => Raise CatalogPageFailed
  | Response r =>
      if is_http_error r then Raise CatalogPageFailed
      else match body r with Some j => Ok j | None => Raise CatalogPageFailed end
  end.

(** The number a [total_count] stands for in a comparison with an int. *)
Definition count_of (v : json) : option Z :=
  match v with
  | JInt n => Some n
  | JBool b => Some (if b then 1 else 0)%Z
  | _ => None
  end.

Definition ceil_div (a b : Z) : Z := ((a + b - 1) / b)%Z.

(** A [total_count] that no length reaches: positive infinity or a NaN,
    which a [totalCount] of [1e999] or [NaN] decodes to. *)
Definition never_reached (v : json) : bool :=
  match v with
  | JFloat S754_nan | JFloat (S754_infinity false) => true
  | _ => false
  end.

(** An int from which on every length has reached a total that can be
    reached. *)
Definition reach_bound (v : json) : Z :=
  match v with
  | JInt n => n
  | JBool b => if b then 1 else 0
  | JFloat (S754_finite false m e) => (Z.pos m * 2 ^ Z.max e 0)%Z
  | _ => 0%Z
  end.

(** The [total_count] the loop captures from a reply to its first page
    request. *)
Definition captured_total (rep : reply) : option json :=
  match page_value rep with
  | Ok (JDict d) => Some (Py.or_default (Py.dict_get "totalCount" d) (JInt 0))
  | _ => None
  end.

Definition reachable_total (rep : reply) : bool :=
  match captured_total rep with
  | Some v => negb (never_reached v)
  | None => true
  end.

(** The values of the cookies named [name], in jar order. *)
Fixpoint cookie_values (name : string) (jar : list (string * option string))
  : list (option string) :=
  match jar with
  | [] => []
  | (n, value) :: jar' =>
      if n =? name then value :: cookie_values name jar'
      else cookie_values name jar'
  end.

(** The values from the first cookie that has one. *)
Fixpoint from_first_value (values : list (option string)) : list (option string) :=
  match values with
  | None :: values' => from_first_value values'
  | _ => values
  end.

(** What a response's jar holds of the session cookie: none with a value,
    one with the empty value, one with a value that can be used, or a
    cookie with a value and a further cookie of that name behind it. *)
Inductive jar_state : Type :=
| NoCookie
| EmptyCookie
| Usable (value : string)
| Conflict.

Definition session_jar (jar : list (string * option string)) : jar_state :=
  match from_first_value (cookie_values "JSESSIONID" jar) with
  | [] => NoCookie
  | [Some v] => if v =? "" then EmptyCookie else Usable v
  | _ => Conflict
  end.

(** Session set-up fails as the specification words it: transport error,
    error status, or no session cookie in the response. *)
Definition session_failure_as_stated (rep : reply) : bool :=
  match rep with
  | TransportError => true
  | Response r =>
      is_http_error r
      || match cookie_values "JSESSIONID" (cookies r) with
         | [] => true
         | _ :: _ => false
         end
  end.

(** Session set-up fails as the code has it: also when the session cookie
    has no value or an empty one, and when the jar holds a second session
    cookie behind one with a value. *)
Definition session_failure (rep : reply) : bool :=
  match rep with
  | TransportError => true
  | Response r =>
      is_http_error r
      || match session_jar (cookies r) with
         | Usable _ => false
         | _ => true
         end
  end.

(** The exception session set-up ends with, by cause. *)
Definition session_exception (rep : reply) : option exn :=
  match rep with
  | TransportError => Some SessionInitFailed
  | Response r =>
      if is_http_error r then Some SessionInitFailed
      else match session_jar (cookies r) with
           | NoCookie | EmptyCookie => Some SessionCookieMissing
           | Conflict => Some CookieConflictError
           | Usable _ => None
           end
  end.

(** A service that answers every request with status 200 and a session
    cookie whose value is empty. *)
Definition empty_cookie_service : service :=
  fun _ _ =>
    Response {| status_code := 200; cookies := [("JSESSIONID", Some "")];
                body := None |}.

(** A service whose session reply carries two session cookies, as for two
    paths of one host. *)
Definition duplicate_cookie_service : service :=
  fun _ _ =>
    Response {| status_code := 200;
                cookies := [("JSESSIONID", Some "0F3A"); ("JSESSIONID", Some "7C21")];
                body := None |}.

(** A result other than running out of fuel: a value or an exception. *)
Definition returns {A : Type} (r : result A) : Prop := r <> Diverge.

(** A computation that returns from every client state. *)
Definition settled {A : Type} (m : LeopardWebClient.M A) : Prop :=
  forall c, returns (fst (m c)).

(** The records of a catalog page reply, when it is a page: a decoded
    object whose [data] is a list. *)
Definition page_records (rep : reply) : option (list json) :=
  match page_value rep with
  | Ok (JDict d) =>
      match Py.dict_get "data" d with
      | Some (JList l) => Some l
      | _ => None
      end
  | _ => None
  end.

(** The integer [totalCount] of a catalog page reply. *)
Definition page_total (rep : reply) : option Z :=
  match page_value rep with
  | Ok (JDict d) =>
      match Py.dict_get "totalCount" d with
      | Some (JInt t) => Some t
      | _ => None
      end
  | _ => None
  end.

(** A service with 501 courses: a full first page, then one record. *)
Definition stub_course : json := JDict [("subject", JStr "MATH")].

Definition two_page_service : service :=
  fun n _ =>
    match n with
    | 0 => Response {| status_code := 200; cookies := [];
                       body := Some (JDict [("totalCount", JInt 501);
                                            ("data", JList (repeat stub_course 500))]) |}
    | 1 => Response {| status_code := 200; cookies := [];
                       body := Some (JDict [("totalCount", JInt 501);
                                            ("data", JList [stub_course])]) |}
    | _ => TransportError
    end%nat.

Definition two_pages (i : nat) : list json :=
  match i with
  | 0 => repeat stub_course 500
  | _ => [stub_course]
  end%nat.

(** A service that grants a session and answers every page request with
    one record and a [totalCount] of [1e999], which decodes to positive
    infinity. *)
Definition infinity : json := JFloat (S754_infinity false).

Definition endless_service : service :=
  fun _ req =>
    match req with
    | PostTermSearch _ =>
        Response {| status_code := 200;
                    cookies := [("JSESSIONID", Some "A1B2C3")];
                    body := None |}
    | _ =>
        Response {| status_code := 200; cookies := [];
                    body := Some (JDict [("totalCount", infinity);
                                         ("data", JList [stub_course])]) |}
    end.

(** A client whose session has been set up. *)
Definition ready_client : LeopardWebClient.client :=
  {| LeopardWebClient.session_cookie := Some "A1B2C3";
     LeopardWebClient.requests_sent := 0 |}.

(** The [fmt] value a decoded faculty-meeting-times reply makes the
    enrichment attach, if any. *)
Definition fmt_of (meeting_times : json) : option json :=
  match meeting_times with
  | JDict m =>
      match Py.dict_get "fmt" m with
      | Some v => if Py.truthy v then Some v else None
      | None => None
      end
  | _ => None
  end.

(** A summary after enrichment has written the given attachments. *)
Definition with_attachments (details fmt : option json)
           (d : list (string * json)) : list (string * json) :=
  let d1 := match details with
            | Some v => Py.dict_set "_detailed" v d
            | None => d
            end in
  match fmt with
  | Some v => Py.dict_set "_faculty_meeting_times" v d1
  | None => d1
  end.

Definition details_of (details : json) : option json :=
  if Py.truthy details then Some details else None.

(** A decoded faculty-meeting-times reply of the expected shape: nothing,
    or an object whose [fmt], when there, is a list of meeting entries. *)
Definition is_fmt_reply (j : json) : bool :=
  match j with
  | JNull => true
  | JDict m => is_meeting_list (Py.dict_get "fmt" m)
  | _ => false
  end.

Definition is_dict (j : json) : bool :=
  match j with JDict _ => true | _ => false end.

(** A service on which the first course of a catalog loses its class
    details (status 500) and gets its faculty meeting times. *)
Definition friday_fmt : json :=
  JList [JDict [("meetingTime",
           JDict [("friday", JBool true); ("beginTime", JStr "1400");
                  ("endTime", JStr "1515"); ("building", JStr "ANX")])]].

Definition flaky_details_service : service :=
  fun _ req =>
    match req with
    | GetClassDetails _ _ =>
        Response {| status_code := 500; cookies := []; body := None |}
    | GetFacultyMeetingTimes _ _ =>
        Response {| status_code := 200; cookies := [];
                    body := Some (JDict [("fmt", friday_fmt)]) |}
    | _ => TransportError
    end.

Definition crn_course : list (string * json) :=
  [("courseReferenceNumber", JStr "12345"); ("subject", JStr "MATH")].

(** A CourseSummary after enrichment: the same object with attachments
    written, still a CourseSummary. *)
Definition enriched (q d : json) : Prop :=
  exists dq details fmt,
    q = JDict dq
    /\ d = JDict (with_attachments details fmt dq)
    /\ is_course_summary q = true
    /\ is_course_summary d = true.

(** A service with a two-course catalog; class details fail, faculty
    meeting times are served. *)
Definition campus_catalog : list json :=
  [JDict crn_course;
   JDict [("courseReferenceNumber", JStr "67890"); ("subject", JStr "PHYS");
          ("faculty", JList [JDict [("displayName", JStr "A. Smith")]])]].

Definition campus_service : service :=
  fun n req =>
    match req with
    | PostTermSearch _ =>
        Response {| status_code := 200;
                    cookies := [("JSESSIONID", Some "A1B2C3")];
                    body := None |}
    | GetSearchResults _ _ _ _ =>
        Response {| status_code := 200; cookies := [];
                    body := Some (JDict [("totalCount", JInt 2);
                                         ("data", JList campus_catalog)]) |}
    | _ => flaky_details_service n req
    end.


(** ** The term list and the writers *)

(** A list comprehension [[f(x) for x in items]]: the first exception
    ends it. *)
Fixpoint comprehension {A B : Type} (f : A -> result B) (items : list A)
  : result (list B) :=
  match items with
  | [] => Ok []
  | x :: rest =>
      (y <- f x ;; ys <- comprehension f rest ;; Ok (y :: ys))%result
  end.

(** [{"code": term["code"], "description": term["description"]}] *)
Definition term_entry (term : json) : result json :=
  (code <- Py.getitem term "code" ;;
   description <- Py.getitem term "description" ;;
   Ok (JDict [("code", code); ("description", description)]))%result.

Definition term_entries (terms : json) : result (list json) :=
  (items <- Py.iter terms ;; comprehension term_entry items)%result.

Section AvailableTerms.

Import LeopardWebClient.
Local Open Scope client_scope.

(** The service's answers to the term-list query, by request number; the
    query itself is constant. *)
Variable terms_endpoint : nat -> reply.

Definition send_terms_query : M response :=
  fun c =>
    match terms_endpoint (requests_sent c) with
    | TransportError => (Raise RequestException, sent c)
    | Response r => (Ok r, sent c)
    end.

Definition get_available_terms : M (list json) :=
  try_except
    (response <- send_terms_query ;;
     raise_for_status response ;;;
     terms <- response_json response ;;
     lift (term_entries terms))
    (ret []).

End AvailableTerms.

Section Writers.

Variable repr : json -> string.

(** [[flatten_course_data(course) for course in courses]] *)
Definition flatten_all (courses : list json)
  : result (list (list (string * json))) :=
  comprehension (flatten_course_data repr) courses.

(** [course.get(header, "")] for every header, which is also how a
    [DictWriter] lays a row out. *)
Definition row_values (headers : list string) (course : list (string * json))
  : list json :=
  map (fun header => Py.or_default (Py.dict_get header course) (JStr "")) headers.

(** What is handed to the CSV writer: the file name, the header line and
    the rows. *)
Record table : Type := {
  table_path : string;
  table_header : list string;
  table_rows : list (list json)
}.

(** The [with open(output_file, 'w', ...)] block: what opening the file and
    writing the header and the rows comes to.  It raises when the file
    cannot be opened or written ([OSError]) or a cell cannot be encoded
    ([UnicodeEncodeError]). *)
Variable write_csv : table -> result unit.

(** [save_as_csv]: [None] when it returns before opening the file, else
    the table it has written. *)
Definition save_as_csv (courses : list json) (term output_file : string)
  : result (option table) :=
  (flattened_courses <- flatten_all courses ;;
   match flattened_courses with
   | [] => Ok None
   | first :: _ =>
       let headers := map fst first in
       let written :=
         {| table_path := output_file;
            table_header := headers;
            table_rows := map (row_values headers) flattened_courses |} in
       _ <- write_csv written ;;
       Ok (Some written)
   end)%result.

(** [len(str(cell_value))] *)
Definition cell_length (v : json) : Z :=
  Z.of_nat (String.length (Py.str repr v)).

(** The width [save_as_excel] gives a column: the longest of the header
    and the truthy cells of the first 100 data rows, plus 2, capped at
    50.  [cells] are the column's data cells in row order. *)
Definition column_width (header : string) (cells : list json) : Z :=
  let max_length :=
    fold_left (fun m v => if Py.truthy v then Z.max m (cell_length v) else m)
              (firstn 100 cells)
              (Z.of_nat (String.length header)) in
  Z.min (max_length + 2) 50.

End Writers.

(** ** Vocabulary for the further properties *)

(** A computation that leaves the session cookie as it found it. *)
Definition keeps_cookie {A : Type} (m : LeopardWebClient.M A) : Prop :=
  forall c, LeopardWebClient.session_cookie (snd (m c))
            = LeopardWebClient.session_cookie c.

(** The course has a course reference number the enrichment acts on. *)
Definition has_crn (course : json) : bool :=
  match course with
  | JDict d =>
      Py.truthy (Py.or_default (Py.dict_get "courseReferenceNumber" d) JNull)
  | _ => false
  end.

(** The keys [flatten_course_data] reads. *)
Definition READ_KEYS : list string :=
  ["faculty"; "_faculty_meeting_times"; "meetingsFaculty"]
    ++ map snd PASSTHROUGH.

(** Column-wise concatenation of meeting columns. *)
Definition meetings_app (m1 m2 : meetings) : meetings :=
  {| meeting_days := meeting_days m1 ++ meeting_days m2;
     meeting_times := meeting_times m1 ++ meeting_times m2;
     meeting_locations := meeting_locations m1 ++ meeting_locations m2 |}.

(** [faculty.get("displayName", "")] of an object. *)
Definition display_name (faculty : json) : json :=
  match faculty with
  | JDict d => Py.or_default (Py.dict_get "displayName" d) (JStr "")
  | _ => JNull
  end.

(** The display names that reach the Faculty column. *)
Fixpoint shown_names (faculty : list json) : list string :=
  match faculty with
  | [] => []
  | f :: rest =>
      match display_name f with
      | JStr s => if s =? "" then shown_names rest else s :: shown_names rest
      | _ => shown_names rest
      end
  end.

(** The truth values of the seven day flags of a meeting time, Monday
    first. *)
Definition day_flags (mt : list (string * json)) : list bool :=
  map (fun day => Py.truthy (Py.or_default (Py.dict_get day mt) JNull)) WEEK.

(** The day string of seven flags. *)
Fixpoint day_letters (week : list string) (flags : list bool) : list string :=
  match week, flags with
  | day :: week', flag :: flags' =>
      if flag then Py.initial day :: day_letters week' flags'
      else day_letters week' flags'
  | _, _ => []
  end.

(** A service that answers the term-list query with two terms, the
    second carrying an extra key. *)
Definition two_terms : list json :=
  [JDict [("code", JStr "202510"); ("description", JStr "Spring 2025")];
   JDict [("code", JStr "202520"); ("description", JStr "Summer 2025");
          ("viewOnly", JBool true)]].

Definition two_terms_endpoint : nat -> reply :=
  fun _ => Response {| status_code := 200; cookies := [];
                       body := Some (JList two_terms) |}.

(** A term entry that has both keys the term list keeps. *)
Definition has_term_keys (term : json) : bool :=
  match term with
  | JDict d =>
      match Py.dict_get "code" d, Py.dict_get "description" d with
      | Some _, Some _ => true
      | _, _ => false
      end
  | _ => false
  end.

(** The entry of the term list made from such a term. *)
Definition project_term (term : json) : json :=
  match term with
  | JDict d =>
      JDict [("code", Py.or_default (Py.dict_get "code" d) JNull);
             ("description", Py.or_default (Py.dict_get "description" d) JNull)]
  | _ => JNull
  end.

(** [campus_service] with both lookup endpoints down. *)
Definition campus_service_without_lookups : service :=
  fun n req =>
    match req with
    | GetClassDetails _ _ | GetFacultyMeetingTimes _ _ => TransportError
    | _ => campus_service n req
    end.

(** A service whose faculty-meeting-times endpoint sends the bare list
    instead of an object with [fmt]. *)
Definition bare_list_service : service :=
  fun _ req =>
    match req with
    | GetFacultyMeetingTimes _ _ =>
        Response {| status_code := 200; cookies := []; body := Some friday_fmt |}
    | _ => TransportError
    end.

(** A faculty list with two named instructors and two entries without a
    display name. *)
Definition team_faculty : list json :=
  [JDict [("displayName", JStr "A. Smith")];
   JDict [("displayName", JNull)];
   JDict [("emailAddress", JStr "staff@wit.edu")];
   JDict [("displayName", JStr "B. Jones")]].

Definition team_taught : list (string * json) :=
  [("courseReferenceNumber", JStr "24680"); ("faculty", JList team_faculty)].

(** A meeting entry in room 212 of a building recorded as [null]. *)
Definition room_only_time : list (string * json) :=
  [("building", JNull); ("room", JStr "212")].

Definition room_only_entry : json := JDict [("meetingTime", JDict room_only_time)].

Definition room_only_meetings : meetings :=
  {| meeting_days := []; meeting_times := [];
     meeting_locations := [JStr "None 212"] |}.

(** ** Vocabulary for enrichment and its limits *)

(** A service on which class details arrive and the faculty meeting times
    fail (status 500). *)
Definition class_details : json :=
  JDict [("courseDescription", JStr "Limits, derivatives and integrals.")].

Definition flaky_meetings_service : service :=
  fun _ req =>
    match req with
    | GetClassDetails _ _ =>
        Response {| status_code := 200; cookies := [];
                    body := Some class_details |}
    | GetFacultyMeetingTimes _ _ =>
        Response {| status_code := 500; cookies := []; body := None |}
    | _ => TransportError
    end.

(** The summary of the worked example with an empty list attached. *)
Definition fallback_course : list (string * json) :=
  [("meetingsFaculty",
    JList [JDict [("meetingTime",
             JDict [("monday", JBool true); ("wednesday", JBool true);
                    ("beginTime", JStr "1000"); ("endTime", JStr "1050");
                    ("building", JStr "WENT"); ("room", JStr "100")])]]);
   ("_faculty_meeting_times", JList [])].

(** The items of the loop a branch of the flattener runs over [v]. *)
Definition meetings_from (body : json -> meetings -> result meetings)
           (v : json) : result meetings :=
  (items <- Py.iter v ;; for_each body items no_meetings)%result.

(** What the [elif] branch has to make of the summary: the loop over a
    truthy [meetingsFaculty], nothing otherwise. *)
Definition embedded_columns (repr : json -> string) (d : list (string * json))
  : result meetings :=
  match Py.dict_get "meetingsFaculty" d with
  | Some v =>
      if Py.truthy v then meetings_from (embedded_entry repr) v
      else Ok no_meetings
  | None => Ok no_meetings
  end.






(** * Properties *)

(** ** Flattening *)

Section FlattenFacts.

Variable repr : json -> string.

Lemma rbind_Ok {A B : Type} (a : A) (k : A -> result B) :
  rbind (Ok a) k = k a.
Proof. reflexivity. Qed.

Lemma get_dict (d : list (string * json)) (k : string) (v : json) :
  Py.get (JDict d) k v = Ok (Py.or_default (Py.dict_get k d) v).
Proof. reflexivity. Qed.

Lemma collect_days_dict (mt : list (string * json)) (week days : list string) :
  exists ds, collect_days (JDict mt) week days = Ok ds.
Proof.
  revert days; induction week as [|day week IH]; intros days; simpl.
  - now exists days.
  - apply IH.
Qed.

Lemma forallb_app_one {A : Type} (p : A -> bool) (l : list A) (x : A) :
  forallb p l = true -> p x = true -> forallb p (l ++ [x]) = true.
Proof.
  intros Hl Hx. rewrite forallb_app, Hl. simpl. now rewrite Hx.
Qed.

Lemma add_days_dict (mt : list (string * json)) (acc : list json) :
  forallb is_str acc = true ->
  exists ds, add_days (JDict mt) acc = Ok ds /\ forallb is_str ds = true.
Proof.
  intros Hacc. unfold add_days.
  destruct (collect_days_dict mt WEEK []) as [ds ->]. rewrite rbind_Ok.
  destruct ds; eexists; split; try reflexivity; auto using forallb_app_one.
Qed.

Lemma add_times_dict (mt : list (string * json)) (acc : list json) :
  forallb is_str acc = true ->
  exists ts, add_times repr (JDict mt) acc = Ok ts /\ forallb is_str ts = true.
Proof.
  intros Hacc. unfold add_times. rewrite !get_dict, !rbind_Ok.
  match goal with |- context [if ?b then _ else _] => destruct b end;
    eexists; split; try reflexivity; auto using forallb_app_one.
Qed.

Lemma text_cases (v : option json) :
  is_text v = true ->
  Py.truthy (Py.or_default v (JStr "")) = false
  \/ exists s, Py.or_default v (JStr "") = JStr s /\ Py.truthy (JStr s) = true.
Proof.
  destruct v as [[]|]; simpl; try discriminate; auto.
  intros _. destruct (s =? "") eqn:E; simpl; auto.
  right. exists s. simpl. now rewrite E.
Qed.

Lemma all_str_fields (m : meetings) :
  all_str m = true <->
  forallb is_str (meeting_days m) = true
  /\ forallb is_str (meeting_times m) = true
  /\ forallb is_str (meeting_locations m) = true.
Proof. unfold all_str. rewrite !andb_true_iff. tauto. Qed.

Lemma typed_meeting_time (d : list (string * json)) :
  is_meeting_entry (JDict d) = true ->
  exists mt,
    Py.get (JDict d) "meetingTime" (JDict []) = Ok (JDict mt)
    /\ forall k, In k TEXT_KEYS -> is_text (Py.dict_get k mt) = true.
Proof.
  unfold is_meeting_entry. rewrite get_dict.
  destruct (Py.dict_get "meetingTime" d) as [[]|]; try discriminate.
  - intros H. eexists; split; [reflexivity|].
    now apply forallb_forall.
  - intros _. exists []. split; [reflexivity|]. intros k _. reflexivity.
Qed.

Lemma fmt_entry_typed (e : json) (acc : meetings) :
  is_meeting_entry e = true -> all_str acc = true ->
  exists m, fmt_entry repr e acc = Ok m /\ all_str m = true.
Proof.
  intros He Hacc. destruct e; try discriminate.
  destruct (typed_meeting_time _ He) as (mt & Hmt & Htext).
  apply all_str_fields in Hacc. destruct Hacc as (Hd & Ht & Hl).
  unfold fmt_entry. rewrite Hmt, rbind_Ok.
  destruct (add_days_dict mt _ Hd) as (ds & -> & Hds).
  destruct (add_times_dict mt _ Ht) as (ts & -> & Hts).
  rewrite !rbind_Ok, !get_dict, !rbind_Ok.
  eexists; split; [reflexivity|].
  apply all_str_fields; cbn [meeting_days meeting_times meeting_locations].
  repeat split; auto.
  destruct (text_cases (Py.dict_get "building" mt)) as [Hb|(b & -> & Hb)];
    [apply Htext; simpl; tauto| |];
  (destruct (text_cases (Py.dict_get "buildingDescription" mt))
     as [Hbd|(bd & -> & Hbd)]; [apply Htext; simpl; tauto| |]);
  (destruct (text_cases (Py.dict_get "room" mt)) as [Hr|(r & -> & Hr)];
     [apply Htext; simpl; tauto| |]);
  rewrite ?Hbd, ?Hr; rewrite ?Hb;
  repeat match goal with
         | |- context [if ?c then _ else _] => destruct c eqn:?
         end;
  auto; apply forallb_app_one; auto.
Qed.

Lemma embedded_entry_typed (e : json) (acc : meetings) :
  is_meeting_entry e = true -> all_str acc = true ->
  exists m, embedded_entry repr e acc = Ok m /\ all_str m = true.
Proof.
  intros He Hacc. destruct e; try discriminate.
  destruct (typed_meeting_time _ He) as (mt & Hmt & _).
  apply all_str_fields in Hacc. destruct Hacc as (Hd & Ht & Hl).
  unfold embedded_entry. rewrite Hmt, rbind_Ok.
  destruct (add_days_dict mt _ Hd) as (ds & -> & Hds).
  destruct (add_times_dict mt _ Ht) as (ts & -> & Hts).
  rewrite !rbind_Ok, !get_dict, !rbind_Ok.
  eexists; split; [reflexivity|].
  apply all_str_fields; cbn [meeting_days meeting_times meeting_locations].
  repeat split; auto.
  match goal with
  | |- context [if ?c then _ else _] =>
      destruct c; auto; apply forallb_app_one; auto
  end.
Qed.

Lemma for_each_inv {A S : Type} (body : A -> S -> result S)
      (p : A -> bool) (inv : S -> Prop) :
  (forall x acc, p x = true -> inv acc ->
                 exists acc', body x acc = Ok acc' /\ inv acc') ->
  forall items acc, forallb p items = true -> inv acc ->
                    exists acc', for_each body items acc = Ok acc' /\ inv acc'.
Proof.
  intros Hbody items. induction items as [|x items IH]; intros acc Hp Hacc.
  - exists acc. now split.
  - simpl in Hp. apply andb_true_iff in Hp. destruct Hp as [Hx Hp].
    destruct (Hbody x acc Hx Hacc) as (acc1 & E & Hacc1).
    simpl. rewrite E, rbind_Ok. now apply IH.
Qed.

Lemma faculty_entry_typed (e : json) (names : list json) :
  is_faculty_entry e = true -> forallb is_str names = true ->
  exists names', faculty_entry e names = Ok names'
                 /\ forallb is_str names' = true.
Proof.
  intros He Hn. destruct e; try discriminate. simpl in He.
  unfold faculty_entry. rewrite get_dict, rbind_Ok.
  destruct (text_cases _ He) as [->|(s & -> & ->)];
    eexists; split; try reflexivity; auto using forallb_app_one.
Qed.

Lemma faculty_names_typed (d : list (string * json)) :
  is_faculty_list (Py.dict_get "faculty" d) = true ->
  exists names, faculty_names_of (JDict d) = Ok names
                /\ forallb is_str names = true.
Proof.
  intros H. unfold faculty_names_of. rewrite get_dict, rbind_Ok.
  unfold Py.getitem.
  destruct (Py.dict_get "faculty" d) as [[]|]; try discriminate;
    try (now exists []).
  destruct l as [|e l]; [now exists []|].
  cbn [Py.or_default Py.truthy Py.iter]. rewrite !rbind_Ok.
  apply for_each_inv with (p := is_faculty_entry); auto.
  intros; now apply faculty_entry_typed.
Qed.

Lemma fmt_meetings_list (d : list (string * json)) (l : list json) :
  Py.dict_get "_faculty_meeting_times" d = Some (JList l) ->
  fmt_meetings repr (JDict d) = for_each (fmt_entry repr) l no_meetings.
Proof. intros H. unfold fmt_meetings, Py.getitem. now rewrite H. Qed.

Lemma embedded_meetings_typed (d : list (string * json)) :
  is_meeting_list (Py.dict_get "meetingsFaculty" d) = true ->
  exists m, embedded_meetings repr (JDict d) = Ok m /\ all_str m = true.
Proof.
  intros H. unfold embedded_meetings. rewrite get_dict, rbind_Ok.
  unfold Py.getitem.
  destruct (Py.dict_get "meetingsFaculty" d) as [[]|]; try discriminate;
    try (now exists no_meetings).
  destruct l as [|e l]; [now exists no_meetings|].
  cbn [Py.or_default Py.truthy Py.iter]. rewrite !rbind_Ok.
  apply for_each_inv with (p := is_meeting_entry)
                          (inv := fun m => all_str m = true); auto.
  intros; now apply embedded_entry_typed.
Qed.

(** With a non-empty list attached the [if] branch runs; with nothing
    attached, [null] or an empty list, the [elif] branch runs. *)
Lemma course_meetings_attached (d : list (string * json)) (e : json)
      (l : list json) :
  Py.dict_get "_faculty_meeting_times" d = Some (JList (e :: l)) ->
  course_meetings repr (JDict d)
  = for_each (fmt_entry repr) (e :: l) no_meetings.
Proof.
  intros H. unfold course_meetings. rewrite get_dict, rbind_Ok, H.
  cbn [Py.or_default Py.truthy]. now apply fmt_meetings_list.
Qed.

Lemma course_meetings_fallback (d : list (string * json)) :
  Py.truthy (Py.or_default (Py.dict_get "_faculty_meeting_times" d) JNull)
  = false ->
  course_meetings repr (JDict d) = embedded_meetings repr (JDict d).
Proof.
  intros H. unfold course_meetings. now rewrite get_dict, rbind_Ok, H.
Qed.

Lemma course_meetings_typed (d : list (string * json)) :
  is_meeting_list (Py.dict_get "meetingsFaculty" d) = true ->
  is_meeting_list (Py.dict_get "_faculty_meeting_times" d) = true ->
  exists m, course_meetings repr (JDict d) = Ok m /\ all_str m = true.
Proof.
  intros Hemb Hfmt.
  destruct (Py.dict_get "_faculty_meeting_times" d) as [v|] eqn:E.
  - destruct v; try discriminate.
    + rewrite course_meetings_fallback by now rewrite E.
      now apply embedded_meetings_typed.
    + destruct l as [|e l].
      * rewrite course_meetings_fallback by now rewrite E.
        now apply embedded_meetings_typed.
      * rewrite (course_meetings_attached _ _ _ E).
        apply for_each_inv with (p := is_meeting_entry)
                                (inv := fun m => all_str m = true); auto.
        intros; now apply fmt_entry_typed.
  - rewrite course_meetings_fallback by now rewrite E.
    now apply embedded_meetings_typed.
Qed.

Lemma strs_of_typed (l : list json) :
  forallb is_str l = true -> exists ss, Py.strs_of l = Ok ss.
Proof.
  induction l as [|v l IH]; simpl; [now exists []|].
  destruct v; try discriminate. simpl. intros H.
  destruct (IH H) as [ss ->]. now eexists.
Qed.

Lemma joined_typed (l : list json) :
  forallb is_str l = true -> exists s, joined l = Ok (JStr s).
Proof.
  intros H. destruct l as [|v l]; [now exists ""|].
  unfold joined, Py.join. destruct (strs_of_typed _ H) as [ss ->].
  now eexists.
Qed.

(** The return statement: once the two loops and the four joins have
    succeeded, the row is [row]. *)
Lemma flatten_row (d : list (string * json)) (names : list json)
      (m : meetings) (f a b c : json) :
  faculty_names_of (JDict d) = Ok names ->
  course_meetings repr (JDict d) = Ok m ->
  joined names = Ok f -> joined (meeting_days m) = Ok a ->
  joined (meeting_times m) = Ok b -> joined (meeting_locations m) = Ok c ->
  flatten_course_data repr (JDict d) = Ok (row d f a b c).
Proof.
  intros Hn Hm Hf Ha Hb Hc. unfold flatten_course_data.
  rewrite Hn, rbind_Ok, Hm, !rbind_Ok, !get_dict, !rbind_Ok.
  rewrite Hf, rbind_Ok, Ha, rbind_Ok, Hb, rbind_Ok, Hc, rbind_Ok.
  rewrite ?get_dict, ?rbind_Ok. reflexivity.
Qed.

Lemma flatten_typed (d : list (string * json)) :
  is_course_summary (JDict d) = true ->
  exists names m f a b c,
    faculty_names_of (JDict d) = Ok names
    /\ joined names = Ok (JStr f)
    /\ course_meetings repr (JDict d) = Ok m
    /\ joined (meeting_days m) = Ok (JStr a)
    /\ joined (meeting_times m) = Ok (JStr b)
    /\ joined (meeting_locations m) = Ok (JStr c)
    /\ flatten_course_data repr (JDict d)
       = Ok (row d (JStr f) (JStr a) (JStr b) (JStr c)).
Proof.
  unfold is_course_summary. rewrite !andb_true_iff. intros [[Hf He] Ha].
  destruct (faculty_names_typed _ Hf) as (names & Hn & Hs).
  destruct (course_meetings_typed _ He Ha) as (m & Hm & Hall).
  apply all_str_fields in Hall. destruct Hall as (H1 & H2 & H3).
  destruct (joined_typed _ Hs) as [f Ef].
  destruct (joined_typed _ H1) as [a Ea].
  destruct (joined_typed _ H2) as [b Eb].
  destruct (joined_typed _ H3) as [c Ec].
  exists names, m, f, a, b, c. repeat split; auto.
  now apply flatten_row with (names := names) (m := m).
Qed.

Lemma faculty_names_same (d d' : list (string * json)) :
  Py.dict_get "faculty" d' = Py.dict_get "faculty" d ->
  faculty_names_of (JDict d') = faculty_names_of (JDict d).
Proof.
  intros H. unfold faculty_names_of, Py.getitem. rewrite !get_dict.
  now rewrite H.
Qed.


Lemma faculty_names_absent (d : list (string * json)) :
  Py.dict_get "faculty" d = None -> faculty_names_of (JDict d) = Ok [].
Proof.
  intros H. unfold faculty_names_of. now rewrite get_dict, rbind_Ok, H.
Qed.

Lemma course_meetings_absent (d : list (string * json)) :
  Py.dict_get "meetingsFaculty" d = None ->
  Py.dict_get "_faculty_meeting_times" d = None ->
  course_meetings repr (JDict d) = Ok no_meetings.
Proof.
  intros He Ha. rewrite course_meetings_fallback by now rewrite Ha.
  unfold embedded_meetings. now rewrite get_dict, rbind_Ok, He.
Qed.

Lemma collect_days_unflagged (mt : list (string * json))
      (week days : list string) :
  (forall day, In day week ->
               Py.truthy (Py.or_default (Py.dict_get day mt) JNull) = false) ->
  collect_days (JDict mt) week days = Ok days.
Proof.
  revert days. induction week as [|day week IH]; intros days H; simpl; auto.
  rewrite (H day) by now left. apply IH. intros; apply H; now right.
Qed.

Lemma add_days_unflagged (mt : list (string * json)) (acc : list json) :
  (forall day, In day WEEK ->
               Py.truthy (Py.or_default (Py.dict_get day mt) JNull) = false) ->
  add_days (JDict mt) acc = Ok acc.
Proof.
  intros H. unfold add_days. now rewrite collect_days_unflagged.
Qed.

Lemma add_times_untimed (mt : list (string * json)) (acc : list json) :
  Py.truthy (Py.or_default (Py.dict_get "beginTime" mt) (JStr "")) = false
  \/ Py.truthy (Py.or_default (Py.dict_get "endTime" mt) (JStr "")) = false ->
  add_times repr (JDict mt) acc = Ok acc.
Proof.
  intros H. unfold add_times. rewrite !get_dict, !rbind_Ok.
  destruct H as [-> | ->]; [|rewrite andb_false_r]; reflexivity.
Qed.

End FlattenFacts.

(** C5: the worked example.  The summary with the single instructor
    "A. Smith", nothing attached and one embedded Monday/Wednesday meeting
    from 1000 to 1050 in WENT 100 flattens to Faculty "A. Smith", Meeting
    Days "MW", Meeting Times "1000-1050" and Location "WENT 100". *)
Theorem flatten_smith_course (repr : json -> string) :
  exists r,
    flatten_course_data repr smith_course = Ok r
    /\ Py.dict_get "Faculty" r = Some (JStr "A. Smith")
    /\ Py.dict_get "Meeting Days" r = Some (JStr "MW")
    /\ Py.dict_get "Meeting Times" r = Some (JStr "1000-1050")
    /\ Py.dict_get "Location" r = Some (JStr "WENT 100").
Proof. eexists. split; [reflexivity|]. repeat split. Qed.

(** C6: flattening has no failure path.  For every CourseSummary,
    [flatten_course_data] returns a row with the eighteen named columns in
    their fixed order; a column copied from a key the summary lacks is the
    empty string, Faculty is empty when there is no faculty list, and the
    three meeting columns are empty when there is meeting data of neither
    kind. *)
Theorem flatten_never_fails (repr : json -> string) (c : json) :
  is_course_summary c = true ->
  exists r,
    flatten_course_data repr c = Ok r
    /\ map fst r = FLAT_FIELDS
    /\ forall d, c = JDict d ->
         (forall col key, In (col, key) PASSTHROUGH ->
                          Py.dict_get key d = None ->
                          Py.dict_get col r = Some (JStr ""))
         /\ (Py.dict_get "faculty" d = None ->
             Py.dict_get "Faculty" r = Some (JStr ""))
         /\ (Py.dict_get "meetingsFaculty" d = None ->
             Py.dict_get "_faculty_meeting_times" d = None ->
             forall col, In col MEETING_FIELDS ->
                         Py.dict_get col r = Some (JStr "")).
Proof.
  intros Hc. destruct c as [| | | | |d|]; try discriminate.
  destruct (flatten_typed repr d Hc)
    as (names & m & f & a & b & c & _ & _ & Hm & Ha & Hb & Hl & E).
  eexists. split; [exact E|]. split; [reflexivity|].
  intros d' [= <-]. repeat split.
  - intros col key Hin Hnone. simpl in Hin.
    repeat (destruct Hin as [[= <- <-]|Hin];
            [cbn; now rewrite Hnone|]).
    contradiction.
  - intros Hfac.
    assert (E' := flatten_row repr d [] m (JStr "") _ _ _
                    (faculty_names_absent d Hfac) Hm eq_refl Ha Hb Hl).
    rewrite E in E'. now injection E' as ->.
  - intros Hemb Hatt col Hin.
    rewrite (course_meetings_absent repr d Hemb Hatt) in Hm.
    injection Hm as <-. cbn in Ha, Hb, Hl.
    injection Ha as <-. injection Hb as <-. injection Hl as <-.
    simpl in Hin. destruct Hin as [<-|[<-|[<-|[]]]]; reflexivity.
Qed.

Lemma flatten_never_fails_witness :
  is_course_summary staggered_course = true
  /\ exists r, flatten_course_data (fun _ => "") staggered_course = Ok r
               /\ map fst r = FLAT_FIELDS.
Proof.
  split; [reflexivity|].
  destruct (flatten_never_fails (fun _ => "") staggered_course eq_refl)
    as (r & E & Hf & _).
  now exists r.
Defined.

(** Outside the CourseSummary shape the flattener can raise: a meeting
    entry whose [meetingTime] is [null] has no [get]. *)
Lemma flatten_null_meeting_time (repr : json -> string) :
  flatten_course_data repr
    (JDict [("meetingsFaculty", JList [JDict [("meetingTime", JNull)]])])
  = Raise AttributeError.
Proof. reflexivity. Qed.

(** C3: attached faculty meeting times supersede the embedded meetings.
    For a CourseSummary carrying embedded meeting data and a non-empty
    attached list [fm], the three meeting columns of the row are the joins
    of what the loop over [fm] alone collects; any other summary with the
    same attached list, whatever its embedded meetings, gets the same three
    columns. *)
Theorem attached_times_supersede_embedded
        (repr : json -> string) (d : list (string * json))
        (fm : list json) (emb : json) :
  is_course_summary (JDict d) = true ->
  Py.dict_get "meetingsFaculty" d = Some emb ->
  Py.dict_get "_faculty_meeting_times" d = Some (JList fm) ->
  fm <> [] ->
  exists m days times place r,
    for_each (fmt_entry repr) fm no_meetings = Ok m
    /\ joined (meeting_days m) = Ok days
    /\ joined (meeting_times m) = Ok times
    /\ joined (meeting_locations m) = Ok place
    /\ flatten_course_data repr (JDict d) = Ok r
    /\ meeting_columns r = [Some days; Some times; Some place]
    /\ forall d',
         is_course_summary (JDict d') = true ->
         Py.dict_get "_faculty_meeting_times" d' = Some (JList fm) ->
         exists r', flatten_course_data repr (JDict d') = Ok r'
                    /\ meeting_columns r' = meeting_columns r.
Proof.
  intros Hc _ Hatt Hne. destruct fm as [|e fm]; [congruence|].
  destruct (flatten_typed repr d Hc)
    as (names & m & f & a & b & c & _ & _ & Hm & Ha & Hb & Hl & E).
  rewrite (course_meetings_attached repr d e fm Hatt) in Hm.
  exists m, (JStr a), (JStr b), (JStr c). eexists.
  repeat (split; [eassumption|]). split; [reflexivity|].
  intros d' Hc' Hatt'.
  destruct (flatten_typed repr d' Hc')
    as (names' & m' & f' & a' & b' & c' & _ & _ & Hm' & Ha' & Hb' & Hl' & E').
  rewrite (course_meetings_attached repr d' e fm Hatt'), Hm in Hm'.
  injection Hm' as <-.
  rewrite Ha in Ha'. rewrite Hb in Hb'. rewrite Hl in Hl'.
  injection Ha' as <-. injection Hb' as <-. injection Hl' as <-.
  eexists. split; [exact E'|]. reflexivity.
Qed.

Lemma attached_times_supersede_embedded_witness :
  exists r,
    flatten_course_data (fun _ => "") (JDict both_sources) = Ok r
    /\ meeting_columns r
       = [Some (JStr "F"); Some (JStr "1400-1515");
          Some (JStr "Annex Central 201")].
Proof.
  destruct (attached_times_supersede_embedded
              (fun _ => "") both_sources _ _ eq_refl eq_refl eq_refl
              ltac:(discriminate))
    as (m & days & times & place & r & Hm & Hd & Ht & Hp & Hr & Hcols & _).
  exists r. split; [exact Hr|].
  cbv in Hm. injection Hm as <-.
  cbv in Hd, Ht, Hp. injection Hd as <-. injection Ht as <-. injection Hp as <-.
  exact Hcols.
Defined.

(** C10: the three meeting columns are filtered entry by entry and
    independently.  In either loop an entry without a truthy day flag adds
    no day string, an entry lacking a begin or an end time adds no time
    string, and an entry without building or room adds no location; and
    there is a CourseSummary ([staggered_course]) whose columns hold
    different numbers of entries, the first time string coming from an entry
    other than the one behind the first day string. *)
Theorem meeting_columns_lose_alignment (repr : json -> string) :
  (forall e mt acc m,
      Py.get e "meetingTime" (JDict []) = Ok (JDict mt) ->
      let field k := Py.or_default (Py.dict_get k mt) (JStr "") in
      (fmt_entry repr e acc = Ok m ->
       ((forall day, In day WEEK ->
            Py.truthy (Py.or_default (Py.dict_get day mt) JNull) = false) ->
        meeting_days m = meeting_days acc)
       /\ (Py.truthy (field "beginTime") = false
           \/ Py.truthy (field "endTime") = false ->
           meeting_times m = meeting_times acc)
       /\ (Py.truthy (field "building") = false ->
           Py.truthy (field "buildingDescription") = false ->
           Py.truthy (field "room") = false ->
           meeting_locations m = meeting_locations acc))
      /\ (embedded_entry repr e acc = Ok m ->
          ((forall day, In day WEEK ->
               Py.truthy (Py.or_default (Py.dict_get day mt) JNull) = false) ->
           meeting_days m = meeting_days acc)
          /\ (Py.truthy (field "beginTime") = false
              \/ Py.truthy (field "endTime") = false ->
              meeting_times m = meeting_times acc)
          /\ (Py.truthy (field "building") = false ->
              Py.truthy (field "room") = false ->
              meeting_locations m = meeting_locations acc)))
  /\ exists m r,
      is_course_summary staggered_course = true
      /\ course_meetings repr staggered_course = Ok m
      /\ flatten_course_data repr staggered_course = Ok r
      /\ meeting_days m = [JStr "TT"]
      /\ meeting_times m = [JStr "0800-0850"; JStr "1000-1050"]
      /\ meeting_locations m = [JStr "WENT 100"]
      /\ meeting_columns r
         = [Some (JStr "TT"); Some (JStr "0800-0850, 1000-1050");
            Some (JStr "WENT 100")].
Proof.
  split.
  - intros e mt acc m Hmt field. split; intros H.
    + unfold fmt_entry in H. rewrite Hmt, rbind_Ok in H.
      destruct (add_days (JDict mt) (meeting_days acc)) as [ds| |] eqn:Ed;
        try discriminate H. rewrite rbind_Ok in H.
      destruct (add_times repr (JDict mt) (meeting_times acc)) as [ts| |] eqn:Et;
        try discriminate H.
      rewrite !rbind_Ok, !get_dict, !rbind_Ok in H. injection H as <-.
      cbn [meeting_days meeting_times meeting_locations].
      repeat split.
      * intros Hd. rewrite (add_days_unflagged _ _ Hd) in Ed. congruence.
      * intros Ht. rewrite (add_times_untimed repr _ _ Ht) in Et. congruence.
      * intros Hb Hbd Hr. subst field. cbv beta in Hb, Hbd, Hr.
        now rewrite Hbd, Hr, Hb.
    + unfold embedded_entry in H. rewrite Hmt, rbind_Ok in H.
      destruct (add_days (JDict mt) (meeting_days acc)) as [ds| |] eqn:Ed;
        try discriminate H. rewrite rbind_Ok in H.
      destruct (add_times repr (JDict mt) (meeting_times acc)) as [ts| |] eqn:Et;
        try discriminate H.
      rewrite !rbind_Ok, !get_dict, !rbind_Ok in H. injection H as <-.
      cbn [meeting_days meeting_times meeting_locations].
      repeat split.
      * intros Hd. rewrite (add_days_unflagged _ _ Hd) in Ed. congruence.
      * intros Ht. rewrite (add_times_untimed repr _ _ Ht) in Et. congruence.
      * intros Hb Hr. subst field. cbv beta in Hb, Hr.
        now rewrite Hr, Hb.
  - exists {| meeting_days := [JStr "TT"];
              meeting_times := [JStr "0800-0850"; JStr "1000-1050"];
              meeting_locations := [JStr "WENT 100"] |}.
    eexists. split; [reflexivity|]. split; [vm_compute; reflexivity|].
    split; [vm_compute; reflexivity|]. repeat split.
Qed.

(** ** The client *)

Import LeopardWebClient.

Lemma bind_Ok {A B : Type} (m : M A) (k : A -> M B) (c c' : client) (a : A) :
  m c = (Ok a, c') -> bind m k c = k a c'.
Proof. intros H. unfold bind. now rewrite H. Qed.

Lemma bind_Raise {A B : Type} (m : M A) (k : A -> M B) (c c' : client) (e : exn) :
  m c = (Raise e, c') -> bind m k c = (Raise e, c').
Proof. intros H. unfold bind. now rewrite H. Qed.

Lemma returns_rbind {A B : Type} (r : result A) (k : A -> result B) :
  returns r -> (forall a, returns (k a)) -> returns (rbind r k).
Proof.
  intros Hr Hk. destruct r; simpl.
  - apply Hk.
  - unfold returns. discriminate.
  - now elim Hr.
Qed.

Lemma returns_Ok {A : Type} (a : A) : returns (Ok a).
Proof. unfold returns. discriminate. Qed.

Lemma returns_Raise {A : Type} (e : exn) : returns (@Raise A e).
Proof. unfold returns. discriminate. Qed.

Lemma returns_get (o : json) (k : string) (v : json) : returns (Py.get o k v).
Proof. destruct o; apply returns_Raise || apply returns_Ok. Qed.

Lemma returns_getitem (o : json) (k : string) : returns (Py.getitem o k).
Proof.
  destruct o; try apply returns_Raise. simpl.
  destruct Py.dict_get; apply returns_Raise || apply returns_Ok.
Qed.

Lemma returns_setitem (o : json) (k : string) (v : json) :
  returns (Py.setitem o k v).
Proof. destruct o; apply returns_Raise || apply returns_Ok. Qed.

Lemma returns_iter (v : json) : returns (Py.iter v).
Proof. destruct v; apply returns_Raise || apply returns_Ok. Qed.

Lemma returns_int_ge (n : Z) (v : json) : returns (Py.int_ge n v).
Proof. destruct v; apply returns_Raise || apply returns_Ok. Qed.

Create HintDb returns.
#[local] Hint Resolve returns_Ok returns_Raise returns_get returns_getitem
  returns_setitem returns_iter returns_int_ge : returns.

Ltac returns_tac :=
  repeat first
    [ apply returns_rbind; [|intros]
    | match goal with |- returns (if ?b then _ else _) => destruct b end
    | solve [auto with returns] ].

Lemma returns_extend (acc : list json) (v : json) : returns (extend acc v).
Proof. unfold extend. returns_tac. Qed.

Lemma returns_attach_detailed (course details : json) :
  returns (attach_detailed course details).
Proof. unfold attach_detailed. returns_tac. Qed.

Lemma returns_attach_meeting_times (course mt : json) :
  returns (attach_meeting_times course mt).
Proof. unfold attach_meeting_times. returns_tac. Qed.

#[local] Hint Resolve returns_extend returns_attach_detailed
  returns_attach_meeting_times : returns.

Lemma settled_ret {A : Type} (a : A) : settled (ret a).
Proof. intros c. apply returns_Ok. Qed.

Lemma settled_raise {A : Type} (e : exn) : settled (@raise A e).
Proof. intros c. apply returns_Raise. Qed.

Lemma settled_lift {A : Type} (r : result A) : returns r -> settled (lift r).
Proof. intros H c. exact H. Qed.

Lemma settled_bind {A B : Type} (m : M A) (k : A -> M B) :
  settled m -> (forall a, settled (k a)) -> settled (bind m k).
Proof.
  intros Hm Hk c. unfold bind. specialize (Hm c).
  destruct (m c) as [[a|e|] c']; simpl in *; try discriminate.
  - apply Hk.
  - now elim Hm.
Qed.

Lemma settled_try_except {A : Type} (body handler : M A) :
  settled body -> settled handler -> settled (try_except body handler).
Proof.
  intros Hb Hh c. unfold try_except. specialize (Hb c).
  destruct (body c) as [[a|e|] c']; simpl in *; auto.
  destruct e; simpl; auto.
Qed.

Section ClientFacts.

Variable server : service.

Lemma lift_eq {A : Type} (r : result A) (c : client) : lift r c = (r, c).
Proof. reflexivity. Qed.

Lemma send_eq (req : request) (c : client) :
  send server req c
  = (match server (requests_sent c) req with
     | TransportError => Raise RequestException
     | Response r => Ok r
     end, sent c).
Proof. unfold send. now destruct (server _ _). Qed.

(** A per-course lookup always returns, with [None] for a failed reply,
    and costs one request. *)
Lemma get_class_details_eq (term : string) (crn : json) (c : client) :
  get_class_details server term crn c
  = (Ok (lookup_value (server (requests_sent c) (GetClassDetails term crn))),
     sent c).
Proof.
  unfold get_class_details, try_except, bind. rewrite send_eq.
  destruct (server _ _) as [|r]; simpl; auto.
  unfold raise_for_status. destruct (is_http_error r); simpl; auto.
  unfold json_or_none. now destruct (body r).
Qed.

Lemma get_faculty_meeting_times_eq (term : string) (crn : json) (c : client) :
  get_faculty_meeting_times server term crn c
  = (Ok (lookup_value
           (server (requests_sent c) (GetFacultyMeetingTimes term crn))),
     sent c).
Proof.
  unfold get_faculty_meeting_times, try_except, bind. rewrite send_eq.
  destruct (server _ _) as [|r]; simpl; auto.
  unfold raise_for_status. destruct (is_http_error r); simpl; auto.
  unfold json_or_none. now destruct (body r).
Qed.

Lemma lookup_value_fails (rep : reply) :
  lookup_fails rep = true -> lookup_value rep = JNull.
Proof.
  destruct rep as [|r]; simpl; auto.
  destruct (is_http_error r); simpl; auto. now destruct (body r).
Qed.

Lemma fetch_catalog_page_eq (term ck : string) (offset size : Z) (c : client) :
  session_cookie c = Some ck -> ck <> "" ->
  fetch_catalog_page server term offset size c
  = (page_value (server (requests_sent c) (GetSearchResults term ck offset size)),
     sent c).
Proof.
  intros Hck Hne. apply String.eqb_neq in Hne.
  unfold fetch_catalog_page, bind, get_cookie. rewrite Hck, Hne.
  unfold try_except, bind. rewrite send_eq.
  destruct (server _ _) as [|r]; simpl; auto.
  unfold raise_for_status. destruct (is_http_error r); simpl; auto.
  unfold response_json. now destruct (body r).
Qed.

Lemma from_first_value_head (values : list (option string)) :
  match from_first_value values with
  | None :: _ => False
  | _ => True
  end.
Proof. induction values as [|[v|] values IH]; simpl; auto. Qed.

Lemma find_no_duplicates_values (name : string)
      (jar : list (string * option string)) :
  forall toReturn,
    find_no_duplicates name jar toReturn
    = match toReturn with
      | Some v =>
          match cookie_values name jar with
          | [] => Ok (Some v)
          | _ :: _ => Raise CookieConflictError
          end
      | None =>
          match from_first_value (cookie_values name jar) with
          | [] => Ok None
          | [v] => Ok v
          | _ :: _ :: _ => Raise CookieConflictError
          end
      end.
Proof.
  induction jar as [|[n value] jar IH]; intros toReturn; simpl.
  - now destruct toReturn.
  - destruct (n =? name).
    + destruct toReturn as [v|]; [reflexivity|].
      rewrite IH. destruct value as [v|]; simpl; [|reflexivity].
      now destruct (cookie_values name jar).
    + apply IH.
Qed.

Lemma cookies_get_session (jar : list (string * option string)) :
  cookies_get "JSESSIONID" jar
  = match session_jar jar with
    | NoCookie | EmptyCookie => Ok None
    | Usable v => Ok (Some v)
    | Conflict => Raise CookieConflictError
    end.
Proof.
  unfold cookies_get, session_jar. rewrite find_no_duplicates_values.
  assert (H := from_first_value_head (cookie_values "JSESSIONID" jar)).
  destruct (from_first_value _) as [|[v|] [|v' l]]; simpl; try easy.
  now destruct (v =? "").
Qed.

Lemma usable_not_empty (jar : list (string * option string)) (v : string) :
  session_jar jar = Usable v -> (v =? "") = false.
Proof.
  unfold session_jar.
  destruct (from_first_value _) as [|[v0|] [|v' l]]; try discriminate.
  destruct (v0 =? "") eqn:E; [discriminate|]. now intros [= <-].
Qed.

Lemma initialize_search_session_eq (term : string) (c : client) :
  initialize_search_session server term c
  = match server (requests_sent c) (PostTermSearch term) with
    | TransportError => (Raise SessionInitFailed, sent c)
    | Response r =>
        if is_http_error r then (Raise SessionInitFailed, sent c)
        else match session_jar (cookies r) with
             | Usable v => (Ok v, {| session_cookie := Some v;
                                     requests_sent := S (requests_sent c) |})
             | Conflict => (Raise CookieConflictError, sent c)
             | NoCookie | EmptyCookie => (Raise SessionCookieMissing, sent c)
             end
    end.
Proof.
  unfold initialize_search_session, try_except, bind. rewrite send_eq.
  destruct (server _ _) as [|r]; simpl; auto.
  unfold raise_for_status. destruct (is_http_error r); simpl; auto.
  rewrite cookies_get_session.
  destruct (session_jar (cookies r)) as [| |v|] eqn:E; simpl; auto.
  now rewrite (usable_not_empty _ _ E).
Qed.

Lemma settled_send (req : request) : settled (send server req).
Proof. intros c. rewrite send_eq. destruct (server _ _); simpl; auto with returns. Qed.

Lemma settled_fetch_catalog_page (term : string) (offset size : Z) :
  settled (fetch_catalog_page server term offset size).
Proof.
  unfold fetch_catalog_page. apply settled_bind; [intros c; apply returns_Ok|].
  intros [ck|]; [|apply settled_raise].
  destruct (ck =? ""); [apply settled_raise|].
  apply settled_try_except; [|apply settled_raise].
  apply settled_bind; [apply settled_send|]. intros r.
  apply settled_bind.
  - unfold raise_for_status. destruct (is_http_error r);
      [apply settled_raise|apply settled_ret].
  - intros _. unfold response_json. destruct (body r);
      [apply settled_ret|apply settled_raise].
Qed.

Lemma settled_catalog_page (term : string) (acc : list json) (offset : Z)
      (tc : json) :
  settled (catalog_page server term acc offset tc).
Proof.
  unfold catalog_page.
  apply settled_bind; [apply settled_fetch_catalog_page|]. intros data.
  apply settled_bind; [apply settled_lift; auto with returns|]. intros courses.
  apply settled_bind.
  { destruct tc; try apply settled_ret. apply settled_lift; auto with returns. }
  intros tc'.
  apply settled_bind; [apply settled_lift; auto with returns|]. intros acc'.
  apply settled_bind; [apply settled_lift; auto with returns|]. intros reached.
  apply settled_ret.
Qed.

Lemma iter_truthy (v : json) (items : list json) :
  Py.iter v = Ok items ->
  Py.truthy v = match items with [] => false | _ :: _ => true end.
Proof.
  destruct v; simpl; try discriminate; intros [= <-]; auto.
  - now destruct s.
  - now destruct d.
Qed.

Lemma int_ge_integer (k : Z) (v : json) (n : Z) :
  count_of v = Some n -> Py.int_ge k v = Ok (n <=? k)%Z.
Proof. destruct v as [|[]| | | | |]; simpl; try discriminate; now intros [= <-]. Qed.

Lemma int_ge_not_null (k : Z) (v : json) (b : bool) :
  Py.int_ge k v = Ok b -> v <> JNull.
Proof. now destruct v. Qed.

(** A total that can be reached is reached by every length from
    [reach_bound] on. *)
Lemma int_ge_reached (k : Z) (v : json) (b : bool) :
  never_reached v = false -> (reach_bound v <= k)%Z ->
  Py.int_ge k v = Ok b -> b = true.
Proof.
  destruct v as [|[]|n| | | |x];
    cbn [never_reached reach_bound Py.int_ge]; try discriminate;
    intros Hv Hk [= <-]; try (apply Z.leb_le; lia).
  destruct x as [s|[]| |[] m e]; cbn [Py.float_le_int] in *;
    try discriminate; auto; try (apply Z.leb_le; lia).
  - destruct (0 <=? e)%Z eqn:He; apply Z.leb_le.
    + assert (0 < 2 ^ e)%Z by (apply Z.pow_pos_nonneg; lia). nia.
    + apply Z.leb_gt in He.
      assert (0 < 2 ^ (- e))%Z by (apply Z.pow_pos_nonneg; lia). nia.
  - destruct (0 <=? e)%Z eqn:He; apply Z.leb_le.
    + apply Z.leb_le in He. now rewrite Z.max_l in Hk by lia.
    + apply Z.leb_gt in He. rewrite Z.max_r in Hk by lia.
      assert (0 < 2 ^ (- e))%Z by (apply Z.pow_pos_nonneg; lia).
      rewrite Z.pow_0_r in Hk. nia.
Qed.

Lemma capture_total (tc data : json) (c : client) :
  match tc with
  | JNull => lift (Py.get data "totalCount" (JInt 0))
  | _ => ret tc
  end c
  = (match tc with
     | JNull => Py.get data "totalCount" (JInt 0)
     | _ => Ok tc
     end, c).
Proof. now destruct tc. Qed.

(** What one pass through the loop body does when it gets as far as the
    [break] test. *)
Lemma catalog_page_inv (term : string) (acc : list json) (offset : Z)
      (tc : json) (c : client) (stop : bool) (acc' : list json) (tc' : json)
      (c' : client) :
  catalog_page server term acc offset tc c = (Ok (stop, acc', tc'), c') ->
  exists data courses items reached,
    fetch_catalog_page server term offset page_size c = (Ok data, c')
    /\ Py.get data "data" (JList []) = Ok courses
    /\ Py.iter courses = Ok items
    /\ acc' = acc ++ items
    /\ (tc = JNull -> Py.get data "totalCount" (JInt 0) = Ok tc')
    /\ (tc <> JNull -> tc' = tc)
    /\ Py.int_ge (Z.of_nat (List.length acc')) tc' = Ok reached
    /\ stop = (reached || match items with [] => true | _ :: _ => false end).
Proof.
  unfold catalog_page, bind.
  destruct (fetch_catalog_page server term offset page_size c)
    as [[data| |] c1] eqn:Ef; try discriminate.
  rewrite lift_eq.
  destruct (Py.get data "data" (JList [])) as [courses| |] eqn:Eg;
    try discriminate.
  rewrite capture_total.
  destruct (match tc with JNull => _ | _ => _ end) as [tc1| |] eqn:Et;
    try discriminate.
  rewrite lift_eq. unfold extend.
  destruct (Py.iter courses) as [items| |] eqn:Ei; try discriminate.
  cbn [rbind]. rewrite lift_eq.
  destruct (Py.int_ge _ tc1) as [reached| |] eqn:Er; try discriminate.
  unfold ret.
  intros [= <- <- <- <-].
  exists data, courses, items, reached. repeat split; auto.
  - intros ->. exact Et.
  - intros Hne. destruct tc; congruence.
  - rewrite (iter_truthy _ _ Ei). now destruct items.
Qed.

Lemma catalog_loop_S (fuel : nat) (term : string) (acc : list json)
      (offset : Z) (tc : json) (c : client) :
  catalog_loop server (S fuel) term acc offset tc c
  = match catalog_page server term acc offset tc c with
    | (Ok (stop, acc', tc'), c') =>
        if stop : bool then (Ok acc', c')
        else catalog_loop server fuel term acc' (offset + page_size) tc' c'
    | (Raise e, c') => (Raise e, c')
    | (Diverge, c') => (Diverge, c')
    end.
Proof.
  cbn [catalog_loop]. unfold bind.
  destruct (catalog_page server term acc offset tc c) as [[[[stop acc'] tc']| |] c'];
    auto.
  now destruct stop.
Qed.

(** Once [total_count] is captured and can be reached, the loop is over
    within [reach_bound - len(all_courses)] further passes. *)
Lemma catalog_loop_bounded (term : string) (m : nat) :
  forall (acc : list json) (offset : Z) (tc : json) (c : client),
    tc <> JNull -> never_reached tc = false ->
    (Z.to_nat (reach_bound tc - Z.of_nat (List.length acc)) <= m)%nat ->
    exists r, returns (fst r)
              /\ forall fuel, (m < fuel)%nat ->
                              catalog_loop server fuel term acc offset tc c = r.
Proof.
  induction m as [|m IH]; intros acc offset tc c Hnn Hv Hm.
  - destruct (catalog_page server term acc offset tc c)
      as [[[[stop acc'] tc']| |] c'] eqn:Ep.
    + destruct (catalog_page_inv _ _ _ _ _ _ _ _ _ Ep)
        as (data & courses & items & reached & _ & _ & _ & -> & _ & Hsame
            & Hr & ->).
      rewrite (Hsame Hnn) in *.
      exists (Ok (acc ++ items), c'). split; [apply returns_Ok|].
      intros [|fuel] Hf; [lia|]. rewrite catalog_loop_S, Ep.
      assert (Hge : (reach_bound tc <= Z.of_nat (List.length (acc ++ items)))%Z)
        by (rewrite length_app; lia).
      now rewrite (int_ge_reached _ _ _ Hv Hge Hr).
    + exists (Raise e, c'). split; [apply returns_Raise|].
      intros [|fuel] Hf; [lia|]. now rewrite catalog_loop_S, Ep.
    + exfalso. apply (settled_catalog_page term acc offset tc c).
      now rewrite Ep.
  - destruct (catalog_page server term acc offset tc c)
      as [[[[stop acc'] tc']| |] c'] eqn:Ep.
    + destruct (catalog_page_inv _ _ _ _ _ _ _ _ _ Ep)
        as (data & courses & items & reached & _ & _ & _ & Hacc & _ & Hsame
            & Hr & Hstop).
      rewrite (Hsame Hnn) in *.
      destruct stop.
      * exists (Ok acc', c'). split; [apply returns_Ok|].
        intros [|fuel] Hf; [lia|]. now rewrite catalog_loop_S, Ep.
      * symmetry in Hstop. apply orb_false_iff in Hstop.
        destruct Hstop as [-> Hitems].
        destruct items as [|x items]; [discriminate|].
        assert (Hlt : (Z.of_nat (List.length acc') < reach_bound tc)%Z).
        { destruct (Z.lt_ge_cases (Z.of_nat (List.length acc')) (reach_bound tc))
            as [Hlt|Hge]; [exact Hlt|].
          discriminate (int_ge_reached _ _ _ Hv Hge Hr). }
        destruct (IH acc' (offset + page_size)%Z tc c' Hnn Hv) as (r & Hres & Hloop).
        { subst acc'. rewrite length_app in *. simpl in *. clear IH. lia. }
        exists r. split; [exact Hres|].
        intros [|fuel] Hf; [lia|]. rewrite catalog_loop_S, Ep.
        apply Hloop. lia.
    + exists (Raise e, c'). split; [apply returns_Raise|].
      intros [|fuel] Hf; [lia|]. now rewrite catalog_loop_S, Ep.
    + exfalso. apply (settled_catalog_page term acc offset tc c).
      now rewrite Ep.
Qed.

Lemma fetch_catalog_page_Ok (term : string) (offset size : Z) (c c' : client)
      (data : json) :
  fetch_catalog_page server term offset size c = (Ok data, c') ->
  exists ck,
    session_cookie c = Some ck /\ ck <> ""
    /\ page_value (server (requests_sent c) (GetSearchResults term ck offset size))
       = Ok data
    /\ c' = sent c.
Proof.
  intros E. destruct (session_cookie c) as [ck|] eqn:Hck.
  - destruct (String.eqb_spec ck "") as [->|Hne].
    + unfold fetch_catalog_page, bind, get_cookie in E. rewrite Hck in E.
      discriminate.
    + rewrite (fetch_catalog_page_eq _ _ _ _ _ Hck Hne) in E.
      injection E as E1 E2. now exists ck.
  - unfold fetch_catalog_page, bind, get_cookie in E. rewrite Hck in E.
    discriminate.
Qed.

(** The total a first pass captures is the one its reply carries. *)
Lemma first_total_captured (term : string) (acc : list json) (offset : Z)
      (c : client) (stop : bool) (acc' : list json) (tc' : json) (c' : client) :
  catalog_page server term acc offset JNull c = (Ok (stop, acc', tc'), c') ->
  exists ck,
    captured_total (server (requests_sent c)
                           (GetSearchResults term ck offset page_size))
    = Some tc'.
Proof.
  intros Ep.
  destruct (catalog_page_inv _ _ _ _ _ _ _ _ _ Ep)
    as (data & courses & items & reached & Hf & _ & _ & _ & Ht & _).
  destruct (fetch_catalog_page_Ok _ _ _ _ _ _ Hf) as (ck & _ & _ & Hp & _).
  exists ck. unfold captured_total. rewrite Hp.
  specialize (Ht eq_refl). destruct data; try discriminate.
  simpl in Ht. now injection Ht as <-.
Qed.

(** From any state the loop is over after finitely many passes, unless
    the total in force, or the one the first reply carries, is never
    reached. *)
Lemma catalog_loop_settles (term : string) (acc : list json) (offset : Z)
      (tc : json) (c : client) :
  never_reached tc = false ->
  (tc = JNull ->
   forall ck, reachable_total (server (requests_sent c)
                                      (GetSearchResults term ck offset page_size))
              = true) ->
  exists m r, returns (fst r)
              /\ forall fuel, (m < fuel)%nat ->
                              catalog_loop server fuel term acc offset tc c = r.
Proof.
  intros Hv Hfirst.
  destruct (catalog_page server term acc offset tc c)
    as [[[[stop acc'] tc']| |] c'] eqn:Ep.
  - destruct stop.
    + exists 0%nat, (Ok acc', c'). split; [apply returns_Ok|].
      intros [|fuel] Hf; [lia|]. now rewrite catalog_loop_S, Ep.
    + assert (Hv' : never_reached tc' = false).
      { destruct (catalog_page_inv _ _ _ _ _ _ _ _ _ Ep)
          as (data & courses & items & reached & _ & _ & _ & _ & _ & Hsame & _).
        assert (Hcases : tc = JNull \/ tc <> JNull)
          by (destruct tc; auto; right; discriminate).
        destruct Hcases as [->|Hnn]; [|now rewrite (Hsame Hnn)].
        destruct (first_total_captured _ _ _ _ _ _ _ _ Ep) as (ck & Hc).
        specialize (Hfirst eq_refl ck). unfold reachable_total in Hfirst.
        rewrite Hc in Hfirst. now apply negb_true_iff in Hfirst. }
      assert (Hnn' : tc' <> JNull).
      { destruct (catalog_page_inv _ _ _ _ _ _ _ _ _ Ep)
          as (data & courses & items & reached & _ & _ & _ & _ & _ & _ & Hr & _).
        exact (int_ge_not_null _ _ _ Hr). }
      set (m := Z.to_nat (reach_bound tc' - Z.of_nat (List.length acc'))).
      destruct (catalog_loop_bounded term m acc' (offset + page_size)%Z tc' c'
                  Hnn' Hv' (le_n _)) as (r & Hr & Hloop).
      exists (S m), r. split; [exact Hr|].
      intros [|fuel] Hf; [lia|]. rewrite catalog_loop_S, Ep.
      apply Hloop. lia.
  - exists 0%nat, (Raise e, c'). split; [apply returns_Raise|].
    intros [|fuel] Hf; [lia|]. now rewrite catalog_loop_S, Ep.
  - exfalso. apply (settled_catalog_page term acc offset tc c).
    now rewrite Ep.
Qed.

(** *** Enrichment *)

Lemma dict_get_set_other (k k' : string) (v : json) (d : list (string * json)) :
  k <> k' -> Py.dict_get k' (Py.dict_set k v d) = Py.dict_get k' d.
Proof.
  intros Hne. induction d as [|[k0 v0] d IH]; simpl.
  - apply String.eqb_neq in Hne. now rewrite Hne.
  - destruct (k0 =? k) eqn:E; simpl.
    + apply String.eqb_eq in E. subst k0.
      apply String.eqb_neq in Hne. now rewrite Hne.
    + destruct (k0 =? k'); auto.
Qed.

Lemma dict_get_set_same (k : string) (v : json) (d : list (string * json)) :
  Py.dict_get k (Py.dict_set k v d) = Some v.
Proof.
  induction d as [|[k0 v0] d IH]; simpl.
  - now rewrite String.eqb_refl.
  - destruct (k0 =? k) eqn:E; simpl; now rewrite E.
Qed.

Lemma summary_part_set (k : string) (v : json) (d : list (string * json)) :
  is_attachment k = true ->
  summary_part (Py.dict_set k v d) = summary_part d.
Proof.
  intros Hk. unfold summary_part.
  induction d as [|[k0 v0] d IH]; simpl.
  - now rewrite Hk.
  - destruct (k0 =? k) eqn:E; simpl.
    + apply String.eqb_eq in E. subst k0. now rewrite Hk.
    + now rewrite IH.
Qed.

Lemma summary_part_with_attachments (details fmt : option json)
      (d : list (string * json)) :
  summary_part (with_attachments details fmt d) = summary_part d.
Proof.
  unfold with_attachments.
  destruct details, fmt; rewrite ?summary_part_set; auto.
Qed.

Lemma dict_get_with_attachments (details fmt : option json) (k : string)
      (d : list (string * json)) :
  is_attachment k = false ->
  Py.dict_get k (with_attachments details fmt d) = Py.dict_get k d.
Proof.
  intros Hk. unfold with_attachments.
  assert (H1 : "_detailed" <> k) by (intros <-; discriminate).
  assert (H2 : "_faculty_meeting_times" <> k) by (intros <-; discriminate).
  destruct details, fmt; rewrite ?dict_get_set_other; auto.
Qed.

Lemma attach_detailed_dict (d : list (string * json)) (details : json) :
  attach_detailed (JDict d) details
  = Ok (JDict (with_attachments (details_of details) None d)).
Proof.
  unfold attach_detailed, details_of, with_attachments.
  now destruct (Py.truthy details).
Qed.

(** The second attachment: made exactly when the reply has a truthy
    [fmt]; a truthy reply that is not an object has no [get]. *)
Lemma attach_meeting_times_dict (d : list (string * json)) (mt : json) :
  Py.truthy mt = false \/ (exists m, mt = JDict m) ->
  attach_meeting_times (JDict d) mt
  = Ok (JDict (with_attachments None (fmt_of mt) d)).
Proof.
  unfold attach_meeting_times, with_attachments, fmt_of.
  intros [H|[m ->]].
  - rewrite H. cbn [rbind]. destruct mt; try reflexivity. now destruct d0.
  - destruct (Py.truthy (JDict m)) eqn:Et.
    + rewrite get_dict, rbind_Ok. unfold Py.getitem, Py.or_default.
      destruct (Py.dict_get "fmt" m) as [v|]; [|reflexivity].
      rewrite rbind_Ok. now destruct (Py.truthy v).
    + destruct m; [reflexivity|discriminate].
Qed.

Lemma enrich_course_dict (term : string) (d : list (string * json))
      (c : client) :
  let crn := Py.or_default (Py.dict_get "courseReferenceNumber" d) JNull in
  let details := lookup_value (server (requests_sent c) (GetClassDetails term crn)) in
  let mt := lookup_value (server (S (requests_sent c))
                                 (GetFacultyMeetingTimes term crn)) in
  enrich_course server term (JDict d) c
  = if Py.truthy crn then
      (attach_meeting_times
         (JDict (with_attachments (details_of details) None d)) mt,
       sent (sent c))
    else (Ok (JDict d), c).
Proof.
  intros crn details mt. unfold enrich_course.
  rewrite (bind_Ok _ _ c c crn) by reflexivity. fold crn.
  destruct (Py.truthy crn); [|reflexivity].
  rewrite (bind_Ok _ _ _ _ _ (get_class_details_eq term crn c)). fold details.
  rewrite (bind_Ok _ _ (sent c) (sent c)
                   (JDict (with_attachments (details_of details) None d)))
    by (now rewrite lift_eq, attach_detailed_dict).
  rewrite (bind_Ok _ _ _ _ _ (get_faculty_meeting_times_eq term crn (sent c))).
  reflexivity.
Qed.

Lemma enrich_all_app (term : string) (pre : list json) (course : json)
      (post : list json) (c : client) :
  enrich_all server term (pre ++ course :: post) c
  = bind (enrich_all server term pre)
         (fun pre' =>
            bind (enrich_course server term course)
                 (fun course' =>
                    bind (enrich_all server term post)
                         (fun post' => ret (pre' ++ course' :: post')))) c.
Proof.
  revert c. induction pre as [|x pre IH]; intros c.
  - reflexivity.
  - cbn [app enrich_all]. unfold bind, ret.
    destruct (enrich_course server term x c) as [[x'| |] c1]; auto.
    rewrite IH. unfold bind, ret.
    destruct (enrich_all server term pre c1) as [[pre'| |] c2]; auto.
    destruct (enrich_course server term course c2) as [[course'| |] c3]; auto.
    destruct (enrich_all server term post c3) as [[post'| |] c4]; auto.
Qed.

Lemma enrich_course_failed (term : string) (d : list (string * json))
      (c : client) :
  let crn := Py.or_default (Py.dict_get "courseReferenceNumber" d) JNull in
  lookup_fails (server (requests_sent c) (GetClassDetails term crn)) = true ->
  lookup_fails (server (S (requests_sent c)) (GetFacultyMeetingTimes term crn))
  = true ->
  exists c', enrich_course server term (JDict d) c = (Ok (JDict d), c')
             /\ (Py.truthy crn = true -> c' = sent (sent c)).
Proof.
  intros crn H1 H2. rewrite enrich_course_dict. fold crn.
  destruct (Py.truthy crn); [|now exists c].
  rewrite (lookup_value_fails _ H1), (lookup_value_fails _ H2).
  now exists (sent (sent c)).
Qed.

Lemma enrich_all_failed (term : string) (courses : list json) :
  (forall n crn,
      lookup_fails (server n (GetClassDetails term crn)) = true
      /\ lookup_fails (server n (GetFacultyMeetingTimes term crn)) = true) ->
  forallb is_dict courses = true ->
  forall c, exists c', enrich_all server term courses c = (Ok courses, c').
Proof.
  intros Hfail. induction courses as [|course rest IH]; intros Hd c.
  - now exists c.
  - simpl in Hd. apply andb_true_iff in Hd. destruct Hd as [Hc Hrest].
    destruct course as [| | | | |d|]; try discriminate.
    destruct (enrich_course_failed term d c) as (c1 & E1 & _);
      try apply Hfail.
    destruct (IH Hrest c1) as (c2 & E2).
    exists c2. cbn [enrich_all].
    rewrite (bind_Ok _ _ _ _ _ E1), (bind_Ok _ _ _ _ _ E2). reflexivity.
Qed.

(** The detailed run is the quick run followed by the enrichment loop. *)
Lemma get_course_catalog_detailed (fuel : nat) (term : string) (c cq : client)
      (qs : list json) :
  get_course_catalog server fuel term false c = (Ok qs, cq) ->
  get_course_catalog server fuel term true c
  = match qs with
    | [] => (Ok qs, cq)
    | _ :: _ => enrich_all server term qs cq
    end.
Proof.
  unfold get_course_catalog, bind.
  destruct (initialize_search_session server term c) as [[v| |] c1];
    try discriminate.
  destruct (catalog_loop server fuel term [] 0%Z JNull c1) as [[all| |] c2];
    try discriminate.
  cbn [andb]. unfold ret. intros [= <- <-]. now destruct all.
Qed.

Lemma attach_meeting_times_Ok (d : list (string * json)) (mt course' : json) :
  attach_meeting_times (JDict d) mt = Ok course' ->
  Py.truthy mt = false \/ (exists m, mt = JDict m).
Proof.
  unfold attach_meeting_times.
  destruct (Py.truthy mt) eqn:Et; [|now left].
  destruct mt; try discriminate. right. now eexists.
Qed.

Lemma fmt_of_Some (mt v : json) :
  fmt_of mt = Some v <->
  exists m, mt = JDict m /\ Py.dict_get "fmt" m = Some v /\ Py.truthy v = true.
Proof.
  split.
  - destruct mt; try discriminate. simpl.
    destruct (Py.dict_get "fmt" d) as [x|] eqn:E; try discriminate.
    destruct (Py.truthy x) eqn:Et; try discriminate.
    intros [= <-]. now exists d.
  - intros (m & -> & E & Et). simpl. now rewrite E, Et.
Qed.

Lemma with_attachments_typed (details fmt : option json)
      (d : list (string * json)) :
  is_course_summary (JDict d) = true ->
  match fmt with Some v => is_meeting_list (Some v) = true | None => True end ->
  is_course_summary (JDict (with_attachments details fmt d)) = true.
Proof.
  unfold is_course_summary. rewrite !andb_true_iff. intros [[Hf He] Ha] Hfmt.
  rewrite !dict_get_with_attachments by reflexivity.
  repeat split; auto.
  unfold with_attachments. destruct fmt as [v|].
  - now rewrite dict_get_set_same.
  - destruct details; auto. rewrite dict_get_set_other; auto. discriminate.
Qed.

Lemma fmt_of_typed (mt : json) :
  is_fmt_reply mt = true ->
  match fmt_of mt with Some v => is_meeting_list (Some v) = true | None => True end.
Proof.
  intros H. destruct (fmt_of mt) as [v|] eqn:E; auto.
  apply fmt_of_Some in E. destruct E as (m & -> & E & _).
  simpl in H. now rewrite E in H.
Qed.

Lemma enrich_course_typed (term : string) (d : list (string * json))
      (c : client) :
  (forall n crn,
      is_fmt_reply (lookup_value (server n (GetFacultyMeetingTimes term crn)))
      = true) ->
  is_course_summary (JDict d) = true ->
  exists d' c',
    enrich_course server term (JDict d) c = (Ok d', c') /\ enriched (JDict d) d'.
Proof.
  intros Hfmt Hd. rewrite enrich_course_dict.
  destruct (Py.truthy _).
  - set (mt := lookup_value (server (S (requests_sent c)) _)).
    assert (Hmt : is_fmt_reply mt = true) by apply Hfmt.
    rewrite attach_meeting_times_dict
      by (destruct mt; try discriminate; [now left|right; now eexists]).
    eexists. eexists. split; [reflexivity|].
    eexists d, _, (fmt_of mt). split; [reflexivity|].
    split; [reflexivity|]. split; [exact Hd|].
    apply (with_attachments_typed _ (fmt_of mt) d Hd). now apply fmt_of_typed.
  - exists (JDict d), c. split; [reflexivity|].
    exists d, None, None. repeat split; auto.
Qed.

Lemma enrich_all_typed (term : string) (qs : list json) :
  (forall n crn,
      is_fmt_reply (lookup_value (server n (GetFacultyMeetingTimes term crn)))
      = true) ->
  forallb is_course_summary qs = true ->
  forall c, exists ds c',
      enrich_all server term qs c = (Ok ds, c') /\ Forall2 enriched qs ds.
Proof.
  intros Hfmt. induction qs as [|q qs IH]; intros Hqs c.
  - exists [], c. split; [reflexivity|constructor].
  - simpl in Hqs. apply andb_true_iff in Hqs. destruct Hqs as [Hq Hqs].
    destruct q as [| | | | |d|]; try discriminate.
    destruct (enrich_course_typed term d c Hfmt Hq) as (d' & c1 & E1 & H1).
    destruct (IH Hqs c1) as (ds & c2 & E2 & H2).
    exists (d' :: ds), c2. split; [|now constructor].
    cbn [enrich_all]. now rewrite (bind_Ok _ _ _ _ _ E1), (bind_Ok _ _ _ _ _ E2).
Qed.

Lemma settled_initialize_search_session (term : string) :
  settled (initialize_search_session server term).
Proof.
  intros c. rewrite initialize_search_session_eq.
  destruct (server _ _) as [|r]; [apply returns_Raise|].
  destruct (is_http_error r); [apply returns_Raise|].
  destruct (session_jar _); first [apply returns_Raise|apply returns_Ok].
Qed.

Lemma initialize_search_session_counts (term : string) (c c1 : client)
      (v : string) :
  initialize_search_session server term c = (Ok v, c1) ->
  requests_sent c1 = S (requests_sent c).
Proof.
  rewrite initialize_search_session_eq.
  destruct (server _ _) as [|r]; [discriminate|].
  destruct (is_http_error r); [discriminate|].
  destruct (session_jar _); try discriminate. now intros [= _ <-].
Qed.

Lemma settled_enrich_course (term : string) (course : json) :
  settled (enrich_course server term course).
Proof.
  unfold enrich_course.
  apply settled_bind; [apply settled_lift; auto with returns|]. intros crn.
  destruct (Py.truthy crn); [|apply settled_ret].
  apply settled_bind.
  { intros c. rewrite get_class_details_eq. apply returns_Ok. }
  intros details.
  apply settled_bind; [apply settled_lift; auto with returns|]. intros course'.
  apply settled_bind.
  { intros c. rewrite get_faculty_meeting_times_eq. apply returns_Ok. }
  intros mt. apply settled_lift; auto with returns.
Qed.

Lemma settled_enrich_all (term : string) (courses : list json) :
  settled (enrich_all server term courses).
Proof.
  induction courses as [|course rest IH]; simpl; [apply settled_ret|].
  apply settled_bind; [apply settled_enrich_course|]. intros course'.
  apply settled_bind; [exact IH|]. intros rest'. apply settled_ret.
Qed.

Lemma get_course_catalog_settles (term : string) (detailed : bool) (c : client) :
  (forall ck, reachable_total (server (S (requests_sent c))
                                      (GetSearchResults term ck 0 page_size))
              = true) ->
  exists fuel r,
    returns (fst r)
    /\ forall fuel', (fuel <= fuel')%nat ->
                     get_course_catalog server fuel' term detailed c = r.
Proof.
  intros Hfirst.
  destruct (initialize_search_session server term c) as [[v|e|] c1] eqn:Ei.
  - destruct (catalog_loop_settles term [] 0%Z JNull c1 eq_refl)
      as (m & [res c2] & Hr & Hloop).
    { intros _ ck. rewrite (initialize_search_session_counts _ _ _ _ Ei).
      apply Hfirst. }
    exists (S m), (get_course_catalog server (S m) term detailed c).
    split.
    + unfold get_course_catalog. rewrite (bind_Ok _ _ _ _ _ Ei).
      unfold bind at 1. rewrite Hloop by lia.
      destruct res as [all| |]; simpl in *.
      * destruct (detailed && _); [apply settled_enrich_all|apply returns_Ok].
      * apply returns_Raise.
      * exact Hr.
    + intros fuel' Hf. unfold get_course_catalog.
      rewrite !(bind_Ok _ _ _ _ _ Ei). unfold bind.
      now rewrite !Hloop by lia.
  - exists 0%nat, (Raise e, c1). split; [apply returns_Raise|].
    intros fuel' _. unfold get_course_catalog. now apply bind_Raise.
  - exfalso. apply (settled_initialize_search_session term c). now rewrite Ei.
Qed.

End ClientFacts.

(** On [endless_service] every pass appends the page's record and goes
    on: no count is [>=] positive infinity. *)
Lemma endless_page (acc : list json) (offset : Z) (tc : json) (n : nat) :
  tc = JNull \/ tc = infinity ->
  catalog_page endless_service "202510" acc offset tc
               {| session_cookie := Some "A1B2C3"; requests_sent := n |}
  = (Ok (false, acc ++ [stub_course], infinity),
     {| session_cookie := Some "A1B2C3"; requests_sent := S n |}).
Proof. intros [-> | ->]; reflexivity. Qed.

Lemma endless_loop (fuel : nat) :
  forall (acc : list json) (offset : Z) (tc : json) (n : nat),
    tc = JNull \/ tc = infinity ->
    fst (catalog_loop endless_service fuel "202510" acc offset tc
                      {| session_cookie := Some "A1B2C3"; requests_sent := n |})
    = Diverge.
Proof.
  induction fuel as [|fuel IH]; intros acc offset tc n Htc; [reflexivity|].
  rewrite catalog_loop_S, (endless_page _ _ _ _ Htc). apply IH. now right.
Qed.

(** C1, as stated, fails on a service whose first page reports a
    [totalCount] of [1e999] and whose pages are never empty: the session
    is set up, every pass appends a record, and no amount of fuel lets
    [get_course_catalog] or its loop return. *)
Lemma unreachable_total_never_ends :
  (forall fuel,
      fst (get_course_catalog endless_service fuel "202510" false init) = Diverge)
  /\ ~ (exists fuel r,
          returns (fst r)
          /\ forall fuel', (fuel <= fuel')%nat ->
                           get_course_catalog endless_service fuel' "202510"
                                              false init = r)
  /\ ~ (exists m r,
          returns (fst r)
          /\ forall fuel, (m < fuel)%nat ->
                          catalog_loop endless_service fuel "202510" [] 0%Z JNull
                                       ready_client = r).
Proof.
  assert (Hrun : forall fuel,
             fst (get_course_catalog endless_service fuel "202510" false init)
             = Diverge).
  { intros fuel. unfold get_course_catalog.
    rewrite (bind_Ok _ _ init
               {| session_cookie := Some "A1B2C3"; requests_sent := 1 |}
               "A1B2C3") by reflexivity.
    unfold bind.
    assert (H := endless_loop fuel [] 0%Z JNull 1 (or_introl eq_refl)).
    destruct (catalog_loop endless_service fuel "202510" [] 0%Z JNull _)
      as [[all| |] c2]; try discriminate H. reflexivity. }
  split; [exact Hrun|]. split.
  - intros (fuel & r & Hr & H). apply Hr.
    rewrite <- (H fuel (le_n _)). apply Hrun.
  - intros (m & r & Hr & H). apply Hr.
    rewrite <- (H (S m) (Nat.lt_succ_diag_r _)).
    apply (endless_loop (S m) [] 0%Z JNull 0). now left.
Qed.

(** C1, amended: the catalog fetch loop terminates for every
    sequence of replies, unless the [totalCount] captured from the first
    page is a float that no count reaches, positive infinity or a NaN.
    [get_course_catalog] returns (a value or an exception) for all large
    enough fuel when the reply to its first page request carries no such
    total, and so does the loop from any state whose total is not of that
    kind.  A pass that reaches the [break] test appends the page's records,
    keeps the [totalCount] captured on the first pass, and stops exactly
    when the accumulated count has reached it or the page had no records;
    for an integer total [n], reached means [n <= len(all_courses)], and a
    total of positive infinity or NaN is never reached.  Otherwise the loop
    goes on with the offset moved by the page size.  A pass that raises
    ends the loop with that exception. *)
Theorem catalog_fetch_terminates (server : service) (term : string) :
  (forall detailed c,
      (forall ck, reachable_total
                    (server (S (requests_sent c))
                            (GetSearchResults term ck 0 page_size)) = true) ->
      exists fuel r,
        returns (fst r)
        /\ forall fuel', (fuel <= fuel')%nat ->
                         get_course_catalog server fuel' term detailed c = r)
  /\ (forall acc offset tc c,
         never_reached tc = false ->
         (tc = JNull ->
          forall ck, reachable_total
                       (server (requests_sent c)
                               (GetSearchResults term ck offset page_size))
                     = true) ->
         exists m r,
           returns (fst r)
           /\ forall fuel, (m < fuel)%nat ->
                           catalog_loop server fuel term acc offset tc c = r)
  /\ (forall fuel acc offset tc c stop acc' tc' c',
         catalog_page server term acc offset tc c = (Ok (stop, acc', tc'), c') ->
         (exists data courses items reached,
             fetch_catalog_page server term offset page_size c = (Ok data, c')
             /\ Py.get data "data" (JList []) = Ok courses
             /\ Py.iter courses = Ok items
             /\ acc' = acc ++ items
             /\ (tc = JNull -> Py.get data "totalCount" (JInt 0) = Ok tc')
             /\ (tc <> JNull -> tc' = tc)
             /\ Py.int_ge (Z.of_nat (List.length acc')) tc' = Ok reached
             /\ (forall n, count_of tc' = Some n ->
                           (reached = true <-> (n <= Z.of_nat (List.length acc'))%Z))
             /\ (never_reached tc' = true -> reached = false)
             /\ (stop = true <-> reached = true \/ items = []))
         /\ catalog_loop server (S fuel) term acc offset tc c
            = if stop then (Ok acc', c')
              else catalog_loop server fuel term acc' (offset + page_size) tc' c')
  /\ (forall fuel acc offset tc c e c',
         catalog_page server term acc offset tc c = (Raise e, c') ->
         catalog_loop server (S fuel) term acc offset tc c = (Raise e, c')).
Proof.
  split; [intros; now apply get_course_catalog_settles|].
  split; [intros; now apply catalog_loop_settles|].
  split.
  - intros fuel acc offset tc c stop acc' tc' c' Ep. split.
    + destruct (catalog_page_inv _ _ _ _ _ _ _ _ _ _ Ep)
        as (data & courses & items & reached
            & H1 & H2 & H3 & H4 & H5 & H6 & H7 & H8).
      exists data, courses, items, reached.
      do 7 (split; [assumption|]).
      split; [|split].
      * intros n Hn. rewrite (int_ge_integer _ _ _ Hn) in H7.
        injection H7 as <-. apply Z.leb_le.
      * intros Hv. destruct tc' as [| | | | | |[| [] | |]]; try discriminate;
          cbn [Py.int_ge Py.float_le_int] in H7; congruence.
      * rewrite H8, orb_true_iff. destruct items; intuition congruence.
    + now rewrite catalog_loop_S, Ep.
  - intros fuel acc offset tc c e c' Ep. now rewrite catalog_loop_S, Ep.
Qed.

Lemma catalog_fetch_terminates_witness :
  (exists fuel r,
      returns (fst r)
      /\ forall fuel', (fuel <= fuel')%nat ->
                       get_course_catalog campus_service fuel' "202510" true init
                       = r)
  /\ (exists m r,
         returns (fst r)
         /\ forall fuel, (m < fuel)%nat ->
                         catalog_loop two_page_service fuel "202510" [] 0%Z JNull
                                      ready_client = r).
Proof.
  split.
  - apply (catalog_fetch_terminates campus_service "202510"). intros ck.
    reflexivity.
  - apply (catalog_fetch_terminates two_page_service "202510");
      [reflexivity|]. intros _ ck. reflexivity.
Defined.

Ltac size_lia := unfold page_size in *; lia.

Section ExactPages.

Variable server : service.
Variable term ck : string.
Variable n0 : nat.
Variable t : Z.
Variable pages : nat -> list json.

Let q : nat := Z.to_nat (t / page_size).

Let page_request (i : nat) : request :=
  GetSearchResults term ck (page_size * Z.of_nat i) page_size.

Hypothesis total_positive : (0 < t)%Z.
Hypothesis total_not_multiple : (t mod page_size <> 0)%Z.
Hypothesis cookie_set : ck <> "".
Hypothesis served :
  forall i, (i <= q)%nat ->
            page_records (server (n0 + i) (page_request i)) = Some (pages i).
Hypothesis first_total : page_total (server n0 (page_request 0)) = Some t.
Hypothesis full_pages :
  forall i, (i < q)%nat -> Z.of_nat (List.length (pages i)) = page_size.
Hypothesis last_page : Z.of_nat (List.length (pages q)) = (t mod page_size)%Z.

Let at_page (i : nat) : client :=
  {| session_cookie := Some ck; requests_sent := n0 + i |}.

Lemma total_split : (t = page_size * Z.of_nat q + t mod page_size)%Z.
Proof.
  unfold q. rewrite Z2Nat.id.
  - apply Z.div_mod. discriminate.
  - apply Z.div_pos; [lia|reflexivity].
Qed.

Lemma remainder_bounds : (0 < t mod page_size < page_size)%Z.
Proof.
  assert (H := Z.mod_pos_bound t page_size eq_refl). size_lia.
Qed.

Lemma page_records_inv (rep : reply) (l : list json) :
  page_records rep = Some l ->
  exists d, page_value rep = Ok (JDict d)
            /\ Py.dict_get "data" d = Some (JList l).
Proof.
  unfold page_records. destruct (page_value rep) as [[]| |]; try discriminate.
  destruct (Py.dict_get "data" d) as [[]|] eqn:E; try discriminate.
  intros [= <-]. now exists d.
Qed.

Lemma page_total_inv (rep : reply) (d : list (string * json)) :
  page_total rep = Some t -> page_value rep = Ok (JDict d) ->
  Py.dict_get "totalCount" d = Some (JInt t).
Proof.
  unfold page_total. intros H E. rewrite E in H.
  destruct (Py.dict_get "totalCount" d) as [[]|]; congruence.
Qed.

(** One pass at page [i]: the page is appended and the loop stops exactly
    on page [q]. *)
Lemma catalog_page_at (i : nat) (acc : list json) (tc : json) :
  (i <= q)%nat ->
  tc = (if Nat.eqb i 0 then JNull else JInt t) ->
  catalog_page server term acc (page_size * Z.of_nat i) tc (at_page i)
  = (Ok ((t <=? Z.of_nat (List.length (acc ++ pages i)))%Z
         || match pages i with [] => true | _ :: _ => false end,
         acc ++ pages i, JInt t),
     at_page (S i)).
Proof.
  intros Hi Htc.
  destruct (page_records_inv _ _ (served i Hi)) as (d & Hv & Hd).
  unfold catalog_page, bind.
  rewrite (fetch_catalog_page_eq server term ck) by (auto; reflexivity).
  cbn [requests_sent at_page]. fold (page_request i). rewrite Hv.
  rewrite lift_eq, get_dict, Hd. cbn [Py.or_default].
  rewrite capture_total, get_dict.
  assert (Ht : match tc with
               | JNull => Ok (Py.or_default (Py.dict_get "totalCount" d) (JInt 0))
               | _ => Ok tc
               end = Ok (JInt t)).
  { subst tc. destruct i; simpl; auto.
    rewrite Nat.add_0_r in Hv.
    now rewrite (page_total_inv _ _ first_total Hv). }
  rewrite Ht, lift_eq. unfold extend. cbn [Py.iter rbind Py.int_ge].
  rewrite lift_eq. unfold ret, sent, at_page. cbn [session_cookie requests_sent].
  rewrite <- plus_n_Sm.
  destruct (pages i); reflexivity.
Qed.

Lemma catalog_loop_from (k : nat) :
  forall (i : nat) (acc : list json) (tc : json) (fuel : nat),
    (i + k = q)%nat ->
    Z.of_nat (List.length acc) = (page_size * Z.of_nat i)%Z ->
    tc = (if Nat.eqb i 0 then JNull else JInt t) ->
    (k < fuel)%nat ->
    catalog_loop server fuel term acc (page_size * Z.of_nat i) tc (at_page i)
    = (Ok (acc ++ List.concat (map pages (seq i (S k)))), at_page (S q)).
Proof.
  assert (Hsplit := total_split). assert (Hrem := remainder_bounds).
  induction k as [|k IH]; intros i acc tc fuel Hik Hacc Htc Hfuel;
    (destruct fuel as [|fuel]; [lia|]);
    rewrite catalog_loop_S, (catalog_page_at i acc tc) by (auto; lia).
  - assert (i = q) as -> by lia.
    replace (t <=? Z.of_nat (List.length (acc ++ pages q)))%Z with true.
    + cbn [seq map List.concat orb]. now rewrite app_nil_r.
    + symmetry. apply Z.leb_le. rewrite length_app, Nat2Z.inj_add.
      assert (Hlast := last_page). size_lia.
  - assert (Hfull := full_pages i ltac:(lia)).
    replace (t <=? Z.of_nat (List.length (acc ++ pages i)))%Z with false.
    + destruct (pages i) as [|x l] eqn:Ep; [discriminate Hfull|].
      rewrite <- Ep in *. cbn [orb].
      replace (page_size * Z.of_nat i + page_size)%Z
        with (page_size * Z.of_nat (S i))%Z by size_lia.
      rewrite (IH (S i)); auto; try lia.
      * change (seq i (S (S k))) with (i :: seq (S i) (S k)).
        cbn [map List.concat]. now rewrite <- app_assoc.
      * rewrite length_app, Nat2Z.inj_add. size_lia.
    + symmetry. apply Z.leb_gt. rewrite length_app, Nat2Z.inj_add.
      assert (Z.of_nat i < Z.of_nat q)%Z by lia. clear IH. size_lia.
Qed.

Lemma length_pages (k : nat) :
  forall i, (i + k = q)%nat ->
            Z.of_nat (List.length (List.concat (map pages (seq i (S k)))))
            = (t - page_size * Z.of_nat i)%Z.
Proof.
  assert (Hsplit := total_split).
  induction k as [|k IH]; intros i Hik.
  - assert (i = q) as -> by lia. cbn [seq map List.concat]. rewrite app_nil_r.
    assert (Hlast := last_page). size_lia.
  - change (seq i (S (S k))) with (i :: seq (S i) (S k)).
    cbn [map List.concat]. rewrite length_app, Nat2Z.inj_add, (IH (S i)) by lia.
    rewrite (full_pages i) by lia. size_lia.
Qed.

Lemma ceil_pages : Z.of_nat (S q) = ceil_div t page_size.
Proof.
  assert (Hsplit := total_split). assert (Hrem := remainder_bounds).
  unfold ceil_div.
  apply Z.div_unique with (r := (t mod page_size - 1)%Z); size_lia.
Qed.

End ExactPages.

(** C2: exact pagination.  When the first page reports a positive
    [totalCount] that is not a multiple of the page size (500), every page
    before the last holds 500 records and the last holds the remainder, the
    loop issues [ceil(totalCount / 500)] page requests and returns the pages
    in order, [totalCount] records in all. *)
Theorem exact_pages_fetch
        (server : service) (term ck : string) (c : client) (t : Z)
        (pages : nat -> list json) :
  let q := Z.to_nat (t / page_size) in
  (0 < t)%Z ->
  (t mod page_size <> 0)%Z ->
  session_cookie c = Some ck ->
  ck <> "" ->
  (forall i, (i <= q)%nat ->
             page_records
               (server (requests_sent c + i)
                       (GetSearchResults term ck (page_size * Z.of_nat i) page_size))
             = Some (pages i)) ->
  page_total (server (requests_sent c)
                     (GetSearchResults term ck 0 page_size))
  = Some t ->
  (forall i, (i < q)%nat -> Z.of_nat (List.length (pages i)) = page_size) ->
  Z.of_nat (List.length (pages q)) = (t mod page_size)%Z ->
  forall fuel, (q < fuel)%nat ->
    exists courses c',
      catalog_loop server fuel term [] 0%Z JNull c = (Ok courses, c')
      /\ courses = List.concat (map pages (seq 0 (S q)))
      /\ Z.of_nat (List.length courses) = t
      /\ Z.of_nat (requests_sent c' - requests_sent c) = ceil_div t page_size.
Proof.
  intros q Hpos Hmul Hck Hne Hserved Htotal Hfull Hlast fuel Hfuel.
  assert (Hc : c = {| session_cookie := Some ck;
                      requests_sent := requests_sent c + 0 |}).
  { destruct c as [sc n]. simpl in *. now rewrite Hck, Nat.add_0_r. }
  assert (E := catalog_loop_from server term ck (requests_sent c) t pages
                 Hpos Hmul Hne Hserved Htotal Hfull Hlast
                 q 0%nat [] JNull fuel eq_refl eq_refl eq_refl Hfuel).
  cbv beta zeta in E. rewrite <- Hc in E.
  change (page_size * Z.of_nat 0)%Z with 0%Z in E. cbn [app] in E.
  eexists. eexists. split; [exact E|]. split; [reflexivity|]. split.
  - rewrite length_pages with (t := t) (k := q); auto. size_lia.
  - cbn [requests_sent]. rewrite <- ceil_pages; auto. fold q. lia.
Qed.

Lemma exact_pages_fetch_witness :
  exists courses c',
    catalog_loop two_page_service 5 "202510" [] 0%Z JNull ready_client
    = (Ok courses, c')
    /\ List.length courses = 501%nat
    /\ requests_sent c' = 2%nat.
Proof.
  destruct (exact_pages_fetch two_page_service "202510" "A1B2C3" ready_client
              501 two_pages)
    with (fuel := 5%nat)
    as (courses & c' & E & Hc & Hlen & Hreq).
  - reflexivity.
  - discriminate.
  - reflexivity.
  - discriminate.
  - intros [|[|i]] Hi; [reflexivity|reflexivity|].
    vm_compute in Hi. lia.
  - reflexivity.
  - intros [|i] Hi; [reflexivity|]. vm_compute in Hi. lia.
  - reflexivity.
  - vm_compute. lia.
  - exists courses, c'. split; [exact E|]. split.
    + apply Nat2Z.inj. exact Hlen.
    + change (ceil_div 501 page_size) with 2%Z in Hreq.
      change (requests_sent ready_client) with 0%nat in Hreq. lia.
Defined.

(** The enrichment of one course with a course reference number, when the
    faculty-meeting-times lookup hands back nothing or an object: each
    attachment is decided by its own lookup. *)
Lemma enrich_course_attaches (server : service) (term : string)
      (d : list (string * json)) (c : client) :
  let crn := Py.or_default (Py.dict_get "courseReferenceNumber" d) JNull in
  let details := lookup_value (server (requests_sent c) (GetClassDetails term crn)) in
  let mt := lookup_value (server (S (requests_sent c))
                                 (GetFacultyMeetingTimes term crn)) in
  Py.truthy crn = true ->
  Py.truthy mt = false \/ is_dict mt = true ->
  enrich_course server term (JDict d) c
  = (Ok (JDict (with_attachments (details_of details) (fmt_of mt) d)),
     sent (sent c)).
Proof.
  intros crn details mt Hcrn Hmt. rewrite enrich_course_dict. fold crn.
  rewrite Hcrn. fold details mt. rewrite attach_meeting_times_dict.
  - reflexivity.
  - destruct Hmt as [H|H]; [now left|right].
    destruct mt; try discriminate. now eexists.
Qed.

Lemma dict_get_attachments (details fmt : option json)
      (d : list (string * json)) :
  Py.dict_get "_detailed" (with_attachments details fmt d)
  = match details with
    | Some v => Some v
    | None => Py.dict_get "_detailed" d
    end
  /\ Py.dict_get "_faculty_meeting_times" (with_attachments details fmt d)
     = match fmt with
       | Some v => Some v
       | None => Py.dict_get "_faculty_meeting_times" d
       end.
Proof.
  unfold with_attachments. split.
  - destruct fmt as [f|]; [rewrite dict_get_set_other by discriminate|];
      destruct details as [v|]; auto using dict_get_set_same.
  - destruct fmt as [f|]; [apply dict_get_set_same|].
    destruct details as [v|]; auto. apply dict_get_set_other. discriminate.
Qed.

(** C4: a failed per-course lookup costs that course the corresponding
    attachment and nothing else.  A lookup whose reply is a transport
    error, an error status or an empty body returns [None] without raising.
    For a course with a reference number, each attachment is decided by its
    own lookup: [_detailed] is set to the class details exactly when they
    are truthy, [_faculty_meeting_times] to the [fmt] of the meeting-times
    reply exactly when that is truthy, and no other key changes.  So when
    the class-details lookup fails and the faculty-meeting-times lookup
    succeeds, the course gets the meeting times and no class details; when
    the class details arrive and the meeting-times lookup fails, it gets
    the class details and no meeting times.  Whatever the two lookups of
    one course give, the loop goes on: the courses before and after it are
    enriched by their own lookups; when both fail the course comes back as
    it was.  Even when every lookup fails, the detailed run returns the
    catalog of the quick run; and whichever lookups fail, the detailed run
    returns a catalog of the same length as long as the replies that do
    arrive have the expected shape. *)
Theorem lookup_failure_is_local (server : service) (term : string) :
  (forall crn c,
      (lookup_fails (server (requests_sent c) (GetClassDetails term crn)) = true ->
       get_class_details server term crn c = (Ok JNull, sent c))
      /\ (lookup_fails (server (requests_sent c)
                               (GetFacultyMeetingTimes term crn)) = true ->
          get_faculty_meeting_times server term crn c = (Ok JNull, sent c)))
  /\ (forall d c,
         let crn := Py.or_default (Py.dict_get "courseReferenceNumber" d) JNull in
         let details :=
           lookup_value (server (requests_sent c) (GetClassDetails term crn)) in
         let mt :=
           lookup_value (server (S (requests_sent c))
                                (GetFacultyMeetingTimes term crn)) in
         Py.truthy crn = true ->
         Py.truthy mt = false \/ is_dict mt = true ->
         exists d',
           enrich_course server term (JDict d) c = (Ok (JDict d'), sent (sent c))
           /\ Py.dict_get "_detailed" d'
              = (if Py.truthy details then Some details
                 else Py.dict_get "_detailed" d)
           /\ Py.dict_get "_faculty_meeting_times" d'
              = match fmt_of mt with
                | Some v => Some v
                | None => Py.dict_get "_faculty_meeting_times" d
                end
           /\ summary_part d' = summary_part d
           /\ (forall k, is_attachment k = false ->
                         Py.dict_get k d' = Py.dict_get k d))
  /\ (forall d c r m v,
         let crn := Py.or_default (Py.dict_get "courseReferenceNumber" d) JNull in
         Py.truthy crn = true ->
         lookup_fails (server (requests_sent c) (GetClassDetails term crn)) = true ->
         server (S (requests_sent c)) (GetFacultyMeetingTimes term crn)
         = Response r ->
         is_http_error r = false ->
         body r = Some (JDict m) ->
         Py.dict_get "fmt" m = Some v ->
         Py.truthy v = true ->
         let d' := Py.dict_set "_faculty_meeting_times" v d in
         enrich_course server term (JDict d) c = (Ok (JDict d'), sent (sent c))
         /\ Py.dict_get "_faculty_meeting_times" d' = Some v
         /\ Py.dict_get "_detailed" d' = Py.dict_get "_detailed" d)
  /\ (forall d c r details,
         let crn := Py.or_default (Py.dict_get "courseReferenceNumber" d) JNull in
         Py.truthy crn = true ->
         server (requests_sent c) (GetClassDetails term crn) = Response r ->
         is_http_error r = false ->
         body r = Some details ->
         Py.truthy details = true ->
         lookup_fails (server (S (requests_sent c))
                              (GetFacultyMeetingTimes term crn)) = true ->
         let d' := Py.dict_set "_detailed" details d in
         enrich_course server term (JDict d) c = (Ok (JDict d'), sent (sent c))
         /\ Py.dict_get "_detailed" d' = Some details
         /\ Py.dict_get "_faculty_meeting_times" d'
            = Py.dict_get "_faculty_meeting_times" d)
  /\ (forall pre d post c pre' c1,
         let crn := Py.or_default (Py.dict_get "courseReferenceNumber" d) JNull in
         let details :=
           lookup_value (server (requests_sent c1) (GetClassDetails term crn)) in
         let mt :=
           lookup_value (server (S (requests_sent c1))
                                (GetFacultyMeetingTimes term crn)) in
         enrich_all server term pre c = (Ok pre', c1) ->
         Py.truthy crn = true ->
         Py.truthy mt = false \/ is_dict mt = true ->
         enrich_all server term (pre ++ JDict d :: post) c
         = bind (enrich_all server term post)
                (fun post' =>
                   ret (pre'
                        ++ JDict (with_attachments (details_of details)
                                                   (fmt_of mt) d)
                        :: post'))
                (sent (sent c1)))
  /\ (forall pre d post c pre' c1,
         let crn := Py.or_default (Py.dict_get "courseReferenceNumber" d) JNull in
         enrich_all server term pre c = (Ok pre', c1) ->
         Py.truthy crn = true ->
         lookup_fails (server (requests_sent c1) (GetClassDetails term crn)) = true ->
         lookup_fails (server (S (requests_sent c1))
                              (GetFacultyMeetingTimes term crn)) = true ->
         enrich_all server term (pre ++ JDict d :: post) c
         = bind (enrich_all server term post)
                (fun post' => ret (pre' ++ JDict d :: post'))
                (sent (sent c1)))
  /\ (forall fuel c courses c',
         (forall n crn,
             lookup_fails (server n (GetClassDetails term crn)) = true
             /\ lookup_fails (server n (GetFacultyMeetingTimes term crn)) = true) ->
         forallb is_dict courses = true ->
         get_course_catalog server fuel term false c = (Ok courses, c') ->
         exists c'',
           get_course_catalog server fuel term true c = (Ok courses, c''))
  /\ (forall fuel c courses c',
         (forall n crn,
             let rep := server n (GetFacultyMeetingTimes term crn) in
             lookup_fails rep = true \/ is_fmt_reply (lookup_value rep) = true) ->
         forallb is_course_summary courses = true ->
         get_course_catalog server fuel term false c = (Ok courses, c') ->
         exists ds c'',
           get_course_catalog server fuel term true c = (Ok ds, c'')
           /\ List.length ds = List.length courses).
Proof.
  split; [|split; [|split; [|split; [|split; [|split; [|split]]]]]].
  - intros crn c. split; intros H.
    + now rewrite get_class_details_eq, (lookup_value_fails _ H).
    + now rewrite get_faculty_meeting_times_eq, (lookup_value_fails _ H).
  - intros d c crn details mt Hcrn Hmt.
    exists (with_attachments (details_of details) (fmt_of mt) d).
    split; [now apply enrich_course_attaches|].
    destruct (dict_get_attachments (details_of details) (fmt_of mt) d)
      as [H1 H2].
    split; [|split; [exact H2|split]].
    + rewrite H1. unfold details_of. now destruct (Py.truthy details).
    + apply summary_part_with_attachments.
    + intros k Hk. now apply dict_get_with_attachments.
  - intros d c r m v crn Hcrn Hfail Hrep Hok Hbody Hfmt Hv d'.
    split; [|split].
    + rewrite enrich_course_dict. fold crn. rewrite Hcrn.
      rewrite (lookup_value_fails _ Hfail), Hrep. cbn [lookup_value].
      rewrite Hok, Hbody. cbn [details_of Py.truthy with_attachments].
      rewrite attach_meeting_times_dict by (right; now exists m).
      cbn [fmt_of]. rewrite Hfmt, Hv. reflexivity.
    + apply dict_get_set_same.
    + apply dict_get_set_other. discriminate.
  - intros d c r details crn Hcrn Hrep Hok Hbody Hdet Hfail d'.
    split; [|split].
    + rewrite enrich_course_attaches; fold crn; auto.
      * rewrite (lookup_value_fails _ Hfail), Hrep. cbn [lookup_value].
        rewrite Hok, Hbody. unfold details_of. now rewrite Hdet.
      * left. now rewrite (lookup_value_fails _ Hfail).
    + apply dict_get_set_same.
    + apply dict_get_set_other. discriminate.
  - intros pre d post c pre' c1 crn details mt Hpre Hcrn Hmt.
    rewrite enrich_all_app, (bind_Ok _ _ _ _ _ Hpre).
    now rewrite (bind_Ok _ _ _ _ _ (enrich_course_attaches server term d c1
                                      Hcrn Hmt)).
  - intros pre d post c pre' c1 crn Hpre Hcrn H1 H2.
    rewrite enrich_all_app, (bind_Ok _ _ _ _ _ Hpre).
    destruct (enrich_course_failed server term d c1 H1 H2) as (c2 & E & Hc2).
    rewrite (bind_Ok _ _ _ _ _ E). now rewrite (Hc2 Hcrn).
  - intros fuel c courses c' Hfail Hd Hq.
    rewrite (get_course_catalog_detailed server fuel term c c' courses Hq).
    destruct courses; [now exists c'|].
    now apply enrich_all_failed.
  - intros fuel c courses c' Hrep Hcs Hq.
    rewrite (get_course_catalog_detailed server fuel term c c' courses Hq).
    destruct courses as [|q qs]; [now exists [], c'|].
    destruct (enrich_all_typed server term (q :: qs)) with (c := c')
      as (ds & c'' & E & Hall); auto.
    + intros n crn. destruct (Hrep n crn) as [H|H]; auto.
      now rewrite (lookup_value_fails _ H).
    + exists ds, c''. split; [exact E|].
      symmetry. eapply Forall2_length; eassumption.
Qed.

Lemma lookup_failure_is_local_witness :
  enrich_course flaky_details_service "202510" (JDict crn_course) ready_client
  = (Ok (JDict (crn_course ++ [("_faculty_meeting_times", friday_fmt)])),
     sent (sent ready_client))
  /\ enrich_course flaky_meetings_service "202510" (JDict crn_course) ready_client
     = (Ok (JDict (crn_course ++ [("_detailed", class_details)])),
        sent (sent ready_client)).
Proof.
  split.
  - destruct (lookup_failure_is_local flaky_details_service "202510")
      as (_ & _ & H & _).
    exact (proj1 (H crn_course ready_client _ _ friday_fmt
                    eq_refl eq_refl eq_refl eq_refl eq_refl eq_refl eq_refl)).
  - destruct (lookup_failure_is_local flaky_meetings_service "202510")
      as (_ & _ & _ & H & _).
    exact (proj1 (H crn_course ready_client _ class_details
                    eq_refl eq_refl eq_refl eq_refl eq_refl eq_refl)).
Defined.

(** The two branches of the flattener, by the truth of the attached
    value. *)
Lemma course_meetings_if (repr : json -> string) (d : list (string * json))
      (v : json) :
  Py.dict_get "_faculty_meeting_times" d = Some v ->
  Py.truthy v = true ->
  course_meetings repr (JDict d) = meetings_from (fmt_entry repr) v.
Proof.
  intros H Hv. unfold course_meetings. rewrite get_dict, rbind_Ok, H.
  cbn [Py.or_default]. rewrite Hv.
  unfold fmt_meetings, Py.getitem. now rewrite H.
Qed.

Lemma course_meetings_elif (repr : json -> string) (d : list (string * json)) :
  Py.truthy (Py.or_default (Py.dict_get "_faculty_meeting_times" d) JNull)
  = false ->
  course_meetings repr (JDict d) = embedded_columns repr d.
Proof.
  intros H. rewrite course_meetings_fallback by exact H.
  unfold embedded_meetings, embedded_columns, Py.getitem.
  rewrite get_dict, rbind_Ok.
  destruct (Py.dict_get "meetingsFaculty" d) as [v|]; [|reflexivity].
  cbn [Py.or_default]. now destruct (Py.truthy v).
Qed.

(** C9: faculty meeting times are attached only for a non-empty [fmt],
    and unwrapped; the flattener reads the attachment only when it is
    non-empty and otherwise reads the embedded meetings.  Whenever the
    attachment step returns, the course is the old one with
    [_faculty_meeting_times] set to the reply's [fmt] value if the reply is
    an object with a truthy [fmt], and the old one untouched otherwise; a
    reply whose [fmt] is missing, an empty list or any other false value
    attaches nothing.  Through [enrich_course], the key afterwards holds
    that [fmt] value itself when it is truthy and what it held before
    otherwise.  In the flattener the attached value decides: when it is
    truthy the meeting columns come from the loop over it (for a list, when
    it is non-empty) and the embedded meetings are not read; when it is
    missing, [null], an empty list or any other false value they come from
    the loop over the embedded [meetingsFaculty] list, and are empty when
    there is none.  For a CourseSummary on that second path the three
    meeting columns of the row are the joins of what the embedded loop
    collects. *)
Theorem fmt_attached_only_when_nonempty
        (server : service) (repr : json -> string) :
  (forall d mt course',
      attach_meeting_times (JDict d) mt = Ok course' ->
      course' = JDict (match fmt_of mt with
                       | Some v => Py.dict_set "_faculty_meeting_times" v d
                       | None => d
                       end))
  /\ (forall mt v,
         fmt_of mt = Some v <->
         exists m, mt = JDict m /\ Py.dict_get "fmt" m = Some v
                   /\ Py.truthy v = true)
  /\ (forall d m,
         Py.truthy (Py.or_default (Py.dict_get "fmt" m) JNull) = false ->
         attach_meeting_times (JDict d) (JDict m) = Ok (JDict d))
  /\ (forall term d c r m,
         let crn := Py.or_default (Py.dict_get "courseReferenceNumber" d) JNull in
         let fmt := Py.or_default (Py.dict_get "fmt" m) JNull in
         Py.truthy crn = true ->
         server (S (requests_sent c)) (GetFacultyMeetingTimes term crn)
         = Response r ->
         is_http_error r = false ->
         body r = Some (JDict m) ->
         exists d',
           enrich_course server term (JDict d) c = (Ok (JDict d'), sent (sent c))
           /\ Py.dict_get "_faculty_meeting_times" d'
              = if Py.truthy fmt then Some fmt
                else Py.dict_get "_faculty_meeting_times" d)
  /\ (forall d v,
         Py.dict_get "_faculty_meeting_times" d = Some v ->
         Py.truthy v = true ->
         course_meetings repr (JDict d) = meetings_from (fmt_entry repr) v)
  /\ (forall d e l,
         Py.dict_get "_faculty_meeting_times" d = Some (JList (e :: l)) ->
         course_meetings repr (JDict d)
         = for_each (fmt_entry repr) (e :: l) no_meetings)
  /\ (forall d,
         Py.truthy (Py.or_default (Py.dict_get "_faculty_meeting_times" d) JNull)
         = false ->
         course_meetings repr (JDict d)
         = match Py.dict_get "meetingsFaculty" d with
           | Some v =>
               if Py.truthy v then meetings_from (embedded_entry repr) v
               else Ok no_meetings
           | None => Ok no_meetings
           end)
  /\ (forall d emb,
         Py.dict_get "_faculty_meeting_times" d = None
         \/ Py.dict_get "_faculty_meeting_times" d = Some JNull
         \/ Py.dict_get "_faculty_meeting_times" d = Some (JList []) ->
         Py.dict_get "meetingsFaculty" d = Some (JList emb) ->
         course_meetings repr (JDict d)
         = for_each (embedded_entry repr) emb no_meetings)
  /\ (forall d emb,
         is_course_summary (JDict d) = true ->
         Py.truthy (Py.or_default (Py.dict_get "_faculty_meeting_times" d) JNull)
         = false ->
         Py.dict_get "meetingsFaculty" d = Some (JList emb) ->
         exists m days times place r,
           for_each (embedded_entry repr) emb no_meetings = Ok m
           /\ joined (meeting_days m) = Ok days
           /\ joined (meeting_times m) = Ok times
           /\ joined (meeting_locations m) = Ok place
           /\ flatten_course_data repr (JDict d) = Ok r
           /\ meeting_columns r = [Some days; Some times; Some place]).
Proof.
  assert (Hlist : forall d emb,
             Py.truthy (Py.or_default (Py.dict_get "_faculty_meeting_times" d)
                                      JNull) = false ->
             Py.dict_get "meetingsFaculty" d = Some (JList emb) ->
             course_meetings repr (JDict d)
             = for_each (embedded_entry repr) emb no_meetings).
  { intros d emb Hatt Hemb. rewrite course_meetings_elif by exact Hatt.
    unfold embedded_columns. rewrite Hemb. now destruct emb. }
  split; [|split; [|split; [|split; [|split; [|split; [|split; [|split]]]]]]].
  - intros d mt course' H.
    rewrite attach_meeting_times_dict in H
      by (eapply attach_meeting_times_Ok; eassumption).
    injection H as <-. unfold with_attachments. now destruct (fmt_of mt).
  - apply fmt_of_Some.
  - intros d m H.
    rewrite attach_meeting_times_dict by (right; now exists m).
    cbn [fmt_of with_attachments].
    destruct (Py.dict_get "fmt" m) as [v|]; [|reflexivity].
    cbn [Py.or_default] in H. now rewrite H.
  - intros term d c r m crn fmt Hcrn Hrep Hok Hbody.
    rewrite enrich_course_dict. fold crn. rewrite Hcrn, Hrep.
    cbn [lookup_value]. rewrite Hok, Hbody.
    rewrite attach_meeting_times_dict by (right; now exists m).
    eexists. split; [reflexivity|].
    match goal with
    | |- Py.dict_get _ (with_attachments None ?f (with_attachments ?a None d)) = _ =>
        change (with_attachments None f (with_attachments a None d))
          with (with_attachments a f d);
        rewrite (proj2 (dict_get_attachments a f d))
    end.
    subst fmt. cbn [fmt_of].
    destruct (Py.dict_get "fmt" m) as [v|]; [|reflexivity].
    cbn [Py.or_default]. now destruct (Py.truthy v).
  - intros d v H Hv. now apply course_meetings_if.
  - intros d e l H. now apply course_meetings_attached.
  - intros d H. now apply course_meetings_elif.
  - intros d emb H Hemb. apply Hlist; [|exact Hemb].
    now destruct H as [-> |[-> | ->]].
  - intros d emb Hc Hatt Hemb.
    destruct (flatten_typed repr d Hc)
      as (names & m & f & a & b & c & _ & _ & Hm & Ha & Hb & Hl & E).
    rewrite (Hlist d emb Hatt Hemb) in Hm.
    exists m, (JStr a), (JStr b), (JStr c). eexists.
    repeat (split; [eassumption|]). reflexivity.
Qed.

Lemma fmt_attached_only_when_nonempty_witness :
  attach_meeting_times (JDict crn_course) (JDict [("fmt", JList [])])
  = Ok (JDict crn_course)
  /\ course_meetings (fun _ => "") (JDict both_sources)
     = Ok {| meeting_days := [JStr "F"];
             meeting_times := [JStr "1400-1515"];
             meeting_locations := [JStr "Annex Central 201"] |}
  /\ exists r,
       flatten_course_data (fun _ => "") (JDict fallback_course) = Ok r
       /\ meeting_columns r
          = [Some (JStr "MW"); Some (JStr "1000-1050"); Some (JStr "WENT 100")].
Proof.
  destruct (fmt_attached_only_when_nonempty flaky_details_service (fun _ => ""))
    as (_ & _ & H3 & _ & _ & H6 & _ & _ & H9).
  split; [|split].
  - apply H3. reflexivity.
  - rewrite (H6 both_sources _ _ eq_refl). reflexivity.
  - destruct (H9 fallback_course _ eq_refl eq_refl eq_refl)
      as (m & days & times & place & r & Hm & Hd & Ht & Hp & Hr & Hcols).
    exists r. split; [exact Hr|].
    cbv in Hm. injection Hm as <-.
    cbv in Hd, Ht, Hp. injection Hd as <-. injection Ht as <-.
    injection Hp as <-. exact Hcols.
Defined.










(** C7, as stated, fails on a response whose session cookie is there but
    empty: none of the three stated causes holds, and the call raises. *)
Lemma empty_session_cookie_is_rejected :
  let rep := empty_cookie_service 0 (PostTermSearch "202510") in
  let outcome := initialize_search_session empty_cookie_service "202510" init in
  outcome = (Raise SessionCookieMissing, sent init)
  /\ session_failure_as_stated rep = false
  /\ ~ ((exists e, fst outcome = Raise e)
        <-> session_failure_as_stated rep = true).
Proof.
  split; [reflexivity|]. split; [reflexivity|].
  intros [H _]. discriminate H. now exists SessionCookieMissing.
Qed.

(** Every cause of failure the specification names is one. *)
Lemma stated_failure_is_failure (rep : reply) :
  session_failure_as_stated rep = true -> session_failure rep = true.
Proof.
  destruct rep as [|r]; simpl; auto.
  destruct (is_http_error r); simpl; auto.
  unfold session_jar. now destruct (cookie_values _ _).
Qed.

Lemma cookie_values_In (name : string) (jar : list (string * option string))
      (value : option string) :
  In value (cookie_values name jar) -> In (name, value) jar.
Proof.
  induction jar as [|[n v] jar IH]; simpl; auto.
  destruct (String.eqb_spec n name) as [->|Hne]; simpl; intuition congruence.
Qed.

(** The jar can be used exactly when its session cookies are one with a
    non-empty value, behind any number without a value. *)
Lemma usable_values (jar : list (string * option string)) (v : string) :
  session_jar jar = Usable v
  <-> exists k, cookie_values "JSESSIONID" jar = repeat None k ++ [Some v]
                /\ v <> "".
Proof.
  unfold session_jar.
  induction (cookie_values "JSESSIONID" jar) as [|[v'|] values IH]; simpl.
  - split; [discriminate|]. intros ([|k] & H & _); discriminate.
  - split.
    + destruct values as [|v0 values]; [|discriminate].
      destruct (String.eqb_spec v' "") as [->|Hne]; [discriminate|].
      intros [= <-]. now exists 0%nat.
    + intros ([|k] & H & Hne); [|discriminate]. injection H as -> ->.
      apply String.eqb_neq in Hne. now rewrite Hne.
  - rewrite IH. split.
    + intros (k & -> & Hne). now exists (S k).
    + intros ([|k] & H & Hne); [discriminate|]. injection H as ->.
      now exists k.
Qed.

Lemma usable_In (jar : list (string * option string)) (v : string) :
  session_jar jar = Usable v -> In ("JSESSIONID", Some v) jar.
Proof.
  intros H. apply usable_values in H. destruct H as (k & H & _).
  apply cookie_values_In. rewrite H. apply in_or_app. right. now left.
Qed.

(** C7, amended: [initialize_search_session] raises exactly when the
    transport call fails, the status is an error status, or the response's
    jar gives no usable session cookie: it has none with a value, the value
    is empty, or a cookie with a value is followed by another of that name.
    The jar can be used exactly when its [JSESSIONID] cookies are one with a
    non-empty value behind any number without a value.  The exception says
    which cause it was; a cookie conflict is raised as it is, not wrapped.
    The error is fatal: [get_course_catalog] raises it after that single
    request.  Otherwise the call returns the cookie value and stores it,
    and the next page request carries it. *)
Theorem session_setup_fails_exactly
        (server : service) (term : string) (c : client) :
  let rep := server (requests_sent c) (PostTermSearch term) in
  let outcome := initialize_search_session server term c in
  ((exists e, fst outcome = Raise e) <-> session_failure rep = true)
  /\ (forall jar v,
         session_jar jar = Usable v
         <-> exists k, cookie_values "JSESSIONID" jar = repeat None k ++ [Some v]
                       /\ v <> "")
  /\ (forall e, fst outcome = Raise e ->
                session_exception rep = Some e
                /\ forall fuel detailed,
                     get_course_catalog server fuel term detailed c
                     = (Raise e, sent c))
  /\ (session_failure rep = false ->
      exists r v,
        rep = Response r
        /\ session_jar (cookies r) = Usable v
        /\ In ("JSESSIONID", Some v) (cookies r)
        /\ v <> ""
        /\ outcome = (Ok v, {| session_cookie := Some v;
                               requests_sent := S (requests_sent c) |})
        /\ forall offset size,
             fetch_catalog_page server term offset size (snd outcome)
             = (page_value (server (S (requests_sent c))
                                   (GetSearchResults term v offset size)),
                sent (snd outcome))).
Proof.
  intros rep outcome.
  assert (E := initialize_search_session_eq server term c).
  fold outcome rep in E.
  split; [split|split; [exact usable_values|split]].
  - intros [e He]. rewrite E in He. unfold session_failure.
    destruct rep as [|r]; auto.
    destruct (is_http_error r); auto.
    destruct (session_jar _); auto. discriminate He.
  - intros H. rewrite E. unfold session_failure in H.
    destruct rep as [|r]; [now eexists|].
    destruct (is_http_error r); [now eexists|].
    destruct (session_jar _); try discriminate; now eexists.
  - intros e He. split.
    + rewrite E in He. unfold session_exception.
      destruct rep as [|r]; [simpl in He; congruence|].
      destruct (is_http_error r); [simpl in He; congruence|].
      destruct (session_jar _); simpl in He; congruence.
    + intros fuel detailed. unfold get_course_catalog.
      apply bind_Raise. fold outcome. rewrite E in He |- *.
      destruct rep as [|r]; [simpl in He; congruence|].
      destruct (is_http_error r); [simpl in He; congruence|].
      destruct (session_jar _); simpl in He; congruence.
  - intros H. unfold session_failure in H.
    destruct rep as [|r]; [discriminate|]. exists r.
    destruct (is_http_error r); [discriminate|].
    destruct (session_jar (cookies r)) as [| |v|] eqn:Hjar; try discriminate.
    exists v. assert (Hne := usable_not_empty _ _ Hjar).
    apply String.eqb_neq in Hne.
    split; [reflexivity|]. split; [reflexivity|].
    split; [now apply usable_In|]. split; [exact Hne|]. split; [exact E|].
    intros offset size. rewrite E. cbn [snd].
    now rewrite (fetch_catalog_page_eq server term v) by auto.
Qed.

Lemma session_setup_fails_exactly_witness :
  (exists v,
      initialize_search_session campus_service "202510" init
      = (Ok v, {| session_cookie := Some v; requests_sent := 1 |}))
  /\ (forall fuel detailed,
         get_course_catalog duplicate_cookie_service fuel "202510" detailed init
         = (Raise CookieConflictError, sent init)).
Proof.
  split.
  - destruct (session_setup_fails_exactly campus_service "202510" init)
      as (_ & _ & _ & H).
    destruct (H eq_refl) as (r & v & _ & _ & _ & _ & E & _).
    exists v. exact E.
  - destruct (session_setup_fails_exactly duplicate_cookie_service "202510" init)
      as (_ & _ & H & _).
    destruct (H CookieConflictError eq_refl) as [_ Hfatal]. exact Hfatal.
Defined.

(** * Further properties *)

(** ** The term list *)

Lemma getitem_not_request (o : json) (k : string) :
  Py.getitem o k <> Raise RequestException.
Proof.
  destruct o; simpl; try discriminate. destruct (Py.dict_get k d); discriminate.
Qed.

Lemma term_entry_not_request (term : json) :
  term_entry term <> Raise RequestException.
Proof.
  unfold term_entry.
  destruct (Py.getitem term "code") eqn:E1; cbn [rbind]; try discriminate.
  - destruct (Py.getitem term "description") eqn:E2; cbn [rbind];
      try discriminate.
    intros [= ->]. now apply (getitem_not_request term "description").
  - intros [= ->]. now apply (getitem_not_request term "code").
Qed.

Lemma comprehension_not_request {A B : Type} (f : A -> result B)
      (items : list A) :
  (forall x, f x <> Raise RequestException) ->
  comprehension f items <> Raise RequestException.
Proof.
  intros Hf. induction items as [|x rest IH]; simpl; [discriminate|].
  destruct (f x) eqn:E; cbn [rbind]; try discriminate.
  - destruct (comprehension f rest); cbn [rbind]; try discriminate.
    intros [= ->]. now apply IH.
  - intros [= ->]. now apply (Hf x).
Qed.

Lemma term_entries_not_request (terms : json) :
  term_entries terms <> Raise RequestException.
Proof.
  unfold term_entries. destruct terms; simpl; try discriminate;
    apply comprehension_not_request, term_entry_not_request.
Qed.

(** The query costs one request; only the comprehension can raise. *)
Lemma get_available_terms_eq (endpoint : nat -> reply) (c : client) :
  get_available_terms endpoint c
  = (match endpoint (requests_sent c) with
     | TransportError => Ok []
     | Response r =>
         if is_http_error r then Ok []
         else match body r with
              | None => Ok []
              | Some terms => term_entries terms
              end
     end, sent c).
Proof.
  unfold get_available_terms, try_except, bind, send_terms_query.
  destruct (endpoint _) as [|r]; [reflexivity|].
  unfold raise_for_status. destruct (is_http_error r); [reflexivity|].
  cbn. unfold response_json. destruct (body r) as [terms|]; [|reflexivity].
  cbn. unfold lift.
  assert (H := term_entries_not_request terms).
  destruct (term_entries terms) as [l|e|]; auto.
  destruct e; auto. now elim H.
Qed.

Lemma term_entry_project (term : json) :
  has_term_keys term = true -> term_entry term = Ok (project_term term).
Proof.
  destruct term as [| | | | |d|]; try discriminate. simpl.
  unfold term_entry, Py.getitem.
  destruct (Py.dict_get "code" d); try discriminate.
  destruct (Py.dict_get "description" d); try discriminate.
  reflexivity.
Qed.

Lemma comprehension_terms (l : list json) :
  forallb has_term_keys l = true ->
  comprehension term_entry l = Ok (map project_term l).
Proof.
  induction l as [|e l IH]; simpl; auto.
  intros H. apply andb_true_iff in H. destruct H as [He Hl].
  now rewrite (term_entry_project e He), rbind_Ok, (IH Hl).
Qed.

Lemma comprehension_app_raise {A B : Type} (f : A -> result B)
      (pre : list A) (x : A) (post : list A) (ys : list B) (e : exn) :
  comprehension f pre = Ok ys -> f x = Raise e ->
  comprehension f (pre ++ x :: post) = Raise e.
Proof.
  revert ys. induction pre as [|p pre IH]; intros ys Hpre Hx; simpl.
  - now rewrite Hx.
  - simpl in Hpre. destruct (f p); try discriminate. cbn [rbind] in *.
    destruct (comprehension f pre) as [zs| |]; try discriminate.
    now rewrite (IH zs eq_refl Hx).
Qed.

(** X1: a failed term-list request is absorbed.  On a transport error or
    an error status [get_available_terms] returns the empty list without
    raising; the request is counted and the session cookie is left
    alone. *)
Theorem terms_request_failure_gives_empty_list
        (endpoint : nat -> reply) (c : client) :
  endpoint (requests_sent c) = TransportError
  \/ (exists r, endpoint (requests_sent c) = Response r
                 /\ is_http_error r = true) ->
  get_available_terms endpoint c = (Ok [], sent c).
Proof.
  intros H. rewrite get_available_terms_eq.
  destruct H as [-> | (r & -> & ->)]; reflexivity.
Qed.

Lemma terms_request_failure_gives_empty_list_witness :
  get_available_terms
    (fun _ => Response {| status_code := 503; cookies := []; body := None |})
    init
  = (Ok [], sent init).
Proof.
  apply terms_request_failure_gives_empty_list.
  right. eexists. split; reflexivity.
Defined.

(** X2: the term list keeps the order and exactly two keys.  When the
    reply is a list of objects that all have [code] and [description],
    [get_available_terms] returns one entry per term, in order, each made of
    those two keys only. *)
Theorem terms_are_projected
        (endpoint : nat -> reply) (c : client) (r : response) (l : list json) :
  endpoint (requests_sent c) = Response r ->
  is_http_error r = false ->
  body r = Some (JList l) ->
  forallb has_term_keys l = true ->
  get_available_terms endpoint c = (Ok (map project_term l), sent c)
  /\ List.length (map project_term l) = List.length l
  /\ forall t, In t (map project_term l) ->
                exists code description,
                  t = JDict [("code", code); ("description", description)].
Proof.
  intros Hrep Hok Hbody Hl. split; [|split].
  - rewrite get_available_terms_eq, Hrep, Hok, Hbody.
    unfold term_entries. cbn [Py.iter rbind]. now rewrite comprehension_terms.
  - apply length_map.
  - intros t Ht. apply in_map_iff in Ht. destruct Ht as (e & <- & He).
    assert (Hk : has_term_keys e = true)
      by (rewrite forallb_forall in Hl; now apply Hl).
    destruct e; try discriminate. simpl. now eexists; eexists.
Qed.

Lemma terms_are_projected_witness :
  get_available_terms two_terms_endpoint init
  = (Ok [JDict [("code", JStr "202510"); ("description", JStr "Spring 2025")];
         JDict [("code", JStr "202520"); ("description", JStr "Summer 2025")]],
     sent init).
Proof.
  exact (proj1 (terms_are_projected two_terms_endpoint init _ two_terms
                  eq_refl eq_refl eq_refl eq_refl)).
Defined.

(** X3: a malformed term is not absorbed.  When the reply is a list whose
    first entry without a [code] or a [description] key is an object,
    [get_available_terms] raises [KeyError]: the handler catches request
    errors only. *)
Theorem terms_missing_key_raises
        (endpoint : nat -> reply) (c : client) (r : response)
        (pre post : list json) (d : list (string * json)) :
  endpoint (requests_sent c) = Response r ->
  is_http_error r = false ->
  body r = Some (JList (pre ++ JDict d :: post)) ->
  forallb has_term_keys pre = true ->
  Py.dict_get "code" d = None \/ Py.dict_get "description" d = None ->
  get_available_terms endpoint c = (Raise KeyError, sent c).
Proof.
  intros Hrep Hok Hbody Hpre Hd.
  rewrite get_available_terms_eq, Hrep, Hok, Hbody.
  unfold term_entries. cbn [Py.iter rbind].
  rewrite (comprehension_app_raise term_entry pre (JDict d) post
             _ KeyError (comprehension_terms pre Hpre)); auto.
  unfold term_entry, Py.getitem.
  destruct Hd as [-> | Hd]; [reflexivity|].
  rewrite Hd. now destruct (Py.dict_get "code" d).
Qed.

Lemma terms_missing_key_raises_witness :
  get_available_terms
    (fun _ => Response {| status_code := 200; cookies := [];
                          body := Some (JList (two_terms
                                               ++ [JDict [("code", JStr "202530")]])) |})
    init
  = (Raise KeyError, sent init).
Proof.
  eapply (terms_missing_key_raises _ init _ two_terms []
            [("code", JStr "202530")]); try reflexivity.
  now right.
Defined.

(** ** Page requests *)

Section PageFacts.

Variable server : service.

Lemma fetch_without_session (term : string) (offset size : Z) (c : client) :
  session_cookie c = None \/ session_cookie c = Some "" ->
  fetch_catalog_page server term offset size c = (Raise SessionNotInitialized, c).
Proof.
  intros H. unfold fetch_catalog_page, bind, get_cookie.
  destruct H as [-> | ->]; reflexivity.
Qed.

Lemma session_cases (c : client) :
  (session_cookie c = None \/ session_cookie c = Some "")
  \/ exists ck, session_cookie c = Some ck /\ ck <> "".
Proof.
  destruct (session_cookie c) as [ck|]; [|now left; left].
  destruct (String.eqb_spec ck "") as [->|Hne]; [now left; right|].
  right. now exists ck.
Qed.

(** A page fetch sends one request, or none when it stops at the guard. *)
Lemma fetch_state (term : string) (offset size : Z) (c : client) :
  snd (fetch_catalog_page server term offset size c) = c
  \/ snd (fetch_catalog_page server term offset size c) = sent c.
Proof.
  destruct (session_cases c) as [H|(ck & Hck & Hne)].
  - left. now rewrite fetch_without_session.
  - right. now rewrite (fetch_catalog_page_eq server term ck).
Qed.

Lemma catalog_page_state (term : string) (acc : list json) (offset : Z)
      (tc : json) (c : client) :
  snd (catalog_page server term acc offset tc c)
  = snd (fetch_catalog_page server term offset page_size c).
Proof.
  unfold catalog_page, bind.
  destruct (fetch_catalog_page server term offset page_size c)
    as [[data| |] c1]; auto.
  rewrite lift_eq.
  destruct (Py.get data "data" (JList [])) as [courses| |]; auto.
  rewrite capture_total.
  destruct (match tc with JNull => _ | _ => _ end) as [tc1| |]; auto.
  rewrite lift_eq. destruct (extend acc courses) as [acc1| |]; auto.
  rewrite lift_eq. now destruct (Py.int_ge _ tc1).
Qed.

End PageFacts.

(** X4: no page is requested without a session.  With the session cookie
    unset or empty, [fetch_catalog_page] raises before sending anything,
    and so does the catalog loop, whatever fuel it has. *)
Theorem page_fetch_needs_session (server : service) (term : string) (c : client) :
  session_cookie c = None \/ session_cookie c = Some "" ->
  (forall offset size,
      fetch_catalog_page server term offset size c
      = (Raise SessionNotInitialized, c))
  /\ (forall fuel acc offset tc,
         catalog_loop server (S fuel) term acc offset tc c
         = (Raise SessionNotInitialized, c)).
Proof.
  intros H. split.
  - intros. now apply fetch_without_session.
  - intros fuel acc offset tc. rewrite catalog_loop_S.
    unfold catalog_page. now rewrite (bind_Raise _ _ _ _ _
                                        (fetch_without_session server term offset
                                                               page_size c H)).
Qed.

Lemma page_fetch_needs_session_witness :
  catalog_loop campus_service 3 "202510" [] 0%Z JNull init
  = (Raise SessionNotInitialized, init).
Proof.
  exact (proj2 (page_fetch_needs_session campus_service "202510" init
                  (or_introl eq_refl)) 2%nat [] 0%Z JNull).
Defined.

(** ** The session cookie *)

Lemma keeps_ret {A : Type} (a : A) : keeps_cookie (ret a).
Proof. intros c. reflexivity. Qed.

Lemma keeps_lift {A : Type} (r : result A) : keeps_cookie (lift r).
Proof. intros c. reflexivity. Qed.

Lemma keeps_bind {A B : Type} (m : M A) (k : A -> M B) :
  keeps_cookie m -> (forall a, keeps_cookie (k a)) -> keeps_cookie (bind m k).
Proof.
  intros Hm Hk c. unfold bind. specialize (Hm c).
  destruct (m c) as [[a| |] c1]; simpl in *; auto.
  now rewrite Hk.
Qed.

Section CookieFacts.

Variable server : service.

Lemma keeps_fetch_catalog_page (term : string) (offset size : Z) :
  keeps_cookie (fetch_catalog_page server term offset size).
Proof.
  intros c. destruct (fetch_state server term offset size c) as [-> | ->];
    reflexivity.
Qed.

Lemma keeps_get_class_details (term : string) (crn : json) :
  keeps_cookie (get_class_details server term crn).
Proof. intros c. now rewrite get_class_details_eq. Qed.

Lemma keeps_get_faculty_meeting_times (term : string) (crn : json) :
  keeps_cookie (get_faculty_meeting_times server term crn).
Proof. intros c. now rewrite get_faculty_meeting_times_eq. Qed.

Lemma keeps_catalog_page (term : string) (acc : list json) (offset : Z)
      (tc : json) :
  keeps_cookie (catalog_page server term acc offset tc).
Proof. intros c. rewrite catalog_page_state. apply keeps_fetch_catalog_page. Qed.

Lemma keeps_catalog_loop (fuel : nat) (term : string) :
  forall acc offset tc, keeps_cookie (catalog_loop server fuel term acc offset tc).
Proof.
  induction fuel as [|fuel IH]; intros acc offset tc c; [reflexivity|].
  rewrite catalog_loop_S. assert (H := keeps_catalog_page term acc offset tc c).
  destruct (catalog_page server term acc offset tc c)
    as [[[[stop acc'] tc']| |] c1]; simpl in *; auto.
  destruct stop; simpl; auto. now rewrite IH.
Qed.

Lemma keeps_enrich_course (term : string) (course : json) :
  keeps_cookie (enrich_course server term course).
Proof.
  unfold enrich_course. apply keeps_bind; [apply keeps_lift|]. intros crn.
  destruct (Py.truthy crn); [|apply keeps_ret].
  apply keeps_bind; [apply keeps_get_class_details|]. intros details.
  apply keeps_bind; [apply keeps_lift|]. intros course'.
  apply keeps_bind; [apply keeps_get_faculty_meeting_times|]. intros mt.
  apply keeps_lift.
Qed.

Lemma keeps_enrich_all (term : string) (courses : list json) :
  keeps_cookie (enrich_all server term courses).
Proof.
  induction courses as [|course rest IH]; simpl; [apply keeps_ret|].
  apply keeps_bind; [apply keeps_enrich_course|]. intros course'.
  apply keeps_bind; [exact IH|]. intros rest'. apply keeps_ret.
Qed.

End CookieFacts.

(** X5: the session cookie is written once.  Page fetches, the two
    lookups, the catalog loop and the enrichment loop leave the stored
    cookie as it is, whether they return or raise; after a successful
    [get_course_catalog] the stored cookie is the non-empty [JSESSIONID] of
    the reply to the session request. *)
Theorem session_cookie_written_once (server : service) (term : string) :
  (forall offset size, keeps_cookie (fetch_catalog_page server term offset size))
  /\ (forall crn, keeps_cookie (get_class_details server term crn))
  /\ (forall crn, keeps_cookie (get_faculty_meeting_times server term crn))
  /\ (forall fuel acc offset tc,
         keeps_cookie (catalog_loop server fuel term acc offset tc))
  /\ (forall courses, keeps_cookie (enrich_all server term courses))
  /\ (forall fuel detailed c courses c',
         get_course_catalog server fuel term detailed c = (Ok courses, c') ->
         exists r v,
           server (requests_sent c) (PostTermSearch term) = Response r
           /\ session_jar (cookies r) = Usable v
           /\ In ("JSESSIONID", Some v) (cookies r)
           /\ v <> ""
           /\ session_cookie c' = Some v).
Proof.
  split; [intros; apply keeps_fetch_catalog_page|].
  split; [intros; apply keeps_get_class_details|].
  split; [intros; apply keeps_get_faculty_meeting_times|].
  split; [intros; apply keeps_catalog_loop|].
  split; [intros; apply keeps_enrich_all|].
  intros fuel detailed c courses c' H.
  unfold get_course_catalog, bind in H.
  rewrite initialize_search_session_eq in H.
  destruct (server _ _) as [|r]; try discriminate.
  destruct (is_http_error r); try discriminate.
  destruct (session_jar (cookies r)) as [| |v|] eqn:Hjar; try discriminate.
  assert (Hne := usable_not_empty _ _ Hjar). apply String.eqb_neq in Hne.
  exists r, v. split; [reflexivity|]. split; [exact Hjar|].
  split; [now apply usable_In|]. split; [exact Hne|].
  set (c1 := {| session_cookie := Some v; requests_sent := S (requests_sent c) |})
    in H.
  assert (Hloop := keeps_catalog_loop server fuel term [] 0%Z JNull c1).
  destruct (catalog_loop server fuel term [] 0%Z JNull c1) as [[all| |] c2];
    try discriminate.
  simpl in Hloop.
  destruct (detailed && Py.truthy (JList all)).
  - assert (He := keeps_enrich_all server term all c2). rewrite H in He.
    simpl in He. congruence.
  - injection H as _ <-. exact Hloop.
Qed.

Lemma session_cookie_written_once_witness :
  exists courses c',
    get_course_catalog campus_service 3 "202510" true init = (Ok courses, c')
    /\ session_cookie c' = Some "A1B2C3".
Proof.
  destruct (session_cookie_written_once campus_service "202510")
    as (_ & _ & _ & _ & _ & H).
  destruct (get_course_catalog campus_service 3 "202510" true init)
    as [[courses| |] c'] eqn:E; try (vm_compute in E; discriminate E).
  destruct (H 3%nat true init courses c' E) as (r & v & Hr & Hv & _ & _ & Hc).
  exists courses, c'. split; [reflexivity|].
  injection Hr as <-. vm_compute in Hv. injection Hv as <-. exact Hc.
Defined.

(** ** How many pages *)

Section PageCount.

Variable server : service.
Variable term : string.


Lemma catalog_page_requests (acc : list json) (offset : Z) (tc : json)
      (c : client) :
  (requests_sent (snd (catalog_page server term acc offset tc c))
   <= S (requests_sent c))%nat.
Proof.
  rewrite catalog_page_state.
  destruct (fetch_state server term offset page_size c) as [-> | ->];
    simpl; lia.
Qed.

(** A pass that finds the total within one record of being reached
    stops. *)
Lemma catalog_page_last (acc : list json) (offset : Z) (tc : json)
      (c : client) (n : Z) (stop : bool) (acc' : list json) (tc' : json)
      (c' : client) :
  count_of tc = Some n ->
  (n - Z.of_nat (List.length acc) <= 1)%Z ->
  catalog_page server term acc offset tc c = (Ok (stop, acc', tc'), c') ->
  stop = true.
Proof.
  intros Hn Hm Ep.
  destruct (catalog_page_inv _ _ _ _ _ _ _ _ _ _ Ep)
    as (data & courses & items & n' & _ & _ & _ & Hacc & _ & Hsame & Hn' & Hstop).
  assert (tc' = tc) as -> by (apply Hsame; intros ->; discriminate).
  rewrite (int_ge_integer _ _ _ Hn) in Hn'. injection Hn' as <-.
  rewrite Hstop. destruct items as [|x items]; [apply orb_true_r|].
  apply orb_true_iff. left. apply Z.leb_le. subst acc'.
  rewrite length_app. simpl. lia.
Qed.

(** A pass that does not stop keeps the total and adds a record. *)
Lemma catalog_page_progress (acc : list json) (offset : Z) (tc : json)
      (c : client) (n : Z) (acc' : list json) (tc' : json) (c' : client) :
  count_of tc = Some n ->
  catalog_page server term acc offset tc c = (Ok (false, acc', tc'), c') ->
  tc' = tc /\ (List.length acc < List.length acc')%nat.
Proof.
  intros Hn Ep.
  destruct (catalog_page_inv _ _ _ _ _ _ _ _ _ _ Ep)
    as (data & courses & items & n' & _ & _ & _ & Hacc & _ & Hsame & Hn' & Hstop).
  split; [apply Hsame; intros ->; discriminate|].
  symmetry in Hstop. apply orb_false_iff in Hstop. destruct Hstop as [_ Hitems].
  destruct items as [|x items]; [discriminate|].
  subst acc'. rewrite length_app. simpl. lia.
Qed.

(** Once [total_count] is a number [n], at most [max(1, n - len)] more
    passes are made, each with at most one request. *)
Lemma catalog_loop_within (m : nat) :
  forall (acc : list json) (offset : Z) (tc : json) (c : client) (n : Z)
         (fuel : nat),
    count_of tc = Some n ->
    (n - Z.of_nat (List.length acc) <= Z.of_nat (S m))%Z ->
    (S m <= fuel)%nat ->
    returns (fst (catalog_loop server fuel term acc offset tc c))
    /\ (requests_sent (snd (catalog_loop server fuel term acc offset tc c))
        <= requests_sent c + S m)%nat.
Proof.
  induction m as [|m IH]; intros acc offset tc c n fuel Hn Hm Hfuel;
    (destruct fuel as [|fuel]; [lia|]); rewrite catalog_loop_S;
    assert (Hreq := catalog_page_requests acc offset tc c);
    assert (Hset := settled_catalog_page server term acc offset tc c);
    destruct (catalog_page server term acc offset tc c)
      as [[[[stop acc'] tc']| |] c1] eqn:Ep; simpl in Hreq, Hset.
  - rewrite (catalog_page_last _ _ _ _ _ _ _ _ _ Hn Hm Ep).
    split; [apply returns_Ok|]. simpl. lia.
  - split; [apply returns_Raise|]. simpl. lia.
  - now elim Hset.
  - destruct stop.
    + split; [apply returns_Ok|]. simpl. lia.
    + destruct (catalog_page_progress _ _ _ _ _ _ _ _ Hn Ep) as [-> Hlen].
      destruct (IH acc' (offset + page_size)%Z tc c1 n fuel Hn) as [Hr Hq];
        try lia.
      split; [exact Hr|]. lia.
  - split; [apply returns_Raise|]. simpl. lia.
  - now elim Hset.
Qed.

End PageCount.



(** X7: the number of page requests is bounded by the reported total.
    When the first page reports the integer [totalCount] [n], the loop
    returns with any fuel of at least [max(1, n)] and has then sent at most
    [max(1, n)] page requests. *)
Theorem page_requests_bounded
        (server : service) (term ck : string) (c : client) (n : Z) :
  session_cookie c = Some ck ->
  ck <> "" ->
  page_total (server (requests_sent c) (GetSearchResults term ck 0 page_size))
  = Some n ->
  let bound := Z.to_nat (Z.max 1 n) in
  forall fuel, (bound <= fuel)%nat ->
    returns (fst (catalog_loop server fuel term [] 0%Z JNull c))
    /\ (requests_sent (snd (catalog_loop server fuel term [] 0%Z JNull c))
        <= requests_sent c + bound)%nat.
Proof.
  intros Hck Hne Htotal bound fuel Hfuel.
  destruct fuel as [|fuel]; [subst bound; lia|].
  rewrite catalog_loop_S.
  assert (Hst := catalog_page_state server term [] 0%Z JNull c).
  assert (Hset := settled_catalog_page server term [] 0%Z JNull c).
  rewrite (fetch_catalog_page_eq server term ck) in Hst by auto.
  cbn [snd] in Hst.
  destruct (catalog_page server term [] 0%Z JNull c)
    as [[[[stop acc'] tc']| |] c1] eqn:Ep; simpl in Hst, Hset; subst c1.
  - destruct (catalog_page_inv _ _ _ _ _ _ _ _ _ _ Ep)
      as (data & courses & items & n' & Hf & _ & _ & Hacc & Hcap & _ & Hn' & Hstop).
    rewrite (fetch_catalog_page_eq server term ck) in Hf by auto.
    injection Hf as Hv.
    assert (Htc : tc' = JInt n).
    { specialize (Hcap eq_refl). unfold page_total in Htotal.
      rewrite Hv in Htotal. destruct data as [| | | | |d|]; try discriminate.
      rewrite get_dict in Hcap. injection Hcap as <-.
      destruct (Py.dict_get "totalCount" d) as [[]|]; try discriminate.
      now injection Htotal as ->. }
    subst tc'. cbn [Py.int_ge] in Hn'. injection Hn' as <-.
    cbn [app] in Hacc. subst acc'.
    destruct stop.
    + split; [apply returns_Ok|]. simpl. subst bound. lia.
    + symmetry in Hstop. apply orb_false_iff in Hstop.
      destruct Hstop as [Hlt Hitems]. apply Z.leb_gt in Hlt.
      destruct items as [|x items]; [discriminate|].
      cbn [List.length] in Hlt.
      destruct (catalog_loop_within server term (Z.to_nat (n - 2))
                  (x :: items) (0 + page_size)%Z (JInt n) (sent c) n fuel
                  eq_refl) as [Hr Hq].
      * cbn [List.length]. lia.
      * subst bound. lia.
      * split; [exact Hr|]. cbn [sent requests_sent] in Hq. subst bound. lia.
  - split; [apply returns_Raise|]. simpl. subst bound. lia.
  - now elim Hset.
Qed.

Lemma page_requests_bounded_witness :
  returns (fst (catalog_loop two_page_service 501 "202510" [] 0%Z JNull
                             ready_client))
  /\ (requests_sent (snd (catalog_loop two_page_service 501 "202510" [] 0%Z
                                       JNull ready_client))
      <= 501)%nat.
Proof.
  exact (page_requests_bounded two_page_service "202510" "A1B2C3" ready_client
           501 eq_refl ltac:(discriminate) eq_refl 501%nat (le_n _)).
Defined.

(** ** The quick run *)

Section QuickRun.

Variables server1 server2 : service.

Hypothesis same_sessions :
  forall n term, server1 n (PostTermSearch term) = server2 n (PostTermSearch term).

Hypothesis same_pages :
  forall n term ck offset size,
    server1 n (GetSearchResults term ck offset size)
    = server2 n (GetSearchResults term ck offset size).

Lemma fetch_catalog_page_same (term : string) (offset size : Z) (c : client) :
  fetch_catalog_page server1 term offset size c
  = fetch_catalog_page server2 term offset size c.
Proof.
  destruct (session_cases c) as [H|(ck & Hck & Hne)].
  - now rewrite !fetch_without_session.
  - rewrite !(fetch_catalog_page_eq _ term ck) by auto. now rewrite same_pages.
Qed.

Lemma catalog_page_same (term : string) (acc : list json) (offset : Z)
      (tc : json) (c : client) :
  catalog_page server1 term acc offset tc c
  = catalog_page server2 term acc offset tc c.
Proof. unfold catalog_page, bind. now rewrite fetch_catalog_page_same. Qed.

Lemma catalog_loop_same (fuel : nat) (term : string) :
  forall acc offset tc c,
    catalog_loop server1 fuel term acc offset tc c
    = catalog_loop server2 fuel term acc offset tc c.
Proof.
  induction fuel as [|fuel IH]; intros acc offset tc c; [reflexivity|].
  rewrite !catalog_loop_S, catalog_page_same.
  destruct (catalog_page server2 term acc offset tc c)
    as [[[[stop acc'] tc']| |] c1]; auto.
  destruct stop; auto.
Qed.

End QuickRun.

(** X8: the quick run never looks at the lookup endpoints.  Two services
    that answer the session request and the page requests alike give the
    same quick run, result and client state, however they differ on class
    details and faculty meeting times. *)
Theorem quick_run_ignores_lookups (server1 server2 : service) :
  (forall n term,
      server1 n (PostTermSearch term) = server2 n (PostTermSearch term)) ->
  (forall n term ck offset size,
      server1 n (GetSearchResults term ck offset size)
      = server2 n (GetSearchResults term ck offset size)) ->
  forall fuel term c,
    get_course_catalog server1 fuel term false c
    = get_course_catalog server2 fuel term false c.
Proof.
  intros Hs Hp fuel term c. unfold get_course_catalog, bind.
  rewrite !initialize_search_session_eq, Hs.
  destruct (initialize_search_session server2 term c) as [[v| |] c1] eqn:E;
    rewrite initialize_search_session_eq in E; rewrite E; auto.
  now rewrite (catalog_loop_same server1 server2 Hp).
Qed.

Lemma quick_run_ignores_lookups_witness :
  get_course_catalog campus_service 3 "202510" false init
  = get_course_catalog campus_service_without_lookups 3 "202510" false init.
Proof.
  apply quick_run_ignores_lookups; reflexivity.
Defined.

(** ** The cost and the limits of enrichment *)

Section EnrichCost.

Variable server : service.
Variable term : string.

Lemma enrich_course_Ok_dict (course course' : json) (c c' : client) :
  enrich_course server term course c = (Ok course', c') ->
  exists d, course = JDict d.
Proof.
  destruct course; try discriminate. intros _. now eexists.
Qed.

Lemma enrich_course_cost (d : list (string * json)) (c : client) :
  requests_sent (snd (enrich_course server term (JDict d) c))
  = (requests_sent c + if has_crn (JDict d) then 2 else 0)%nat.
Proof.
  rewrite enrich_course_dict. cbn [has_crn].
  destruct (Py.truthy _); simpl; lia.
Qed.

Lemma enrich_all_cost (courses : list json) :
  forall c ds c',
    enrich_all server term courses c = (Ok ds, c') ->
    requests_sent c'
    = (requests_sent c + 2 * List.length (filter has_crn courses))%nat.
Proof.
  induction courses as [|course rest IH]; intros c ds c' H.
  - injection H as _ <-. simpl. lia.
  - cbn [enrich_all] in H. unfold bind in H.
    destruct (enrich_course server term course c) as [[course'| |] c1] eqn:E1;
      try discriminate.
    destruct (enrich_course_Ok_dict _ _ _ _ E1) as [d ->].
    assert (Hc := enrich_course_cost d c). rewrite E1 in Hc. cbn [snd] in Hc.
    destruct (enrich_all server term rest c1) as [[rest'| |] c2] eqn:E2;
      try discriminate.
    injection H as _ <-. rewrite (IH _ _ _ E2), Hc.
    cbn [filter]. destruct (has_crn (JDict d)); simpl; lia.
Qed.

End EnrichCost.

(** X9: enrichment costs two requests per course with a course reference
    number.  Whenever the enrichment loop returns, it has sent exactly
    twice as many requests as there are courses whose
    [courseReferenceNumber] is truthy; a course without one is returned as
    it is at no cost. *)
Theorem enrichment_costs_two_requests_per_crn (server : service) (term : string) :
  (forall courses c ds c',
      enrich_all server term courses c = (Ok ds, c') ->
      requests_sent c'
      = (requests_sent c + 2 * List.length (filter has_crn courses))%nat)
  /\ (forall d c,
         has_crn (JDict d) = false ->
         enrich_course server term (JDict d) c = (Ok (JDict d), c)).
Proof.
  split.
  - apply enrich_all_cost.
  - intros d c H. rewrite enrich_course_dict. cbn [has_crn] in H. now rewrite H.
Qed.

Lemma enrichment_costs_two_requests_per_crn_witness :
  exists ds c',
    enrich_all campus_service "202510"
               (campus_catalog ++ [JDict [("subject", JStr "ARCH")]])
               ready_client
    = (Ok ds, c')
    /\ requests_sent c' = 4%nat.
Proof.
  destruct (enrich_all campus_service "202510"
              (campus_catalog ++ [JDict [("subject", JStr "ARCH")]])
              ready_client) as [[ds| |] c'] eqn:E;
    try (vm_compute in E; discriminate E).
  exists ds, c'. split; [reflexivity|].
  exact (proj1 (enrichment_costs_two_requests_per_crn campus_service "202510")
           _ _ _ _ E).
Defined.

(** X10: a faculty-meeting-times reply that is truthy but not an object
    aborts the enrichment.  When the courses before it have been enriched
    and the reply for a course decodes to such a value (a non-empty list,
    say), the loop raises [AttributeError]: nothing enriched so far is
    returned. *)
Theorem non_object_meeting_reply_aborts
        (server : service) (term : string) (pre post : list json)
        (d : list (string * json)) (c c1 : client) (pre' : list json) :
  let crn := Py.or_default (Py.dict_get "courseReferenceNumber" d) JNull in
  let reply_value :=
    lookup_value (server (S (requests_sent c1))
                         (GetFacultyMeetingTimes term crn)) in
  enrich_all server term pre c = (Ok pre', c1) ->
  Py.truthy crn = true ->
  Py.truthy reply_value = true ->
  is_dict reply_value = false ->
  enrich_all server term (pre ++ JDict d :: post) c
  = (Raise AttributeError, sent (sent c1)).
Proof.
  intros crn reply_value Hpre Hcrn Htrue Hnot.
  rewrite enrich_all_app, (bind_Ok _ _ _ _ _ Hpre).
  apply bind_Raise. rewrite enrich_course_dict. fold crn. rewrite Hcrn.
  fold reply_value. unfold attach_meeting_times. rewrite Htrue.
  destruct reply_value; try discriminate; reflexivity.
Qed.

Lemma non_object_meeting_reply_aborts_witness :
  enrich_all bare_list_service "202510" campus_catalog ready_client
  = (Raise AttributeError, sent (sent ready_client)).
Proof.
  exact (non_object_meeting_reply_aborts bare_list_service "202510" []
           (tl campus_catalog) crn_course ready_client ready_client []
           eq_refl eq_refl eq_refl eq_refl).
Defined.

(** ** What the flattener reads *)

Section FlattenFrame.

Variable repr : json -> string.

Lemma course_meetings_same (d d' : list (string * json)) :
  Py.dict_get "_faculty_meeting_times" d' = Py.dict_get "_faculty_meeting_times" d ->
  Py.dict_get "meetingsFaculty" d' = Py.dict_get "meetingsFaculty" d ->
  course_meetings repr (JDict d') = course_meetings repr (JDict d).
Proof.
  intros Ha He.
  unfold course_meetings, fmt_meetings, embedded_meetings, Py.getitem.
  rewrite !get_dict. now rewrite Ha, He.
Qed.

Lemma flatten_same (d d' : list (string * json)) :
  (forall k, In k READ_KEYS -> Py.dict_get k d' = Py.dict_get k d) ->
  flatten_course_data repr (JDict d') = flatten_course_data repr (JDict d).
Proof.
  intros H. unfold flatten_course_data.
  rewrite (faculty_names_same d d') by (apply H; simpl; tauto).
  rewrite (course_meetings_same d d') by (apply H; simpl; tauto).
  rewrite !get_dict.
  now rewrite !H by (simpl; tauto).
Qed.

End FlattenFrame.

(** X11: the flattener reads seventeen keys and nothing else.  Two
    summaries that agree on those keys flatten alike, errors included; in
    particular writing any other key, such as the [_detailed] attachment of
    the enrichment, changes nothing in the row. *)
Theorem flatten_reads_only_its_keys
        (repr : json -> string) (d : list (string * json)) :
  (forall d',
      (forall k, In k READ_KEYS -> Py.dict_get k d' = Py.dict_get k d) ->
      flatten_course_data repr (JDict d') = flatten_course_data repr (JDict d))
  /\ (forall k v,
         ~ In k READ_KEYS ->
         flatten_course_data repr (JDict (Py.dict_set k v d))
         = flatten_course_data repr (JDict d))
  /\ (forall details,
         flatten_course_data repr (JDict (Py.dict_set "_detailed" details d))
         = flatten_course_data repr (JDict d)).
Proof.
  assert (Hset : forall k v,
             ~ In k READ_KEYS ->
             flatten_course_data repr (JDict (Py.dict_set k v d))
             = flatten_course_data repr (JDict d)).
  { intros k v Hk. apply flatten_same. intros k' Hk'.
    apply dict_get_set_other. intros <-. now apply Hk. }
  split; [intros; now apply flatten_same|]. split; [exact Hset|].
  intros details. apply Hset. simpl. intros H.
  repeat (destruct H as [H|H]; [discriminate H|]). exact H.
Qed.

Lemma flatten_reads_only_its_keys_witness :
  flatten_course_data (fun _ => "")
    (JDict (Py.dict_set "termDesc" (JStr "Spring 2025") both_sources))
  = flatten_course_data (fun _ => "") (JDict both_sources).
Proof.
  apply (proj1 (proj2 (flatten_reads_only_its_keys (fun _ => "") both_sources))).
  simpl. intros H.
  repeat (destruct H as [H|H]; [discriminate H|]). exact H.
Defined.

(** ** The Faculty column *)

Lemma faculty_loop_names (l : list json) :
  forall names,
    forallb is_faculty_entry l = true ->
    for_each faculty_entry l names = Ok (names ++ map JStr (shown_names l)).
Proof.
  induction l as [|e l IH]; intros names H.
  - simpl. now rewrite app_nil_r.
  - simpl in H. apply andb_true_iff in H. destruct H as [He Hl].
    destruct e as [| | | | |d|]; try discriminate. simpl in He.
    cbn [for_each shown_names display_name]. unfold faculty_entry.
    rewrite get_dict, !rbind_Ok, (IH _ Hl).
    destruct (Py.dict_get "displayName" d) as [[]|]; try discriminate;
      cbn [Py.or_default Py.truthy]; auto.
    destruct (s =? ""); cbn [negb map]; auto.
    now rewrite <- app_assoc.
Qed.

Lemma joined_strs (names : list string) :
  joined (map JStr names) = Ok (JStr (Py.join_strs ", " names)).
Proof.
  destruct names as [|n names]; [reflexivity|].
  cbn [map joined]. unfold Py.join.
  assert (H : forall l, Py.strs_of (map JStr l) = Ok l).
  { induction l as [|x l IHl]; simpl; auto. now rewrite IHl. }
  change (JStr n :: map JStr names) with (map JStr (n :: names)).
  now rewrite H.
Qed.

(** X12: the Faculty column lists the non-empty display names in order.
    For a CourseSummary with a faculty list, the Faculty column is the
    display names of the entries, those missing, [null] or empty left out,
    joined by a comma and a space. *)
Theorem faculty_column_lists_names
        (repr : json -> string) (d : list (string * json)) (l : list json) :
  is_course_summary (JDict d) = true ->
  Py.dict_get "faculty" d = Some (JList l) ->
  exists r,
    flatten_course_data repr (JDict d) = Ok r
    /\ Py.dict_get "Faculty" r = Some (JStr (Py.join_strs ", " (shown_names l))).
Proof.
  intros Hd Hl.
  destruct (flatten_typed repr d Hd)
    as (names & m & f & a & b & c & Hn & Hf & _ & _ & _ & _ & E).
  exists (row d (JStr f) (JStr a) (JStr b) (JStr c)). split; [exact E|].
  assert (Hnames : faculty_names_of (JDict d) = Ok (map JStr (shown_names l))).
  { unfold faculty_names_of, Py.getitem. rewrite get_dict, rbind_Ok, Hl.
    cbn [Py.or_default Py.truthy Py.iter].
    destruct l as [|e l]; [reflexivity|]. rewrite !rbind_Ok.
    apply (faculty_loop_names (e :: l) []).
    unfold is_course_summary in Hd. rewrite Hl in Hd.
    now apply andb_true_iff in Hd as [Hd _]; apply andb_true_iff in Hd as [Hd _]. }
  rewrite Hnames in Hn. injection Hn as <-.
  rewrite joined_strs in Hf. injection Hf as <-. reflexivity.
Qed.

Lemma faculty_column_lists_names_witness :
  exists r,
    flatten_course_data (fun _ => "") (JDict team_taught) = Ok r
    /\ Py.dict_get "Faculty" r = Some (JStr "A. Smith, B. Jones").
Proof.
  exact (faculty_column_lists_names (fun _ => "") team_taught team_faculty
           eq_refl eq_refl).
Defined.

(** ** The day string *)

Lemma collect_days_letters (mt : list (string * json)) (week days : list string) :
  collect_days (JDict mt) week days
  = Ok (days
        ++ day_letters week
             (map (fun day => Py.truthy (Py.or_default (Py.dict_get day mt) JNull))
                  week)).
Proof.
  revert days. induction week as [|day week IH]; intros days.
  - simpl. now rewrite app_nil_r.
  - cbn [collect_days map day_letters]. rewrite get_dict, rbind_Ok, IH.
    destruct (Py.truthy _); auto. now rewrite <- app_assoc.
Qed.

(** The contribution of an entry to the day column is a function of its
    seven flags. *)
Lemma add_days_flags (mt : list (string * json)) (acc : list json) :
  add_days (JDict mt) acc
  = Ok (match day_letters WEEK (day_flags mt) with
        | [] => acc
        | _ :: _ =>
            acc ++ [JStr (Py.join_strs "" (day_letters WEEK (day_flags mt)))]
        end).
Proof.
  unfold add_days. rewrite collect_days_letters, rbind_Ok. reflexivity.
Qed.

(** X13: the day string does not tell Saturday from Sunday, nor Tuesday
    from Thursday when Wednesday is off.  Two meeting times whose flags
    differ only by that exchange add the same text to the Meeting Days
    column. *)
Theorem day_string_is_ambiguous
        (mt1 mt2 : list (string * json)) (acc : list json)
        (mon tue wed thu fri : bool) :
  (day_flags mt1 = [mon; tue; wed; thu; fri; true; false] ->
   day_flags mt2 = [mon; tue; wed; thu; fri; false; true] ->
   add_days (JDict mt1) acc = add_days (JDict mt2) acc)
  /\ (forall sat sun,
         day_flags mt1 = [mon; true; false; false; fri; sat; sun] ->
         day_flags mt2 = [mon; false; false; true; fri; sat; sun] ->
         add_days (JDict mt1) acc = add_days (JDict mt2) acc).
Proof.
  split.
  - intros H1 H2. rewrite !add_days_flags, H1, H2.
    destruct mon, tue, wed, thu, fri; reflexivity.
  - intros sat sun H1 H2. rewrite !add_days_flags, H1, H2.
    destruct mon, fri, sat, sun; reflexivity.
Qed.

Lemma day_string_is_ambiguous_witness :
  add_days (JDict [("saturday", JBool true)]) []
  = add_days (JDict [("sunday", JBool true)]) [].
Proof.
  exact (proj1 (day_string_is_ambiguous
                  [("saturday", JBool true)] [("sunday", JBool true)] []
                  false false false false false) eq_refl eq_refl).
Defined.

(** ** A building that is null *)

Lemma lstrip_keeps_last (l : list ascii) (c : ascii) :
  Py.is_space c = false -> Py.lstrip_chars (l ++ [c]) <> [].
Proof.
  intros Hc. induction l as [|x l IH]; simpl.
  - rewrite Hc. discriminate.
  - destruct (Py.is_space x); [exact IH|discriminate].
Qed.

Lemma strip_keeps_head (c : ascii) (s : string) :
  Py.is_space c = false -> Py.strip (String c s) <> "".
Proof.
  intros Hc. unfold Py.strip. cbn [list_ascii_of_string Py.lstrip_chars].
  rewrite Hc. cbn [rev].
  assert (H := lstrip_keeps_last (rev (list_ascii_of_string s)) c Hc).
  destruct (Py.lstrip_chars (rev (list_ascii_of_string s) ++ [c])) as [|x l];
    [now elim H|].
  cbn [rev]. destruct (rev l); discriminate.
Qed.

(** X14: a [null] building is printed as the word None.  In the loop over
    the embedded meetings, an entry whose [building] is [null] and whose
    [room] is a non-empty string adds the location "None <room>"
    (stripped); the loop over the attached meeting times does the same when
    there is no building description either. *)
Theorem null_building_is_printed
        (repr : json -> string) (e : json) (mt : list (string * json))
        (acc m : meetings) (room : string) :
  Py.get e "meetingTime" (JDict []) = Ok (JDict mt) ->
  Py.dict_get "building" mt = Some JNull ->
  Py.dict_get "room" mt = Some (JStr room) ->
  room <> "" ->
  (embedded_entry repr e acc = Ok m ->
   meeting_locations m
   = meeting_locations acc ++ [JStr (Py.strip ("None " ++ room))])
  /\ (Py.truthy (Py.or_default (Py.dict_get "buildingDescription" mt) (JStr ""))
      = false ->
      fmt_entry repr e acc = Ok m ->
      meeting_locations m
      = meeting_locations acc ++ [JStr (Py.strip ("None " ++ room))]).
Proof.
  intros Hmt Hb Hr Hne. apply String.eqb_neq in Hne.
  assert (Hstrip : forall s, s <> "" -> Py.truthy (JStr s) = true).
  { intros s Hs. simpl. apply String.eqb_neq in Hs. now rewrite Hs. }
  split.
  - intros H. unfold embedded_entry in H. rewrite Hmt, rbind_Ok in H.
    destruct (add_days (JDict mt) (meeting_days acc)) as [ds| |];
      try discriminate H. rewrite rbind_Ok in H.
    destruct (add_times repr (JDict mt) (meeting_times acc)) as [ts| |];
      try discriminate H.
    rewrite !rbind_Ok, !get_dict, !rbind_Ok, Hb, Hr in H.
    cbn [Py.or_default Py.truthy orb] in H. rewrite Hne in H.
    injection H as <-. reflexivity.
  - intros Hbd H. unfold fmt_entry in H. rewrite Hmt, rbind_Ok in H.
    destruct (add_days (JDict mt) (meeting_days acc)) as [ds| |];
      try discriminate H. rewrite rbind_Ok in H.
    destruct (add_times repr (JDict mt) (meeting_times acc)) as [ts| |];
      try discriminate H.
    rewrite !rbind_Ok, !get_dict, !rbind_Ok, Hb, Hr, Hbd in H.
    cbn [Py.or_default Py.truthy] in H. rewrite Hne in H. cbn [negb] in H.
    injection H as <-. cbn [meeting_locations].
    destruct (Py.strip _ =? "") eqn:Es; [|reflexivity].
    apply String.eqb_eq in Es. unfold fmt2 in Es. cbn [Py.str] in Es.
    now apply strip_keeps_head in Es.
Qed.

Lemma null_building_is_printed_witness :
  embedded_entry (fun _ => "") room_only_entry no_meetings = Ok room_only_meetings
  /\ meeting_locations room_only_meetings = [JStr "None 212"].
Proof.
  split; [reflexivity|].
  exact (proj1 (null_building_is_printed (fun _ => "") room_only_entry
                  room_only_time no_meetings room_only_meetings "212"
                  eq_refl eq_refl eq_refl ltac:(discriminate))
               eq_refl).
Defined.

(** ** Meeting lists in sequence *)

Section MeetingsCompose.

Variable repr : json -> string.

Lemma meetings_app_nil_l (m : meetings) : meetings_app no_meetings m = m.
Proof. now destruct m. Qed.

Lemma meetings_app_nil_r (m : meetings) : meetings_app m no_meetings = m.
Proof. destruct m. unfold meetings_app. simpl. now rewrite !app_nil_r. Qed.

Lemma meetings_app_assoc (m1 m2 m3 : meetings) :
  meetings_app m1 (meetings_app m2 m3) = meetings_app (meetings_app m1 m2) m3.
Proof. unfold meetings_app. simpl. now rewrite !app_assoc. Qed.

Lemma add_days_shift (mt : json) (acc : list json) :
  add_days mt acc = rbind (add_days mt []) (fun ds => Ok (acc ++ ds)).
Proof.
  unfold add_days. destruct (collect_days mt WEEK []) as [days| |]; auto.
  cbn [rbind]. destruct days; [now rewrite app_nil_r|reflexivity].
Qed.

Lemma add_times_shift (mt : json) (acc : list json) :
  add_times repr mt acc
  = rbind (add_times repr mt []) (fun ts => Ok (acc ++ ts)).
Proof.
  unfold add_times.
  destruct (Py.get mt "beginTime" (JStr "")) as [b| |]; auto. cbn [rbind].
  destruct (Py.get mt "endTime" (JStr "")) as [e| |]; auto. cbn [rbind].
  destruct (Py.truthy b && Py.truthy e); [reflexivity|now rewrite app_nil_r].
Qed.

Lemma fmt_entry_shift (e : json) (acc : meetings) :
  fmt_entry repr e acc
  = rbind (fmt_entry repr e no_meetings) (fun m => Ok (meetings_app acc m)).
Proof.
  unfold fmt_entry.
  destruct (Py.get e "meetingTime" (JDict [])) as [mt| |]; auto. cbn [rbind].
  rewrite (add_days_shift mt (meeting_days acc)).
  rewrite (add_times_shift mt (meeting_times acc)).
  cbn [no_meetings meeting_days meeting_times meeting_locations].
  destruct (add_days mt []) as [ds| |]; auto. cbn [rbind].
  destruct (add_times repr mt []) as [ts| |]; auto. cbn [rbind].
  destruct (Py.get mt "building" (JStr "")) as [b| |]; auto. cbn [rbind].
  destruct (Py.get mt "buildingDescription" (JStr "")) as [bd| |]; auto.
  cbn [rbind].
  destruct (Py.get mt "room" (JStr "")) as [r| |]; auto. cbn [rbind].
  unfold meetings_app. cbn [meeting_days meeting_times meeting_locations].
  destruct (Py.truthy (if Py.truthy r then _ else _));
    [reflexivity|now rewrite app_nil_r].
Qed.

Lemma embedded_entry_shift (e : json) (acc : meetings) :
  embedded_entry repr e acc
  = rbind (embedded_entry repr e no_meetings)
          (fun m => Ok (meetings_app acc m)).
Proof.
  unfold embedded_entry.
  destruct (Py.get e "meetingTime" (JDict [])) as [mt| |]; auto. cbn [rbind].
  rewrite (add_days_shift mt (meeting_days acc)).
  rewrite (add_times_shift mt (meeting_times acc)).
  cbn [no_meetings meeting_days meeting_times meeting_locations].
  destruct (add_days mt []) as [ds| |]; auto. cbn [rbind].
  destruct (add_times repr mt []) as [ts| |]; auto. cbn [rbind].
  destruct (Py.get mt "building" (JStr "")) as [b| |]; auto. cbn [rbind].
  destruct (Py.get mt "room" (JStr "")) as [r| |]; auto. cbn [rbind].
  unfold meetings_app. cbn [meeting_days meeting_times meeting_locations].
  destruct (Py.truthy b || Py.truthy r);
    [reflexivity|now rewrite app_nil_r].
Qed.

(** A loop whose body only appends can be run on empty columns and its
    result appended afterwards. *)
Lemma for_each_shift (body : json -> meetings -> result meetings) :
  (forall e acc,
      body e acc
      = rbind (body e no_meetings) (fun m => Ok (meetings_app acc m))) ->
  forall items acc,
    for_each body items acc
    = rbind (for_each body items no_meetings)
            (fun m => Ok (meetings_app acc m)).
Proof.
  intros Hbody items. induction items as [|e items IH]; intros acc.
  - simpl. now rewrite meetings_app_nil_r.
  - cbn [for_each]. rewrite (Hbody e acc).
    destruct (body e no_meetings) as [m0| |]; auto. cbn [rbind].
    rewrite (IH (meetings_app acc m0)), (IH m0).
    destruct (for_each body items no_meetings) as [m1| |]; auto. cbn [rbind].
    now rewrite meetings_app_assoc.
Qed.

Lemma for_each_app {A S : Type} (body : A -> S -> result S)
      (l1 l2 : list A) (acc : S) :
  for_each body (l1 ++ l2) acc
  = rbind (for_each body l1 acc) (fun acc1 => for_each body l2 acc1).
Proof.
  revert acc. induction l1 as [|x l1 IH]; intros acc; [reflexivity|].
  cbn [app for_each]. destruct (body x acc) as [acc0| |]; auto.
  cbn [rbind]. apply IH.
Qed.

Lemma for_each_compose (body : json -> meetings -> result meetings) :
  (forall e acc,
      body e acc
      = rbind (body e no_meetings) (fun m => Ok (meetings_app acc m))) ->
  forall l1 l2,
    for_each body (l1 ++ l2) no_meetings
    = rbind (for_each body l1 no_meetings)
            (fun m1 => rbind (for_each body l2 no_meetings)
                             (fun m2 => Ok (meetings_app m1 m2))).
Proof.
  intros Hbody l1 l2. rewrite for_each_app.
  destruct (for_each body l1 no_meetings) as [m1| |]; auto. cbn [rbind].
  now apply for_each_shift.
Qed.

End MeetingsCompose.

(** X15: meeting columns are built entry by entry, in order.  In either
    loop, the columns of a list [l1 ++ l2] are the columns of [l1] followed
    by the columns of [l2]; the loop raises exactly when one of the two
    parts does, the first part's exception winning. *)
Theorem meeting_columns_compose (repr : json -> string) (l1 l2 : list json) :
  for_each (fmt_entry repr) (l1 ++ l2) no_meetings
  = rbind (for_each (fmt_entry repr) l1 no_meetings)
          (fun m1 => rbind (for_each (fmt_entry repr) l2 no_meetings)
                           (fun m2 => Ok (meetings_app m1 m2)))
  /\ for_each (embedded_entry repr) (l1 ++ l2) no_meetings
     = rbind (for_each (embedded_entry repr) l1 no_meetings)
             (fun m1 => rbind (for_each (embedded_entry repr) l2 no_meetings)
                              (fun m2 => Ok (meetings_app m1 m2))).
Proof.
  split; apply for_each_compose; intros.
  - apply fmt_entry_shift.
  - apply embedded_entry_shift.
Qed.

(** ** The CSV table *)

Section CsvFacts.

Variable repr : json -> string.

(** Whatever the course, a row that is returned has the eighteen
    columns. *)
Lemma flatten_keys (course : json) (r : list (string * json)) :
  flatten_course_data repr course = Ok r -> map fst r = FLAT_FIELDS.
Proof.
  destruct course as [| | | | |d|]; try discriminate.
  unfold flatten_course_data.
  destruct (faculty_names_of (JDict d)) as [names| |]; try discriminate.
  rewrite rbind_Ok.
  destruct (course_meetings repr (JDict d)) as [m| |]; try discriminate.
  rewrite !rbind_Ok, !get_dict, !rbind_Ok.
  destruct (joined names) as [f| |]; try discriminate. rewrite rbind_Ok.
  destruct (joined (meeting_days m)) as [a| |]; try discriminate.
  rewrite rbind_Ok.
  destruct (joined (meeting_times m)) as [b| |]; try discriminate.
  rewrite rbind_Ok.
  destruct (joined (meeting_locations m)) as [c| |]; try discriminate.
  rewrite rbind_Ok, ?get_dict, ?rbind_Ok.
  now intros [= <-].
Qed.

Lemma row_values_own_keys (r : list (string * json)) :
  NoDup (map fst r) -> row_values (map fst r) r = map snd r.
Proof.
  unfold row_values. induction r as [|[k v] r IH]; intros Hnd; [reflexivity|].
  inversion Hnd as [|? ? Hk Hr]; subst.
  cbn [map fst snd Py.dict_get]. rewrite String.eqb_refl. cbn [Py.or_default].
  f_equal. rewrite <- (IH Hr). apply map_ext_in. intros h Hh.
  destruct (String.eqb_spec k h) as [->|_]; [contradiction|reflexivity].
Qed.

Lemma flat_fields_distinct : NoDup FLAT_FIELDS.
Proof.
  unfold FLAT_FIELDS.
  repeat (constructor;
          [simpl; intros H;
           repeat (destruct H as [H|H]; [discriminate H|]); exact H|]).
  constructor.
Qed.

Lemma row_values_flat (course : json) (r : list (string * json)) :
  flatten_course_data repr course = Ok r ->
  row_values FLAT_FIELDS r = map snd r.
Proof.
  intros H. apply flatten_keys in H. rewrite <- H.
  apply row_values_own_keys. rewrite H. apply flat_fields_distinct.
Qed.

Lemma comprehension_Forall2 {A B : Type} (f : A -> result B) (l : list A)
      (ys : list B) :
  comprehension f l = Ok ys -> Forall2 (fun x y => f x = Ok y) l ys.
Proof.
  revert ys. induction l as [|x l IH]; intros ys H.
  - injection H as <-. constructor.
  - simpl in H. destruct (f x) as [y| |] eqn:E; try discriminate.
    cbn [rbind] in H.
    destruct (comprehension f l) as [zs| |]; try discriminate.
    injection H as <-. constructor; auto.
Qed.

Lemma flatten_all_typed (courses : list json) :
  forallb is_course_summary courses = true ->
  exists rows, flatten_all repr courses = Ok rows.
Proof.
  unfold flatten_all. induction courses as [|course rest IH]; intros H.
  - now exists [].
  - simpl in H. apply andb_true_iff in H. destruct H as [Hc Hr].
    destruct course as [| | | | |d|]; try discriminate.
    destruct (flatten_typed repr d Hc)
      as (? & ? & ? & ? & ? & ? & _ & _ & _ & _ & _ & _ & E).
    destruct (IH Hr) as [rows Erows].
    eexists. simpl. now rewrite E, rbind_Ok, Erows.
Qed.

End CsvFacts.

(** X16: the CSV table has the eighteen columns and one row per course,
    and is written after every course has been flattened.  Whenever
    [save_as_csv] returns, it has opened no file for an empty catalog and
    has otherwise written, without error, a table under the given file name
    whose header is the fixed column list and whose rows are, in catalog
    order, the values of the flattened courses.  When flattening some
    course raises, [save_as_csv] raises that exception and no file is
    opened, whatever the file system would do.  For a catalog of
    CourseSummaries only the file can make it fail: it raises exactly what
    opening or writing the file raises. *)
Theorem csv_table_shape
        (repr : json -> string) (write_csv : table -> result unit)
        (courses : list json) (term path : string) :
  (forall out,
      save_as_csv repr write_csv courses term path = Ok out ->
      exists rows,
        Forall2 (fun course r => flatten_course_data repr course = Ok r)
                courses rows
        /\ match courses with
           | [] => out = None
           | _ :: _ =>
               let written := {| table_path := path;
                                 table_header := FLAT_FIELDS;
                                 table_rows := map (map snd) rows |} in
               out = Some written /\ write_csv written = Ok tt
           end)
  /\ (forall e other_write,
         flatten_all repr courses = Raise e ->
         save_as_csv repr other_write courses term path = Raise e)
  /\ (courses = [] ->
      forall other_write,
        save_as_csv repr other_write courses term path = Ok None)
  /\ (forallb is_course_summary courses = true ->
      courses <> [] ->
      exists rows,
        Forall2 (fun course r => flatten_course_data repr course = Ok r)
                courses rows
        /\ let written := {| table_path := path;
                             table_header := FLAT_FIELDS;
                             table_rows := map (map snd) rows |} in
           save_as_csv repr write_csv courses term path
           = rbind (write_csv written) (fun _ => Ok (Some written))).
Proof.
  assert (Hshape : forall rows,
             flatten_all repr courses = Ok rows ->
             Forall2 (fun course r => flatten_course_data repr course = Ok r)
                     courses rows
             /\ forall write,
                  save_as_csv repr write courses term path
                  = match courses with
                    | [] => Ok None
                    | _ :: _ =>
                        let written :=
                          {| table_path := path;
                             table_header := FLAT_FIELDS;
                             table_rows := map (map snd) rows |} in
                        rbind (write written) (fun _ => Ok (Some written))
                    end).
  { intros rows E. assert (Hall := comprehension_Forall2 _ _ _ E).
    split; [exact Hall|]. intros write. unfold save_as_csv.
    rewrite E, rbind_Ok.
    destruct Hall as [|course r courses' rows' Hr Hrest]; [reflexivity|].
    rewrite (flatten_keys repr _ _ Hr).
    assert (Hall : Forall2 (fun course r => flatten_course_data repr course = Ok r)
                           (course :: courses') (r :: rows'))
      by now constructor.
    assert (Hrows : map (row_values FLAT_FIELDS) (r :: rows')
                    = map (map snd) (r :: rows')).
    { apply map_ext_in. intros r0 Hin. clear - Hall Hin.
      induction Hall as [|c0 r1 cs rs H1 Hall IH]; [contradiction|].
      destruct Hin as [<-|Hin]; [now apply (row_values_flat repr c0)|auto]. }
    now rewrite Hrows. }
  split; [|split; [|split]].
  - intros out H.
    destruct (flatten_all repr courses) as [rows| |] eqn:E;
      try (unfold save_as_csv in H; rewrite E in H; discriminate H).
    destruct (Hshape rows eq_refl) as [Hall Hsave]. rewrite Hsave in H.
    exists rows. split; [exact Hall|].
    destruct courses; [now injection H as <-|].
    cbv zeta in H |- *.
    destruct (write_csv _) as [[]| |]; try discriminate H.
    injection H as <-. now split.
  - intros e other_write E. unfold save_as_csv. now rewrite E.
  - intros -> other_write. reflexivity.
  - intros Hcs Hne. destruct (flatten_all_typed repr courses Hcs) as [rows E].
    destruct (Hshape rows E) as [Hall Hsave].
    exists rows. split; [exact Hall|]. rewrite Hsave.
    now destruct courses.
Qed.

Lemma csv_table_shape_witness :
  (exists t,
      save_as_csv (fun _ => "") (fun _ => Ok tt) campus_catalog "202510"
                  "courses_202510.csv"
      = Ok (Some t)
      /\ table_header t = FLAT_FIELDS
      /\ List.length (table_rows t) = 2%nat)
  /\ save_as_csv (fun _ => "") (fun _ => Raise OSError) campus_catalog "202510"
                 "courses_202510.csv"
     = Raise OSError.
Proof.
  split.
  - destruct (csv_table_shape (fun _ => "") (fun _ => Ok tt) campus_catalog
                "202510" "courses_202510.csv") as (_ & _ & _ & H).
    destruct (H eq_refl ltac:(discriminate)) as (rows & Hrows & E).
    eexists. split; [exact E|]. split; [reflexivity|].
    cbn [table_rows]. rewrite length_map.
    symmetry. exact (Forall2_length Hrows).
  - destruct (csv_table_shape (fun _ => "") (fun _ => Raise OSError)
                campus_catalog "202510" "courses_202510.csv")
      as (_ & _ & _ & H).
    destruct (H eq_refl ltac:(discriminate)) as (rows & _ & E). exact E.
Defined.

(** ** Column widths of the workbook *)

Section WidthFacts.

Variable repr : json -> string.

Let longer (m : Z) (v : json) : Z :=
  if Py.truthy v then Z.max m (cell_length repr v) else m.

Lemma longest_at_least (cells : list json) :
  forall m, (m <= fold_left longer cells m)%Z.
Proof.
  induction cells as [|v cells IH]; intros m; simpl; [lia|].
  specialize (IH (longer m v)). unfold longer in *.
  destruct (Py.truthy v); lia.
Qed.

Lemma longest_covers (cells : list json) (v : json) :
  In v cells -> Py.truthy v = true ->
  forall m, (cell_length repr v <= fold_left longer cells m)%Z.
Proof.
  induction cells as [|x cells IH]; intros Hin Hv m; [contradiction|].
  cbn [fold_left]. destruct Hin as [->|Hin].
  - assert (H := longest_at_least cells (longer m v)).
    assert (Hm : longer m v = Z.max m (cell_length repr v))
      by (unfold longer; now rewrite Hv).
    rewrite Hm in H |- *. lia.
  - now apply IH.
Qed.

End WidthFacts.

(** X17: a column of the workbook is never wider than 50 and always as
    wide as its header allows.  The width lies between
    [min(len(header) + 2, 50)] and 50, it makes room (up to the cap) for
    every truthy cell among the first 100 data rows, and rows past the
    hundredth have no influence on it. *)
Theorem column_width_bounds
        (repr : json -> string) (header : string) (cells : list json) :
  (Z.min (Z.of_nat (String.length header) + 2) 50
   <= column_width repr header cells <= 50)%Z
  /\ (forall v, In v (firstn 100 cells) -> Py.truthy v = true ->
                (Z.min (cell_length repr v + 2) 50
                 <= column_width repr header cells)%Z)
  /\ (forall more, (100 <= List.length cells)%nat ->
                   column_width repr header (cells ++ more)
                   = column_width repr header cells).
Proof.
  unfold column_width. split; [|split].
  - assert (H := longest_at_least repr (firstn 100 cells)
                   (Z.of_nat (String.length header))).
    cbv zeta in H. lia.
  - intros v Hin Hv.
    assert (H := longest_covers repr (firstn 100 cells) v Hin Hv
                   (Z.of_nat (String.length header))).
    cbv zeta in H. lia.
  - intros more Hlen. rewrite firstn_app.
    replace (100 - List.length cells)%nat with 0%nat by lia.
    now rewrite firstn_O, app_nil_r.
Qed.

(** ** The loop only appends *)

Lemma catalog_loop_extends (server : service) (fuel : nat) (term : string) :
  forall acc offset tc c res c',
    catalog_loop server fuel term acc offset tc c = (Ok res, c') ->
    exists rest, res = acc ++ rest.
Proof.
  induction fuel as [|fuel IH]; intros acc offset tc c res c' H;
    [discriminate|].
  rewrite catalog_loop_S in H.
  destruct (catalog_page server term acc offset tc c)
    as [[[[stop acc'] tc']| |] c1] eqn:Ep; try discriminate.
  destruct (catalog_page_inv _ _ _ _ _ _ _ _ _ _ Ep)
    as (data & courses & items & n & _ & _ & _ & -> & _).
  destruct stop.
  - injection H as <- _. now exists items.
  - destruct (IH _ _ _ _ _ _ H) as [rest ->].
    exists (items ++ rest). now rewrite app_assoc.
Qed.

(** X18: the catalog loop never drops or reorders what it has fetched.
    From any state, the list the loop returns begins with the courses
    accumulated so far, and a pass that goes on hands all of them, followed
    by the new page, to the next pass. *)
Theorem catalog_loop_only_appends (server : service) (term : string) :
  (forall fuel acc offset tc c res c',
      catalog_loop server fuel term acc offset tc c = (Ok res, c') ->
      exists rest, res = acc ++ rest)
  /\ (forall acc offset tc c stop acc' tc' c',
         catalog_page server term acc offset tc c = (Ok (stop, acc', tc'), c') ->
         exists items, acc' = acc ++ items).
Proof.
  split.
  - intros fuel. apply catalog_loop_extends.
  - intros acc offset tc c stop acc' tc' c' Ep.
    destruct (catalog_page_inv _ _ _ _ _ _ _ _ _ _ Ep)
      as (data & courses & items & n & _ & _ & _ & -> & _).
    now exists items.
Qed.

Lemma catalog_loop_only_appends_witness :
  exists rest,
    fst (catalog_loop two_page_service 1 "202510" (repeat stub_course 500)
                      500%Z (JInt 501) (sent ready_client))
    = Ok (repeat stub_course 500 ++ rest).
Proof.
  destruct (catalog_loop two_page_service 1 "202510" (repeat stub_course 500)
                         500%Z (JInt 501) (sent ready_client))
    as [[res| |] c'] eqn:E; try (vm_compute in E; discriminate E).
  destruct (proj1 (catalog_loop_only_appends two_page_service "202510")
                  _ _ _ _ _ _ _ E) as [rest ->].
  now exists rest.
Defined.
